(** * UrbanWell backend: data acquisition, persistence and composite scoring

    A shallow embedding of [urbanwell_nasa_backend.py].  Python floats are
    read as exact rationals ([Q]), Python ints as [Z], a [str] as the
    [string] of its UTF-8 bytes, a dict with a fixed key set as a record
    and a decoded JSON body as a tree of Python objects.  Exceptions are
    explicit: code that can raise lives in a state-and-exception monad
    whose state survives a raise, as the interpreter's state does. *)

From Stdlib Require Import ZArith QArith Qminmax List String Ascii Bool.
From Stdlib Require Import DecimalString.
From Stdlib Require Import Lia Lqa Sorted Permutation OrdersEx RelationClasses.
Import ListNotations.

Set Implicit Arguments.

(* ------------------------------------------------------------------ *)
(** ** Python runtime: exceptions, truthiness, [min]/[max] *)

Module Py.

(** The exception classes the program can meet.  All of them derive
    from [Exception]; [ImportError] is the only one a handler of the
    program singles out. *)
Inductive exn : Type :=
| ImportError
| AttributeError (name : string)
| IndexError
| KeyError
| TypeError
| OverflowError
| DatabaseError                    (* sqlite3.DatabaseError and its subclasses *)
| VendorError (detail : string).

Definition is_ImportError (e : exn) : bool :=
  match e with ImportError => true | _ => false end.

(** [except Exception] and a bare [except] catch every model exception. *)
Definition is_Exception (e : exn) : bool := true.

Inductive outcome (A : Type) : Type :=
| Return (a : A)
| Raise (e : exn).
Arguments Raise {A} e.

Definition M (S A : Type) : Type := S -> outcome A * S.

Definition ret {S A} (a : A) : M S A := fun s => (Return a, s).

Definition bind {S A B} (m : M S A) (k : A -> M S B) : M S B :=
  fun s =>
    match m s with
    | (Return a, s') => k a s'
    | (Raise e, s') => (Raise e, s')
    end.

Definition raise {S A} (e : exn) : M S A := fun s => (Raise e, s).

Definition lift {S A} (o : outcome A) : M S A := fun s => (o, s).

(** [try: body  except <class> as e: handler e] *)
Definition try_except {S A} (body : M S A) (catches : exn -> bool)
           (handler : exn -> M S A) : M S A :=
  fun s =>
    match body s with
    | (Return a, s') => (Return a, s')
    | (Raise e, s') => if catches e then handler e s' else (Raise e, s')
    end.

(** Truth value of a [str]: non-empty. *)
Definition truthy (s : string) : bool := negb (String.eqb s "").

Definition Qltb (x y : Q) : bool := negb (Qle_bool y x).

(** Two-argument [max(a, b)] and [min(a, b)]: the first argument is kept
    unless the second is strictly greater (resp. smaller). *)
Definition max (a b : Q) : Q := if Qltb a b then b else a.
Definition min (a b : Q) : Q := if Qltb b a then b else a.
Definition maxZ (a b : Z) : Z := if (a <? b)%Z then b else a.

(** *** Characters of a [str]

    A [str] is held as its UTF-8 bytes, as the environment and the
    database hold it.  Indexing and slicing count characters (code
    points): a well-formed UTF-8 sequence is one character, and a byte
    that starts no well-formed sequence is one character of its own (the
    [surrogateescape] reading of the environment). *)
Definition byte_in (lo hi : nat) (c : ascii) : bool :=
  let n := nat_of_ascii c in (lo <=? n)%nat && (n <=? hi)%nat.

Definition continuation (c : ascii) : bool := byte_in 128 191 c.

(** The second byte a three- or four-byte sequence admits after the
    lead byte [c]. *)
Definition second_of_three (c b : ascii) : bool :=
  if byte_in 224 224 c then byte_in 160 191 b
  else if byte_in 237 237 c then byte_in 128 159 b
  else continuation b.

Definition second_of_four (c b : ascii) : bool :=
  if byte_in 240 240 c then byte_in 144 191 b
  else if byte_in 244 244 c then byte_in 128 143 b
  else continuation b.

(** The number of bytes of the first character of [s]. *)
Definition char_width (s : string) : nat :=
  match s with
  | EmptyString => 0
  | String c s1 =>
      if byte_in 0 127 c then 1
      else if byte_in 194 223 c then
        match s1 with
        | String b1 _ => if continuation b1 then 2 else 1
        | _ => 1
        end
      else if byte_in 224 239 c then
        match s1 with
        | String b1 (String b2 _) =>
            if second_of_three c b1 && continuation b2 then 3 else 1
        | _ => 1
        end
      else if byte_in 240 244 c then
        match s1 with
        | String b1 (String b2 (String b3 _)) =>
            if second_of_four c b1 && continuation b2 && continuation b3
            then 4 else 1
        | _ => 1
        end
      else 1
  end.

Fixpoint skip_bytes (k : nat) (s : string) : string :=
  match k, s with
  | S k', String _ s' => skip_bytes k' s'
  | _, _ => s
  end.

(** [s[:n]]: the first [n] characters of [s]. *)
Fixpoint slice_to (n : nat) (s : string) : string :=
  match n with
  | O => EmptyString
  | S n' =>
      let w := char_width s in
      (substring 0 w s ++ slice_to n' (skip_bytes w s))%string
  end.

(** [needle in hay] for two [str]. *)
Fixpoint occurs (needle hay : string) : bool :=
  prefix needle hay
  || match hay with
     | EmptyString => false
     | String _ hay' => occurs needle hay'
     end.

(** *** The objects of a decoded JSON document *)

(** A float is read as an exact rational when it is finite. *)
Inductive float : Type :=
| Finite (q : Q)
| Inf (negative : bool)
| NaN.

(** What [json.loads] builds: [None], [bool], [int], [float], [str],
    [list] and [dict] (with [str] keys). *)
#[local] Unset Elimination Schemes.
Inductive object : Type :=
| PyNone
| PyBool (b : bool)
| PyInt (n : Z)
| PyFloat (x : float)
| PyStr (s : string)
| PyList (l : list object)
| PyDict (items : list (string * object)).
#[local] Set Elimination Schemes.

(** Truth value of an object. *)
Definition truth (v : object) : bool :=
  match v with
  | PyNone => false
  | PyBool b => b
  | PyInt n => negb (n =? 0)%Z
  | PyFloat (Finite q) => negb (Qeq_bool q 0)
  | PyFloat _ => true
  | PyStr s => truthy s
  | PyList l => match l with [] => false | _ => true end
  | PyDict items => match items with [] => false | _ => true end
  end.

Definition lookup (items : list (string * object)) (k : string)
  : option object :=
  match find (fun kv => String.eqb (fst kv) k) items with
  | Some kv => Some (snd kv)
  | None => None
  end.

(** [k in data] for a [str] [k]: key of a dict, element of a list,
    substring of a [str]; anything else is not iterable. *)
Definition contains (data : object) (k : string) : outcome bool :=
  match data with
  | PyDict items =>
      Return (match lookup items k with Some _ => true | None => false end)
  | PyList l =>
      Return (existsb (fun v => match v with
                                | PyStr s => String.eqb s k
                                | _ => false
                                end) l)
  | PyStr s => Return (occurs k s)
  | _ => Raise TypeError
  end.

(** [all(k in data for k in keys)] *)
Fixpoint all_in (data : object) (keys : list string) : outcome bool :=
  match keys with
  | [] => Return true
  | k :: keys' =>
      match contains data k with
      | Return true => all_in data keys'
      | o => o
      end
  end.

(** [data[k]] for a [str] [k]. *)
Definition getitem (data : object) (k : string) : outcome object :=
  match data with
  | PyDict items =>
      match lookup items k with
      | Some v => Return v
      | None => Raise KeyError
      end
  | _ => Raise TypeError
  end.

(** [data.get(k)] *)
Definition item_or_none (items : list (string * object)) (k : string)
  : object :=
  match lookup items k with Some v => v | None => PyNone end.

Definition dict_get (data : object) (k : string) : outcome object :=
  match data with
  | PyDict items => Return (item_or_none items k)
  | _ => Raise (AttributeError "get")
  end.

(** The numbers among the objects: [int], [bool] and [float]. *)
Definition number (v : object) : option float :=
  match v with
  | PyBool b => Some (Finite (if b then 1 else 0))
  | PyInt n => Some (Finite (inject_Z n))
  | PyFloat x => Some x
  | _ => None
  end.

Definition float_le (x y : float) : bool :=
  match x, y with
  | NaN, _ | _, NaN => false
  | Finite a, Finite b => Qle_bool a b
  | Inf true, _ => true
  | _, Inf false => true
  | _, _ => false
  end.

(** [lo <= v] and [v <= hi] for an [int] literal and an object: a number
    is compared by value, anything else raises [TypeError]. *)
Definition int_le (lo : Z) (v : object) : outcome bool :=
  match number v with
  | Some x => Return (float_le (Finite (inject_Z lo)) x)
  | None => Raise TypeError
  end.

Definition le_int (v : object) (hi : Z) : outcome bool :=
  match number v with
  | Some x => Return (float_le x (Finite (inject_Z hi)))
  | None => Raise TypeError
  end.

(** The chained comparison [lo <= v <= hi]: the second comparison is
    made only when the first holds. *)
Definition between (lo : Z) (v : object) (hi : Z) : outcome bool :=
  match int_le lo v with
  | Return true => le_int v hi
  | o => o
  end.

End Py.

Notation "x <- c ;; k" := (Py.bind c (fun x => k))
  (at level 61, c at next level, right associativity).

(* ------------------------------------------------------------------ *)
(** ** The [random] module and the wall clock *)

(** The generator behind Python's [random], by its documented contract:
    [random()] returns a float in [0.0 <= x < 1.0] and [_randbelow(n)]
    an int in [0 <= k < n]. *)
Class PyRandom (G : Type) : Type := {
  random : G -> Q * G;
  randbelow : Z -> G -> Z * G;
  random_range : forall g, 0 <= fst (random g) /\ fst (random g) < 1;
  randbelow_range :
    forall n g, (0 < n)%Z -> (0 <= fst (randbelow n g) < n)%Z
}.

(** One reading of [datetime.now()], in the two formats the program uses. *)
Record datetime : Type := {
  isoformat : string;          (* .isoformat()          *)
  strftime_Ymd : string        (* .strftime('%Y-%m-%d') *)
}.

Section Runtime.
Context {G : Type} `{PyRandom G}.

(** What a request handler can observe and advance: the generator and
    the clock (the n-th reading of [datetime.now()]). *)
Record runtime : Type := {
  gen : G;
  wallclock : nat -> datetime;
  ticks : nat
}.

Definition now : Py.M runtime datetime :=
  fun rt =>
    (Py.Return (wallclock rt (ticks rt)),
     {| gen := gen rt; wallclock := wallclock rt; ticks := S (ticks rt) |}).

Definition with_gen {A} (f : G -> A * G) : Py.M runtime A :=
  fun rt =>
    let (a, g') := f (gen rt) in
    (Py.Return a,
     {| gen := g'; wallclock := wallclock rt; ticks := ticks rt |}).

(** [random.uniform(a, b)] is [a + (b - a) * random()]. *)
Definition uniform (a b : Q) : Py.M runtime Q :=
  r <- with_gen random ;; Py.ret (a + (b - a) * r).

(** [random.randint(a, b)] is [a + _randbelow(b - a + 1)]. *)
Definition randint (a b : Z) : Py.M runtime Z :=
  k <- with_gen (randbelow (b - a + 1)) ;; Py.ret (a + k)%Z.

(** [random.choice(seq)] is [seq[_randbelow(len(seq))]]; an empty
    sequence raises [IndexError]. *)
Definition choice {A} (seq : list A) : Py.M runtime A :=
  match seq with
  | [] => Py.raise Py.IndexError
  | d :: _ =>
      k <- with_gen (randbelow (Z.of_nat (List.length seq))) ;;
      Py.ret (nth (Z.to_nat k) seq d)
  end.

End Runtime.

(* ------------------------------------------------------------------ *)
(** ** The vendor side: HTTP session and the optional [earthaccess] library *)

Module Vendor.

(** A decoded JSON body; the program never looks inside one. *)
Definition json : Type := string.
Definition granule : Type := string.

Inductive param : Type :=
| PNum (q : Q)
| PStr (s : string).

Record response : Type := {
  status_code : Z;
  json_body : Py.outcome json          (* response.json() *)
}.

Record earthaccess : Type := {
  (* earthaccess.login(username=, password=, persist=True) *)
  login : string -> string -> Py.outcome unit;
  (* earthaccess.search_data(short_name=, bounding_box=, temporal=, count=) *)
  search_data :
    string -> Q * Q * Q * Q -> string * string -> Z ->
    Py.outcome (list granule);
  (* earthaccess.download(granules, local_path=) *)
  download : list granule -> string -> Py.outcome (list string)
}.

(** Everything outside the process that a fetch can touch. *)
Record world : Type := {
  (* self.session.get(url, params=params) *)
  session_get : string -> list (string * param) -> Py.outcome response;
  (* import earthaccess *)
  import_earthaccess : Py.outcome earthaccess
}.

End Vendor.

(* ------------------------------------------------------------------ *)
(** ** Observations (the dicts the fetchers return) *)

Record air_obs : Type := {
  air_timestamp : string;
  no2 : Q;
  o3 : Q;
  pm25 : Q;
  so2 : Q;
  aqi : Z;
  air_source : string
}.

Record water_obs : Type := {
  water_timestamp : string;
  groundwater_level : Q;
  precipitation : Q;
  flood_risk : string;
  water_source : string
}.

Record vegetation_obs : Type := {
  vegetation_timestamp : string;
  ndvi : Q;
  evi : Q;
  green_coverage : Q;
  temperature : Q;
  vegetation_source : string
}.

(* ------------------------------------------------------------------ *)
(** ** [NASA_CONFIG] and [NASAAPIClient] *)

Record NASA_CONFIG_t : Type := {
  earthdata_username : string;
  earthdata_password : string;
  config_api_key : string;
  base_url : string;
  earthdata_url : string
}.

(** [NASA_CONFIG] for given environment variables. *)
Definition NASA_CONFIG (env_username env_password env_api_key : string)
  : NASA_CONFIG_t :=
  {| earthdata_username := env_username;
     earthdata_password := env_password;
     config_api_key := env_api_key;
     base_url := "https://api.nasa.gov";
     earthdata_url := "https://urs.earthdata.nasa.gov" |}.

Module NASAAPIClient.

Import Vendor.

Record t : Type := {
  username : string;
  password : string;
  api_key : string;
  authenticated : bool;
  session_auth : option (string * string);   (* self.session.auth *)
  config : NASA_CONFIG_t
}.

Definition set_authenticated (self : t) (b : bool) : t :=
  {| username := username self; password := password self;
     api_key := api_key self; authenticated := b;
     session_auth := session_auth self; config := config self |}.

Definition set_session_auth (self : t) (a : string * string) : t :=
  {| username := username self; password := password self;
     api_key := api_key self; authenticated := authenticated self;
     session_auth := Some a; config := config self |}.

(** [setup_authentication]: the object is the state of the monad, since
    the handlers assign to its attributes. *)
Definition setup_authentication (w : world) : Py.M t unit :=
  Py.try_except
    (Py.try_except
       (ea <- Py.lift (import_earthaccess w) ;;
        _ <- (fun self => (login ea (username self) (password self), self)) ;;
        fun self => (Py.Return tt, set_authenticated self true))
       Py.is_ImportError
       (fun _ self =>
          (Py.Return tt,
           set_authenticated
             (set_session_auth self (username self, password self)) true)))
    Py.is_Exception
    (fun _ self => (Py.Return tt, set_authenticated self false)).

(** [__init__] *)
Definition init (NASA_CONFIG : NASA_CONFIG_t) (w : world) : t :=
  let self :=
    {| username := earthdata_username NASA_CONFIG;
       password := earthdata_password NASA_CONFIG;
       api_key := config_api_key NASA_CONFIG;
       authenticated := false;
       session_auth := None;
       config := NASA_CONFIG |} in
  if Py.truthy (username self) && Py.truthy (password self)
  then snd (setup_authentication w self)
  else self.

Section Fetchers.
Context {G : Type} `{PyRandom G}.
Variable w : world.
Variable self : t.

Local Abbreviation M := (Py.M (runtime (G := G))).

(** *** Simulation methods *)

Definition _simulate_air_quality_data : M air_obs :=
  ts <- now ;;
  v_no2 <- uniform 10 50 ;;
  v_o3 <- uniform 20 80 ;;
  v_pm25 <- uniform 5 35 ;;
  v_so2 <- uniform 1 15 ;;
  v_aqi <- randint 50 150 ;;
  Py.ret {| air_timestamp := isoformat ts;
            no2 := v_no2; o3 := v_o3; pm25 := v_pm25; so2 := v_so2;
            aqi := v_aqi; air_source := "SIMULATION" |}.

Definition _simulate_water_data : M water_obs :=
  ts <- now ;;
  v_gw <- uniform (-20) 20 ;;
  v_pr <- uniform 0 15 ;;
  v_fr <- choice ["Low"; "Medium"; "High"]%string ;;
  Py.ret {| water_timestamp := isoformat ts;
            groundwater_level := v_gw; precipitation := v_pr;
            flood_risk := v_fr; water_source := "SIMULATION" |}.

Definition _simulate_vegetation_data : M vegetation_obs :=
  ts <- now ;;
  v_ndvi <- uniform 0.2 0.8 ;;
  v_evi <- uniform 0.1 0.6 ;;
  v_gc <- uniform 15 65 ;;
  v_t <- uniform 20 35 ;;
  Py.ret {| vegetation_timestamp := isoformat ts;
            ndvi := v_ndvi; evi := v_evi; green_coverage := v_gc;
            temperature := v_t; vegetation_source := "SIMULATION" |}.

(** *** Processing of a vendor response.  The payload [data] is not
    read: the metrics come from the same generators as simulation. *)

Definition _process_nasa_air_data (data : json) (lat lon : Q) : M air_obs :=
  Py.try_except
    (ts <- now ;;
     v_no2 <- uniform 10 50 ;;
     v_o3 <- uniform 20 80 ;;
     v_pm25 <- uniform 5 35 ;;
     v_so2 <- uniform 1 15 ;;
     v_aqi <- randint 50 150 ;;
     Py.ret {| air_timestamp := isoformat ts;
               no2 := v_no2; o3 := v_o3; pm25 := v_pm25; so2 := v_so2;
               aqi := v_aqi; air_source := "NASA_TEMPO_OMI" |})
    Py.is_Exception
    (fun _ => _simulate_air_quality_data).

Definition _process_nasa_water_data (data : json) (lat lon : Q)
  : M water_obs :=
  Py.try_except
    (ts <- now ;;
     v_gw <- uniform (-20) 20 ;;
     v_pr <- uniform 0 15 ;;
     v_fr <- choice ["Low"; "Medium"; "High"]%string ;;
     Py.ret {| water_timestamp := isoformat ts;
               groundwater_level := v_gw; precipitation := v_pr;
               flood_risk := v_fr; water_source := "NASA_GRACE_GPM" |})
    Py.is_Exception
    (fun _ => _simulate_water_data).

Definition _process_nasa_vegetation_data (data : json) (lat lon : Q)
  : M vegetation_obs :=
  Py.try_except
    (ts <- now ;;
     v_ndvi <- uniform 0.2 0.8 ;;
     v_evi <- uniform 0.1 0.6 ;;
     v_gc <- uniform 15 65 ;;
     v_t <- uniform 20 35 ;;
     Py.ret {| vegetation_timestamp := isoformat ts;
               ndvi := v_ndvi; evi := v_evi; green_coverage := v_gc;
               temperature := v_t;
               vegetation_source := "NASA_MODIS_LANDSAT" |})
    Py.is_Exception
    (fun _ => _simulate_vegetation_data).

(** *** Alternative vendor paths (method 3) *)

(** A [return] inside [try] leaves the function; falling out of the
    [try] (status other than 200, or an exception swallowed by the bare
    [except]) reaches the final [return self._simulate_...()]. *)
Definition _fetch_nasa_opendata_air_quality (lat lon : Q) (date : string)
  : M air_obs :=
  let url := "https://data.nasa.gov/api/views/xxxx-xxxx/rows.json"%string in
  r <- Py.try_except
         (response <- Py.lift (session_get w url []) ;;
          if (status_code response =? 200)%Z
          then
            data <- Py.lift (json_body response) ;;
            obs <- _process_nasa_air_data data lat lon ;;
            Py.ret (Some obs)
          else Py.ret None)
         Py.is_Exception
         (fun _ => Py.ret None) ;;
  match r with
  | Some obs => Py.ret obs
  | None => _simulate_air_quality_data
  end.

Definition _fetch_nasa_precipitation_data (lat lon : Q) (date : string)
  : M water_obs :=
  Py.try_except _simulate_water_data
                Py.is_Exception (fun _ => _simulate_water_data).

Definition _fetch_nasa_landsat_data (lat lon : Q) (date : string)
  : M vegetation_obs :=
  Py.try_except _simulate_vegetation_data
                Py.is_Exception (fun _ => _simulate_vegetation_data).

(** [date = datetime.now().strftime('%Y-%m-%d')] when no date is given. *)
Definition default_date (date : option string) : M string :=
  match date with
  | Some d => Py.ret d
  | None => ts <- now ;; Py.ret (strftime_Ymd ts)
  end.

(** The [params] dict of method 1. *)
Definition assets_params (latitude longitude : Q) (date : string)
  : list (string * param) :=
  [("lon", PNum longitude); ("lat", PNum latitude); ("date", PStr date);
   ("dim", PNum 0.10); ("api_key", PStr (api_key self))]%string.

Definition imagery_params (latitude longitude : Q) (date : string)
  : list (string * param) :=
  [("lon", PNum longitude); ("lat", PNum latitude); ("date", PStr date);
   ("api_key", PStr (api_key self))]%string.

Definition bounding_box (half : Q) (latitude longitude : Q)
  : Q * Q * Q * Q :=
  (longitude - half, latitude - half, longitude + half, latitude + half).

(** *** The three public fetch operations.  Each method yields
    [Some obs] when it returns from the function and [None] when
    control falls through to the next method. *)

Definition get_air_quality_data (latitude longitude : Q)
           (date : option string) : M air_obs :=
  date <- default_date date ;;
  if negb (authenticated self) then _simulate_air_quality_data
  else
    Py.try_except
      (m1 <- (if Py.truthy (api_key self) then
                let air_quality_url :=
                  (base_url (config self)
                   ++ "/planetary/earth/assets")%string in
                response <- Py.lift
                  (session_get w air_quality_url
                               (assets_params latitude longitude date)) ;;
                if (status_code response =? 200)%Z then
                  data <- Py.lift (json_body response) ;;
                  obs <- _process_nasa_air_data data latitude longitude ;;
                  Py.ret (Some obs)
                else Py.ret None
              else Py.ret None) ;;
       match m1 with
       | Some obs => Py.ret obs
       | None =>
           m2 <- Py.try_except
                   (ea <- Py.lift (import_earthaccess w) ;;
                    results <- Py.lift
                      (search_data ea "OMNO2d"
                         (bounding_box 0.1 latitude longitude)
                         (date, date) 1) ;;
                    match results with
                    | [] => Py.ret None
                    | _ :: _ =>
                        files <- Py.lift
                          (download ea (firstn 1 results) "./nasa_data/") ;;
                        (* self._process_omi_data is not defined *)
                        Py.raise (Py.AttributeError "_process_omi_data")
                    end)
                   Py.is_ImportError
                   (fun _ => Py.ret None) ;;
           match m2 with
           | Some obs => Py.ret obs
           | None => _fetch_nasa_opendata_air_quality latitude longitude date
           end
       end)
      Py.is_Exception
      (fun _ => _simulate_air_quality_data).

Definition get_water_security_data (latitude longitude : Q)
           (date : option string) : M water_obs :=
  date <- default_date date ;;
  if negb (authenticated self) then _simulate_water_data
  else
    Py.try_except
      (m1 <- (if Py.truthy (api_key self) then
                let hydro_url :=
                  (base_url (config self)
                   ++ "/planetary/earth/imagery")%string in
                response <- Py.lift
                  (session_get w hydro_url
                               (imagery_params latitude longitude date)) ;;
                if (status_code response =? 200)%Z then
                  data <- Py.lift (json_body response) ;;
                  obs <- _process_nasa_water_data data latitude longitude ;;
                  Py.ret (Some obs)
                else Py.ret None
              else Py.ret None) ;;
       match m1 with
       | Some obs => Py.ret obs
       | None =>
           m2 <- Py.try_except
                   (ea <- Py.lift (import_earthaccess w) ;;
                    results <- Py.lift
                      (search_data ea "TELLUS_GRAC_L3_GWS_RL06_LND_v04"
                         (bounding_box 0.5 latitude longitude)
                         (date, date) 1) ;;
                    match results with
                    | [] => Py.ret None
                    | _ :: _ =>
                        (* self._process_grace_data is not defined *)
                        Py.raise (Py.AttributeError "_process_grace_data")
                    end)
                   Py.is_ImportError
                   (fun _ => Py.ret None) ;;
           match m2 with
           | Some obs => Py.ret obs
           | None => _fetch_nasa_precipitation_data latitude longitude date
           end
       end)
      Py.is_Exception
      (fun _ => _simulate_water_data).

Definition get_vegetation_data (latitude longitude : Q)
           (date : option string) : M vegetation_obs :=
  date <- default_date date ;;
  if negb (authenticated self) then _simulate_vegetation_data
  else
    Py.try_except
      (m1 <- (if Py.truthy (api_key self) then
                let vegetation_url :=
                  (base_url (config self)
                   ++ "/planetary/earth/assets")%string in
                response <- Py.lift
                  (session_get w vegetation_url
                               (assets_params latitude longitude date)) ;;
                if (status_code response =? 200)%Z then
                  data <- Py.lift (json_body response) ;;
                  obs <- _process_nasa_vegetation_data data latitude
                                                       longitude ;;
                  Py.ret (Some obs)
                else Py.ret None
              else Py.ret None) ;;
       match m1 with
       | Some obs => Py.ret obs
       | None =>
           m2 <- Py.try_except
                   (ea <- Py.lift (import_earthaccess w) ;;
                    results <- Py.lift
                      (search_data ea "MOD13Q1"
                         (bounding_box 0.1 latitude longitude)
                         (date, date) 1) ;;
                    match results with
                    | [] => Py.ret None
                    | _ :: _ =>
                        (* self._process_modis_data is not defined *)
                        Py.raise (Py.AttributeError "_process_modis_data")
                    end)
                   Py.is_ImportError
                   (fun _ => Py.ret None) ;;
           match m2 with
           | Some obs => Py.ret obs
           | None => _fetch_nasa_landsat_data latitude longitude date
           end
       end)
      Py.is_Exception
      (fun _ => _simulate_vegetation_data).

End Fetchers.

End NASAAPIClient.

(* ------------------------------------------------------------------ *)
(** ** The SQLite database *)

Module Db.

(** What a column can hold: one of SQLite's storage classes (the
    program stores no BLOB). *)
Inductive value : Type :=
| Null
| Integer (n : Z)
| Real (x : Py.float)
| Text (s : string).

(** An INTEGER has 64 bits. *)
Definition int64 (n : Z) : bool :=
  (- 2 ^ 63 <=? n)%Z && (n <? 2 ^ 63)%Z.

(** How the [sqlite3] module binds a Python object to a [?] of a
    statement: an [int] that does not fit 64 bits raises [OverflowError],
    a list or a dict is of no supported type ([sqlite3.ProgrammingError]),
    and a NaN is bound as NULL. *)
Definition bind (v : Py.object) : Py.outcome value :=
  match v with
  | Py.PyNone => Py.Return Null
  | Py.PyBool b => Py.Return (Integer (if b then 1 else 0))
  | Py.PyInt n =>
      if int64 n then Py.Return (Integer n) else Py.Raise Py.OverflowError
  | Py.PyFloat Py.NaN => Py.Return Null
  | Py.PyFloat x => Py.Return (Real x)
  | Py.PyStr s => Py.Return (Text s)
  | Py.PyList _ | Py.PyDict _ => Py.Raise Py.DatabaseError
  end.

(** What the model takes from SQLite as given when a location is
    inserted: a fault of the store, and the two conversions between
    numbers and text that the column affinities rest on. *)
Record engine : Type := {
  insert_fails : bool;
  real_to_text : Q -> string;        (* the text form of a finite REAL *)
  text_to_number : string -> option value
    (* the INTEGER or REAL a text is a well-formed literal of *)
}.

(** The column affinities.  TEXT: a number is stored in its text
    form. *)
Definition text_affinity (sqlite : engine) (v : value) : value :=
  match v with
  | Integer n => Text (NilZero.string_of_int (Z.to_int n))
  | Real (Py.Finite q) => Text (real_to_text sqlite q)
  | Real (Py.Inf negative) => Text (if negative then "-Inf" else "Inf")
  | Real Py.NaN => Null
  | _ => v
  end.

(** A REAL that is an integer strictly within the 64-bit range becomes
    an INTEGER. *)
Definition exact_integer (x : Py.float) : value :=
  match x with
  | Py.Finite q =>
      let n := (Qnum q / Zpos (Qden q))%Z in
      if Qeq_bool q (inject_Z n) && (- 2 ^ 63 <? n)%Z && (n <? 2 ^ 63 - 1)%Z
      then Integer n else Real x
  | _ => Real x
  end.

(** INTEGER (and NUMERIC): a text that is a well-formed number is stored
    as that number, an integral REAL as an INTEGER. *)
Definition integer_affinity (sqlite : engine) (v : value) : value :=
  match v with
  | Real x => exact_integer x
  | Text s =>
      match text_to_number sqlite s with
      | Some (Integer n) => Integer n
      | Some (Real x) => exact_integer x
      | _ => v
      end
  | _ => v
  end.

(** REAL: a text that is a well-formed number is stored as that number,
    and every number as a REAL. *)
Definition real_affinity (sqlite : engine) (v : value) : value :=
  match v with
  | Integer n => Real (Py.Finite (inject_Z n))
  | Text s =>
      match text_to_number sqlite s with
      | Some (Integer n) => Real (Py.Finite (inject_Z n))
      | Some (Real x) => Real x
      | _ => v
      end
  | _ => v
  end.

(** A row of [locations]: [name TEXT NOT NULL], [latitude] and
    [longitude REAL NOT NULL] (a finite number in every row the program
    inserts), [population INTEGER] and [area REAL].  The column
    [created_at], filled by the database's own clock, is left out. *)
Record location : Type := {
  id : Z;
  name : string;
  latitude : Q;
  longitude : Q;
  population : value;
  area : value
}.

(** A row of one of the three observation tables: the columns after
    [location_id] are the fields of the observation, [source] being
    stored as [data_source]. *)
Record row (O : Type) : Type := {
  row_id : Z;
  location_id : Z;
  obs : O
}.

(** A row of [api_logs] (its [timestamp] default is left out). *)
Record api_log : Type := {
  log_id : Z;
  endpoint : string;
  log_latitude : Q;
  log_longitude : Q;
  response_status : string
}.

Record database : Type := {
  locations : list location;
  air_quality : list (row air_obs);
  water_data : list (row water_obs);
  vegetation : list (row vegetation_obs);
  api_logs : list api_log
}.

(** The rowid SQLite gives to a new row of an [INTEGER PRIMARY KEY]
    table: one more than the largest in use, 1 in an empty table. *)
Definition next_rowid (ids : list Z) : Z :=
  (fold_right Z.max 0 ids + 1)%Z.

(** An open connection: what is on disk and what the connection sees,
    the two differing by the uncommitted statements. *)
Record connection : Type := {
  durable : database;
  pending : database
}.

Definition get_db (db : database) : connection :=
  {| durable := db; pending := db |}.

(** [conn.commit()]; [fail] is an injected store fault. *)
Definition commit (fail : bool) : Py.M connection unit :=
  fun conn =>
    if fail then (Py.Raise Py.DatabaseError, conn)
    else (Py.Return tt, {| durable := pending conn; pending := pending conn |}).

(** [conn.close()]: uncommitted statements are rolled back. *)
Definition close : Py.M connection unit :=
  fun conn =>
    (Py.Return tt, {| durable := durable conn; pending := durable conn |}).

Definition with_pending (conn : connection) (db : database) : connection :=
  {| durable := durable conn; pending := db |}.

(** [conn.execute(sql, parameters)] for a [SELECT]: the parameters are
    bound, the first that cannot be bound raising its exception, and the
    statement is evaluated on what the connection sees. *)
Fixpoint bind_all (parameters : list Py.object) : Py.outcome unit :=
  match parameters with
  | [] => Py.Return tt
  | v :: parameters' =>
      match bind v with
      | Py.Return _ => bind_all parameters'
      | Py.Raise e => Py.Raise e
      end
  end.

Definition execute {A} (parameters : list Py.object) (rows : database -> A)
  : Py.M connection A :=
  fun conn =>
    match bind_all parameters with
    | Py.Return _ => (Py.Return (rows (pending conn)), conn)
    | Py.Raise e => (Py.Raise e, conn)
    end.

(** The [INSERT] statements; each returns [cursor.lastrowid].  [fail] is
    an injected store fault. *)

(** A row of [locations], given by what its columns hold. *)
Definition insert_location (fail : bool)
           (v_name : string) (v_lat v_lon : Q)
           (v_pop v_area : value) : Py.M connection Z :=
  fun conn =>
    if fail then (Py.Raise Py.DatabaseError, conn)
    else
      let db := pending conn in
      let rid := next_rowid (map id (locations db)) in
      (Py.Return rid,
       with_pending conn
         {| locations := locations db ++
              [{| id := rid; name := v_name; latitude := v_lat;
                  longitude := v_lon; population := v_pop; area := v_area |}];
            air_quality := air_quality db; water_data := water_data db;
            vegetation := vegetation db; api_logs := api_logs db |}).

(** [INSERT INTO locations (name, latitude, longitude, population, area)
    VALUES (?, ?, ?, ?, ?)] on five Python objects: they are bound in
    their order, converted by the affinity of their column, and the row is
    refused when [name] is NULL ([sqlite3.IntegrityError]).  The
    coordinates of a row are finite numbers: the one caller passes
    numbers it has compared with its bounds. *)
Definition insert_location_values (sqlite : engine)
           (v_name v_lat v_lon v_pop v_area : Py.object)
  : Py.M connection Z :=
  b_name <- Py.lift (bind v_name) ;;
  b_lat <- Py.lift (bind v_lat) ;;
  b_lon <- Py.lift (bind v_lon) ;;
  b_pop <- Py.lift (bind v_pop) ;;
  b_area <- Py.lift (bind v_area) ;;
  match text_affinity sqlite b_name,
        real_affinity sqlite b_lat, real_affinity sqlite b_lon with
  | Text c_name, Real (Py.Finite c_lat), Real (Py.Finite c_lon) =>
      insert_location (insert_fails sqlite) c_name c_lat c_lon
                      (integer_affinity sqlite b_pop)
                      (real_affinity sqlite b_area)
  | _, _, _ => Py.raise Py.DatabaseError
  end.

(** The observation rows: [location_id] and [aqi] are the [int]
    parameters. *)
Definition insert_air_quality (fail : bool) (loc : Z) (o : air_obs)
  : Py.M connection Z :=
  fun conn =>
    if negb (int64 loc && int64 (aqi o))
    then (Py.Raise Py.OverflowError, conn)
    else if fail then (Py.Raise Py.DatabaseError, conn)
    else
      let db := pending conn in
      let rid := next_rowid (map (@row_id _) (air_quality db)) in
      (Py.Return rid,
       with_pending conn
         {| locations := locations db;
            air_quality := air_quality db ++
              [{| row_id := rid; location_id := loc; obs := o |}];
            water_data := water_data db;
            vegetation := vegetation db; api_logs := api_logs db |}).

Definition insert_water_data (fail : bool) (loc : Z) (o : water_obs)
  : Py.M connection Z :=
  fun conn =>
    if negb (int64 loc) then (Py.Raise Py.OverflowError, conn)
    else if fail then (Py.Raise Py.DatabaseError, conn)
    else
      let db := pending conn in
      let rid := next_rowid (map (@row_id _) (water_data db)) in
      (Py.Return rid,
       with_pending conn
         {| locations := locations db; air_quality := air_quality db;
            water_data := water_data db ++
              [{| row_id := rid; location_id := loc; obs := o |}];
            vegetation := vegetation db; api_logs := api_logs db |}).

Definition insert_vegetation (fail : bool) (loc : Z) (o : vegetation_obs)
  : Py.M connection Z :=
  fun conn =>
    if negb (int64 loc) then (Py.Raise Py.OverflowError, conn)
    else if fail then (Py.Raise Py.DatabaseError, conn)
    else
      let db := pending conn in
      let rid := next_rowid (map (@row_id _) (vegetation db)) in
      (Py.Return rid,
       with_pending conn
         {| locations := locations db; air_quality := air_quality db;
            water_data := water_data db;
            vegetation := vegetation db ++
              [{| row_id := rid; location_id := loc; obs := o |}];
            api_logs := api_logs db |}).

Definition insert_api_log (fail : bool) (v_endpoint : string)
           (v_lat v_lon : Q) (v_status : string) : Py.M connection Z :=
  fun conn =>
    if fail then (Py.Raise Py.DatabaseError, conn)
    else
      let db := pending conn in
      let rid := next_rowid (map log_id (api_logs db)) in
      (Py.Return rid,
       with_pending conn
         {| locations := locations db; air_quality := air_quality db;
            water_data := water_data db; vegetation := vegetation db;
            api_logs := api_logs db ++
              [{| log_id := rid; endpoint := v_endpoint;
                  log_latitude := v_lat; log_longitude := v_lon;
                  response_status := v_status |}] |}).

(** [ORDER BY timestamp DESC] on a [TEXT] column: byte-wise string
    order, largest first.  Rows with equal timestamps keep their table
    order (SQLite leaves the order of ties open). *)
Fixpoint insert_desc {A} (key : A -> string) (x : A) (l : list A) : list A :=
  match l with
  | [] => [x]
  | y :: l' =>
      if String.leb (key y) (key x) then x :: l
      else y :: insert_desc key x l'
  end.

Definition order_by_desc {A} (key : A -> string) (l : list A) : list A :=
  fold_right (insert_desc key) [] l.

(** [LIMIT n], for an INTEGER [n] that has been bound: a negative [n]
    puts no bound on the number of rows. *)
Definition limit {A} (n : Z) (l : list A) : list A :=
  if (n <? 0)%Z then l else firstn (Z.to_nat n) l.

(** The rows of [SELECT * FROM <table> WHERE location_id = ?
    ORDER BY timestamp DESC LIMIT ?], for two INTEGERs that have been
    bound (see [execute]). *)
Definition select_recent {O} (timestamp : O -> string)
           (table : list (row O)) (loc : Z) (n : Z) : list (row O) :=
  limit n
    (order_by_desc (fun r => timestamp (obs r))
       (filter (fun r => (location_id r =? loc)%Z) table)).

(** The row of [SELECT * FROM locations WHERE id = ?] that [fetchone()]
    gives, for an INTEGER that has been bound (see [execute]). *)
Definition select_location (db : database) (loc : Z) : option location :=
  find (fun l => (id l =? loc)%Z) (locations db).

Definition empty : database :=
  {| locations := []; air_quality := []; water_data := [];
     vegetation := []; api_logs := [] |}.

End Db.

(** [init_db]: the tables are created when missing and the six sample
    locations are inserted when [locations] is empty. *)
Definition sample_locations : list (string * Q * Q * Z * Q) :=
  [("New Delhi", 28.6139, 77.2090, 32000000%Z, 1484.0);
   ("Mumbai", 19.0760, 72.8777, 21000000%Z, 603.0);
   ("Bangalore", 12.9716, 77.5946, 13000000%Z, 741.0);
   ("Chennai", 13.0827, 80.2707, 11000000%Z, 426.0);
   ("Kolkata", 22.5726, 88.3639, 15000000%Z, 1886.0);
   ("Hyderabad", 17.3850, 78.4867, 10500000%Z, 650.0)]%string.

Definition init_db (file : option Db.database) : Db.database :=
  let db := match file with Some db => db | None => Db.empty end in
  if (Z.of_nat (List.length (Db.locations db)) =? 0)%Z then
    let conn :=
      fold_left
        (fun conn '(n, lat, lon, pop, ar) =>
           snd (Db.insert_location false n lat lon (Db.Integer pop)
                                   (Db.Real (Py.Finite ar)) conn))
        sample_locations (Db.get_db db) in
    Db.durable (snd (Db.commit false conn))
  else db.

(* ------------------------------------------------------------------ *)
(** ** The Flask routes *)

(** The module-level [nasa_client], seen from the routes: its
    [authenticated] flag and its three fetch methods, each returning a
    dict or [None]. *)
Record client_methods (G : Type) `{PyRandom G} : Type := {
  client_authenticated : bool;
  client_air :
    Q -> Q -> option string -> Py.M (runtime (G := G)) (option air_obs);
  client_water :
    Q -> Q -> option string -> Py.M (runtime (G := G)) (option water_obs);
  client_vegetation :
    Q -> Q -> option string ->
    Py.M (runtime (G := G)) (option vegetation_obs)
}.

(** Store faults injected into the statements of one dashboard query. *)
Record store_faults : Type := {
  fail_insert_air : bool;
  fail_insert_water : bool;
  fail_insert_vegetation : bool;
  fail_commit_observations : bool;
  fail_insert_log : bool;
  fail_commit_log : bool
}.

Definition no_faults : store_faults :=
  {| fail_insert_air := false; fail_insert_water := false;
     fail_insert_vegetation := false; fail_commit_observations := false;
     fail_insert_log := false; fail_commit_log := false |}.

Record dashboard_data : Type := {
  dd_location : Db.location;
  dd_air_quality : option air_obs;
  dd_water_security : option water_obs;
  dd_vegetation : option vegetation_obs;
  dd_wellbeing_index : Q;
  dd_nasa_api_status : bool;
  dd_last_updated : string
}.

Inductive dashboard_response : Type :=
| Dashboard200 (data : dashboard_data)
| Dashboard404                              (* 'Location not found' *)
| Dashboard500 (details : Py.exn)           (* 'Failed to retrieve NASA data' *)
| DashboardUnhandled (e : Py.exn).   (* an exception that leaves the view *)

(** The score lines of [get_dashboard_data]. *)
Definition air_score (air_data : option air_obs) : Q :=
  match air_data with
  | Some a => inject_Z (Py.maxZ 0 (100 - aqi a))
  | None => 50
  end.

Definition water_score (water_data : option water_obs) : Q :=
  match water_data with
  | Some wd => 50 + groundwater_level wd * 2
  | None => 50
  end.

Definition green_score (vegetation_data : option vegetation_obs) : Q :=
  match vegetation_data with
  | Some v => green_coverage v
  | None => 50
  end.

Definition wellbeing_index (air_data : option air_obs)
           (water_data : option water_obs)
           (vegetation_data : option vegetation_obs) : Q :=
  air_score air_data * 0.4 + water_score water_data * 0.3
  + green_score vegetation_data * 0.3.

(** The value stored under ['wellbeing_index'] in the response. *)
Definition reported_index (air_data : option air_obs)
           (water_data : option water_obs)
           (vegetation_data : option vegetation_obs) : Q :=
  Py.min 100 (Py.max 0 (wellbeing_index air_data water_data vegetation_data)).

Section Routes.
Context {G : Type} `{PyRandom G}.

Local Abbreviation RT := (runtime (G := G)).
Local Abbreviation client := (@client_methods G _).

(** The state a dashboard query runs in: runtime and open connection. *)
Definition on_rt {A} (m : Py.M RT A) : Py.M (RT * Db.connection) A :=
  fun s =>
    let (o, rt') := m (fst s) in (o, (rt', snd s)).

Definition on_conn {A} (m : Py.M Db.connection A)
  : Py.M (RT * Db.connection) A :=
  fun s =>
    let (o, conn') := m (snd s) in (o, (fst s, conn')).

Definition when_some {S A} (o : option A) (f : A -> Py.M S Z) : Py.M S unit :=
  match o with
  | Some a => _ <- f a ;; Py.ret tt
  | None => Py.ret tt
  end.

(** The [try] block of [get_dashboard_data]. *)
Definition dashboard_try (nasa_client : client)
           (faults : store_faults) (location_id : Z)
           (location : Db.location)
  : Py.M (RT * Db.connection) dashboard_data :=
  air_data <- on_rt (client_air nasa_client (Db.latitude location)
                                (Db.longitude location) None) ;;
  water_data <- on_rt (client_water nasa_client (Db.latitude location)
                                    (Db.longitude location) None) ;;
  vegetation_data <- on_rt (client_vegetation nasa_client
                              (Db.latitude location)
                              (Db.longitude location) None) ;;
  _ <- when_some air_data (fun a =>
         on_conn (Db.insert_air_quality (fail_insert_air faults)
                                        location_id a)) ;;
  _ <- when_some water_data (fun wd =>
         on_conn (Db.insert_water_data (fail_insert_water faults)
                                       location_id wd)) ;;
  _ <- when_some vegetation_data (fun v =>
         on_conn (Db.insert_vegetation (fail_insert_vegetation faults)
                                       location_id v)) ;;
  _ <- on_conn (Db.commit (fail_commit_observations faults)) ;;
  let index := wellbeing_index air_data water_data vegetation_data in
  _ <- on_conn (Db.insert_api_log (fail_insert_log faults) "dashboard"
                  (Db.latitude location) (Db.longitude location)
                  "success") ;;
  _ <- on_conn (Db.commit (fail_commit_log faults)) ;;
  _ <- on_conn Db.close ;;
  ts <- on_rt now ;;
  Py.ret {| dd_location := location;
            dd_air_quality := air_data;
            dd_water_security := water_data;
            dd_vegetation := vegetation_data;
            dd_wellbeing_index := Py.min 100 (Py.max 0 index);
            dd_nasa_api_status := client_authenticated nasa_client;
            dd_last_updated := isoformat ts |}.

(** [GET /api/dashboard/<location_id>]: the response, the database
    left on disk and the runtime afterwards.  [location_id] is any [int]
    the route converter reads from a string of digits.  The look-up of the
    location comes before the [try]: an exception of it leaves the view. *)
Definition get_dashboard_data (nasa_client : client)
           (faults : store_faults) (location_id : Z)
           (db : Db.database) (rt : RT)
  : dashboard_response * Db.database * RT :=
  let conn := Db.get_db db in
  match
    Db.execute [Py.PyInt location_id]
               (fun db => Db.select_location db location_id) conn
  with
  | (Py.Raise e, conn') => (DashboardUnhandled e, Db.durable conn', rt)
  | (Py.Return None, conn') => (Dashboard404, Db.durable conn', rt)
  | (Py.Return (Some location), conn') =>
      match
        dashboard_try nasa_client faults location_id location (rt, conn')
      with
      | (Py.Return data, (rt', conn'')) =>
          (Dashboard200 data, Db.durable conn'', rt')
      | (Py.Raise e, (rt', conn'')) =>
          (* except Exception as e: conn.close() *)
          (Dashboard500 e, Db.durable (snd (Db.close conn'')), rt')
      end
  end.

(** The real client behind the interface: its methods always return
    a dict. *)
Definition some_of {A} (m : Py.M RT A) : Py.M RT (option A) :=
  a <- m ;; Py.ret (Some a).

Definition nasa_client (w : Vendor.world) (self : NASAAPIClient.t)
  : client :=
  {| client_authenticated := NASAAPIClient.authenticated self;
     client_air := fun lat lon d =>
       some_of (NASAAPIClient.get_air_quality_data w self lat lon d);
     client_water := fun lat lon d =>
       some_of (NASAAPIClient.get_water_security_data w self lat lon d);
     client_vegetation := fun lat lon d =>
       some_of (NASAAPIClient.get_vegetation_data w self lat lon d) |}.

End Routes.

(** *** [POST /api/locations] *)

Inductive add_location_response : Type :=
| Added (message : string) (new_id : Z)
| BadRequest (error : string)                        (* status 400 *)
| Unhandled (e : Py.exn).            (* an exception that leaves the view *)

(** [not data or not all(k in data for k in ('name', 'latitude',
    'longitude'))] *)
Definition missing_required_fields (data : Py.object) : Py.outcome bool :=
  if negb (Py.truth data) then Py.Return true
  else
    match Py.all_in data ["name"; "latitude"; "longitude"]%string with
    | Py.Return b => Py.Return (negb b)
    | Py.Raise e => Py.Raise e
    end.

(** [not (-90 <= data['latitude'] <= 90) or
     not (-180 <= data['longitude'] <= 180)] *)
Definition invalid_coordinates (data : Py.object) : Py.outcome bool :=
  match Py.getitem data "latitude" with
  | Py.Raise e => Py.Raise e
  | Py.Return v_lat =>
      match Py.between (-90) v_lat 90 with
      | Py.Raise e => Py.Raise e
      | Py.Return false => Py.Return true
      | Py.Return true =>
          match Py.getitem data "longitude" with
          | Py.Raise e => Py.Raise e
          | Py.Return v_lon =>
              match Py.between (-180) v_lon 180 with
              | Py.Raise e => Py.Raise e
              | Py.Return b => Py.Return (negb b)
              end
          end
      end
  end.

(** [data] is [request.json], the decoded body of the request.  The two
    checks come before any statement; an exception of a check or of the
    [INSERT] leaves the view, and the connection is dropped with nothing
    committed. *)
Definition add_location (sqlite : Db.engine) (data : Py.object)
           (db : Db.database)
  : add_location_response * Db.database :=
  match missing_required_fields data with
  | Py.Raise e => (Unhandled e, db)
  | Py.Return true =>
      (BadRequest "Missing required fields: name, latitude, longitude", db)
  | Py.Return false =>
      match invalid_coordinates data with
      | Py.Raise e => (Unhandled e, db)
      | Py.Return true => (BadRequest "Invalid coordinates", db)
      | Py.Return false =>
          let conn := Db.get_db db in
          match
            (v_name <- Py.lift (Py.getitem data "name") ;;
             v_lat <- Py.lift (Py.getitem data "latitude") ;;
             v_lon <- Py.lift (Py.getitem data "longitude") ;;
             v_pop <- Py.lift (Py.dict_get data "population") ;;
             v_area <- Py.lift (Py.dict_get data "area") ;;
             Db.insert_location_values sqlite v_name v_lat v_lon
                                       v_pop v_area) conn
          with
          | (Py.Return location_id, conn') =>
              (Added "Location added successfully" location_id,
               Db.durable (snd (Db.close (snd (Db.commit false conn')))))
          | (Py.Raise e, conn') => (Unhandled e, Db.durable conn')
          end
      end
  end.

(** *** [GET /api/historical/<location_id>?days=N] *)

Record historical_data : Type := {
  h_air_quality : list (Db.row air_obs);
  h_water_security : list (Db.row water_obs);
  h_vegetation : list (Db.row vegetation_obs);
  h_data_source : string
}.

(** [request.args.get('days', 7, type=int)]: [None] stands for a missing
    or non-integer parameter. *)
Definition days_arg (arg : option Z) : Z :=
  match arg with Some n => n | None => 7%Z end.

(** The outcome of the view (an exception leaves it, nothing in the view
    catches one) and the database left on disk. *)
Definition get_historical_data (authenticated : bool) (location_id : Z)
           (arg : option Z) (db : Db.database)
  : Py.outcome historical_data * Db.database :=
  let days := days_arg arg in
  let conn := Db.get_db db in
  let parameters := [Py.PyInt location_id; Py.PyInt days] in
  let (response, conn') :=
    (air_data <-
       Db.execute parameters
         (fun db => Db.select_recent air_timestamp (Db.air_quality db)
                                     location_id days) ;;
     water_data <-
       Db.execute parameters
         (fun db => Db.select_recent water_timestamp (Db.water_data db)
                                     location_id days) ;;
     vegetation_data <-
       Db.execute parameters
         (fun db => Db.select_recent vegetation_timestamp (Db.vegetation db)
                                     location_id days) ;;
     _ <- Db.close ;;
     Py.ret {| h_air_quality := air_data;
               h_water_security := water_data;
               h_vegetation := vegetation_data;
               h_data_source :=
                 if authenticated then "NASA APIs" else "Simulation" |})
      conn in
  (response, Db.durable conn').

(** *** [GET /api/alerts/<location_id>] *)

(** The values an alert message is formatted from. *)
Inductive alert_message : Type :=
| Poor_air_quality (v_aqi : Z) (data_source : string)
| High_flood_risk (data_source : string)
| Severe_groundwater_depletion (level : Q).

Record alert : Type := {
  alert_type : string;
  severity : string;
  message : alert_message;
  alert_timestamp : string
}.

(** The checks of [get_alerts] on the two latest rows. *)
Definition evaluate_alerts (latest_air : option (Db.row air_obs))
           (latest_water : option (Db.row water_obs)) : list alert :=
  let alerts := [] in
  let alerts :=
    match latest_air with
    | Some r =>
        let a := Db.obs r in
        if (aqi a >? 100)%Z then
          alerts ++
            [{| alert_type := "air_quality";
                severity := if (aqi a <? 150)%Z then "warning" else "danger";
                message := Poor_air_quality (aqi a) (air_source a);
                alert_timestamp := air_timestamp a |}]
        else alerts
    | None => alerts
    end in
  match latest_water with
  | Some r =>
      let wd := Db.obs r in
      let alerts :=
        if String.eqb (flood_risk wd) "High" then
          alerts ++
            [{| alert_type := "flood_risk";
                severity := "danger";
                message := High_flood_risk (water_source wd);
                alert_timestamp := water_timestamp wd |}]
        else alerts in
      if Py.Qltb (groundwater_level wd) (-15) then
        alerts ++
          [{| alert_type := "water_stress";
              severity := "warning";
              message := Severe_groundwater_depletion (groundwater_level wd);
              alert_timestamp := water_timestamp wd |}]
      else alerts
  | None => alerts
  end.

(** The outcome of the view and the database left on disk. *)
Definition get_alerts (location_id : Z) (db : Db.database)
  : Py.outcome (list alert) * Db.database :=
  let conn := Db.get_db db in
  let (response, conn') :=
    (latest_air <-
       Db.execute [Py.PyInt location_id]
         (fun db => hd_error (Db.select_recent air_timestamp
                                (Db.air_quality db) location_id 1)) ;;
     latest_water <-
       Db.execute [Py.PyInt location_id]
         (fun db => hd_error (Db.select_recent water_timestamp
                                (Db.water_data db) location_id 1)) ;;
     _ <- Db.close ;;
     Py.ret (evaluate_alerts latest_air latest_water)) conn in
  (response, Db.durable conn').

(* ------------------------------------------------------------------ *)
(** ** A concrete generator and clock, to run the model *)

Module Demo.

(** A counter-based generator: the n-th draw is n/8 mod 1, resp.
    n mod k. *)
Definition demo_random (g : nat) : Q * nat :=
  (Z.of_nat (g mod 8) # 8, S g).

Definition demo_randbelow (n : Z) (g : nat) : Z * nat :=
  ((Z.of_nat g) mod n, S g)%Z.

#[global, refine] Instance demo_gen : PyRandom nat :=
  {| random := demo_random; randbelow := demo_randbelow |}.
Proof.
  - intro g. unfold demo_random; cbn [fst].
    assert (Hlt : (g mod 8 < 8)%nat)
      by (apply Nat.mod_upper_bound; discriminate).
    unfold Qle, Qlt; cbn [Qnum Qden]. lia.
  - intros n g Hn. unfold demo_randbelow; cbn [fst].
    apply Z.mod_pos_bound; assumption.
Defined.

(** The n-th reading of the clock is n seconds after 15:37:00. *)
Definition two_digits (n : nat) : string :=
  String (ascii_of_nat (48 + (n / 10) mod 10))
         (String (ascii_of_nat (48 + n mod 10)) EmptyString).

Definition demo_clock (n : nat) : datetime :=
  {| isoformat := "2025-10-03T15:37:" ++ two_digits n;
     strftime_Ymd := "2025-10-03" |}.

Definition rt0 : runtime :=
  {| gen := 3%nat; wallclock := demo_clock; ticks := 0 |}.

(** No [earthaccess] installed, every HTTP call refused. *)
Definition offline : Vendor.world :=
  {| Vendor.session_get := fun _ _ =>
       Py.Raise (Py.VendorError "connection refused");
     Vendor.import_earthaccess := Py.Raise Py.ImportError |}.

(** [earthaccess] installed; [login] and searches raise; HTTP answers
    with [status]. *)
Definition online (status : Z) (login_raises : bool) : Vendor.world :=
  {| Vendor.session_get := fun _ _ =>
       Py.Return {| Vendor.status_code := status;
                    Vendor.json_body := Py.Return "{}"%string |};
     Vendor.import_earthaccess :=
       Py.Return
         {| Vendor.login := fun _ _ =>
              if login_raises
              then Py.Raise (Py.VendorError "login failed")
              else Py.Return tt;
            Vendor.search_data := fun _ _ _ _ => Py.Return ["granule"%string];
            Vendor.download := fun _ _ => Py.Return ["file"%string] |} |}.

(** [earthaccess] installed, with a [login] that fails on an import of
    its own. *)
Definition login_import_error : Vendor.world :=
  {| Vendor.session_get := fun _ _ =>
       Py.Raise (Py.VendorError "connection refused");
     Vendor.import_earthaccess :=
       Py.Return
         {| Vendor.login := fun _ _ => Py.Raise Py.ImportError;
            Vendor.search_data := fun _ _ _ _ => Py.Return [];
            Vendor.download := fun _ _ => Py.Return [] |} |}.

(** A client with credentials and an API key whose vendor is unreachable:
    it is authenticated through the requests fallback. *)
Definition stranded_client : NASAAPIClient.t :=
  NASAAPIClient.init (NASA_CONFIG "user" "secret" "key") offline.

(** A client without credentials. *)
Definition anonymous_client : NASAAPIClient.t :=
  NASAAPIClient.init (NASA_CONFIG "" "" "") offline.

(** Latest rows with aqi = 160, flood_risk = High and
    groundwater_level = -16, and an older air row with aqi = 90. *)
Definition air_row (rid : Z) (ts : string) (v_aqi : Z) : Db.row air_obs :=
  {| Db.row_id := rid; Db.location_id := 1;
     Db.obs := {| air_timestamp := ts; no2 := 10; o3 := 20; pm25 := 5;
                  so2 := 1; aqi := v_aqi; air_source := "SIMULATION" |} |}.

Definition water_row (rid : Z) (ts : string) (risk : string) (level : Q)
  : Db.row water_obs :=
  {| Db.row_id := rid; Db.location_id := 1;
     Db.obs := {| water_timestamp := ts; groundwater_level := level;
                  precipitation := 0; flood_risk := risk;
                  water_source := "SIMULATION" |} |}.

Definition alarming : Db.database :=
  {| Db.locations := Db.locations (init_db None);
     Db.air_quality := [air_row 1 "2025-10-03T15:37:02" 160;
                        air_row 2 "2025-10-03T15:37:01" 90];
     Db.water_data := [water_row 1 "2025-10-03T15:37:01" "Low" 5;
                       water_row 2 "2025-10-03T15:37:02" "High" (-16)];
     Db.vegetation := [];
     Db.api_logs := [] |}.

(** Ten air rows of location 1, one per second, in the order they were
    stored. *)
Definition ten_readings : Db.database :=
  {| Db.locations := Db.locations (init_db None);
     Db.air_quality :=
       map (fun n => air_row (Z.of_nat (S n))
                             ("2025-10-03T15:37:" ++ two_digits n) 75)
           (seq 0 10);
     Db.water_data := [];
     Db.vegetation := [];
     Db.api_logs := [] |}.

(** A store without faults.  The requests of this module give names as
    [str] and neither population nor area, so that its two conversions
    never come into play. *)
Definition sqlite : Db.engine :=
  {| Db.insert_fails := false;
     Db.real_to_text := fun _ => "0.0"%string;
     Db.text_to_number := fun _ => None |}.

(** A runtime whose clock reads ten seconds later, after the timestamps
    of [alarming]. *)
Definition rt_later : runtime :=
  {| gen := 3%nat; wallclock := demo_clock; ticks := 10 |}.

(** The insert of the audit row fails; every other statement succeeds. *)
Definition log_insert_fails : store_faults :=
  {| fail_insert_air := false; fail_insert_water := false;
     fail_insert_vegetation := false; fail_commit_observations := false;
     fail_insert_log := true; fail_commit_log := false |}.

(** The third observation insert fails. *)
Definition vegetation_insert_fails : store_faults :=
  {| fail_insert_air := false; fail_insert_water := false;
     fail_insert_vegetation := true; fail_commit_observations := false;
     fail_insert_log := false; fail_commit_log := false |}.

End Demo.


(* ------------------------------------------------------------------ *)
(** ** Notions of the specification *)

(** The documented closed ranges of the simulated values (section 4.2). *)
Definition air_in_range (o : air_obs) : Prop :=
  10 <= no2 o <= 50 /\ 20 <= o3 o <= 80 /\ 5 <= pm25 o <= 35 /\
  1 <= so2 o <= 15 /\ (50 <= aqi o <= 150)%Z.

Definition water_in_range (o : water_obs) : Prop :=
  -20 <= groundwater_level o <= 20 /\ 0 <= precipitation o <= 15 /\
  In (flood_risk o) ["Low"; "Medium"; "High"]%string.

Definition vegetation_in_range (o : vegetation_obs) : Prop :=
  0.2 <= ndvi o <= 0.8 /\ 0.1 <= evi o <= 0.6 /\
  15 <= green_coverage o <= 65 /\ 20 <= temperature o <= 35.

(** The source tag of synthetic observations. *)
Definition SIMULATION : string := "SIMULATION".

(** No HTTP call of the vendor yields a usable answer: it raises, or
    answers with a status other than 200, or its body does not decode. *)
Definition no_usable_response (w : Vendor.world) : Prop :=
  forall url params,
    match Vendor.session_get w url params with
    | Py.Raise _ => True
    | Py.Return r =>
        Vendor.status_code r = 200%Z ->
        exists e, Vendor.json_body r = Py.Raise e
    end.

(** [clamp(x, lo, hi)] *)
Definition clamp (x lo hi : Q) : Q :=
  if Qlt_le_dec x lo then lo else if Qlt_le_dec hi x then hi else x.

(** The wellbeing formula in the words of section 4.4. *)
Definition spec_air_score (air : option air_obs) : Q :=
  match air with
  | Some a => inject_Z (Z.max 0 (100 - aqi a))
  | None => 50
  end.

Definition spec_water_score (water : option water_obs) : Q :=
  match water with
  | Some wd => 50 + groundwater_level wd * 2
  | None => 50
  end.

Definition spec_green_score (veg : option vegetation_obs) : Q :=
  match veg with
  | Some v => green_coverage v
  | None => 50
  end.

Definition spec_index (air : option air_obs) (water : option water_obs)
           (veg : option vegetation_obs) : Q :=
  clamp (spec_air_score air * 0.4 + spec_water_score water * 0.3
         + spec_green_score veg * 0.3) 0 100.

(** The engine mode. *)
Inductive EngineMode : Type := Live | Simulated.

Definition mode (self : NASAAPIClient.t) : EngineMode :=
  if NASAAPIClient.authenticated self then Live else Simulated.

(** The placeholder of the credential template, as the installation
    checker knows it. *)
Definition placeholder : string := "your_earthdata_username_here".

(** The mode the specification's testable property describes: Live exactly
    when both strings are non-empty and neither is the placeholder. *)
Definition spec_mode (username password : string) : EngineMode :=
  if Py.truthy username && Py.truthy password
     && negb (String.eqb username placeholder)
     && negb (String.eqb password placeholder)
  then Live else Simulated.

(** [setup_authentication] goes through: the library is missing (the
    requests fallback is taken), or its [login] returns (or itself fails
    with an [ImportError], which takes the fallback as well). *)
Definition setup_goes_through (w : Vendor.world) (username password : string)
  : Prop :=
  match Vendor.import_earthaccess w with
  | Py.Raise e => Py.is_ImportError e = true
  | Py.Return ea =>
      match Vendor.login ea username password with
      | Py.Return _ => True
      | Py.Raise e => Py.is_ImportError e = true
      end
  end.

(** The alerts of section 4.5, as pairs of type and severity, in the
    order of the three checks. *)
Definition alert_kind (a : alert) : string * string :=
  (alert_type a, severity a).

Definition spec_alerts (latest_air : option (Db.row air_obs))
           (latest_water : option (Db.row water_obs))
  : list (string * string) :=
  match latest_air with
  | Some r =>
      if Z_gt_dec (aqi (Db.obs r)) 100
      then [("air_quality"%string,
             if Z_ge_dec (aqi (Db.obs r)) 150
             then "danger"%string else "warning"%string)]
      else []
  | None => []
  end
  ++
  match latest_water with
  | Some r =>
      (if string_dec (flood_risk (Db.obs r)) "High"
       then [("flood_risk"%string, "danger"%string)] else [])
      ++
      (if Qlt_le_dec (groundwater_level (Db.obs r)) (-15)
       then [("water_stress"%string, "warning"%string)] else [])
  | None => []
  end.

(** Most-recent-first: every row is at least as recent, by its stored
    timestamp, as every row after it. *)
Definition at_least_as_recent {A} (key : A -> string) (x y : A) : Prop :=
  String.leb (key y) (key x) = true.

Definition latest_first {A} (key : A -> string) (l : list A) : Prop :=
  StronglySorted (at_least_as_recent key) l.

(** [result] is the history of location [loc] under the limit [n]: the
    most recent rows of the location, latest first; at most [n] of them when
    [n] is not negative, all of them when it is. *)
Definition history_slice {O} (timestamp : O -> string)
           (table : list (Db.row O)) (loc : Z) (n : Z)
           (result : list (Db.row O)) : Prop :=
  let key := fun r : Db.row O => timestamp (Db.obs r) in
  let stored := filter (fun r => (Db.location_id r =? loc)%Z) table in
  latest_first key result /\
  ((0 <= n)%Z ->
   Z.of_nat (List.length result) = Z.min n (Z.of_nat (List.length stored))) /\
  exists rest,
    Permutation (result ++ rest) stored /\
    (forall r r', In r result -> In r' rest -> at_least_as_recent key r r') /\
    ((n < 0)%Z -> rest = []).

(** Every stored observation row is within the documented ranges. *)
Definition stored_in_range (db : Db.database) : Prop :=
  Forall (fun r => air_in_range (Db.obs r)) (Db.air_quality db) /\
  Forall (fun r => water_in_range (Db.obs r)) (Db.water_data db) /\
  Forall (fun r => vegetation_in_range (Db.obs r)) (Db.vegetation db).

(** What every fetch result satisfies: it is within the ranges, and it is
    tagged as simulation unless some vendor response was usable. *)
Definition air_ok (w : Vendor.world) (o : air_obs) : Prop :=
  air_in_range o /\ (no_usable_response w -> air_source o = SIMULATION).

Definition water_ok (w : Vendor.world) (o : water_obs) : Prop :=
  water_in_range o /\ (no_usable_response w -> water_source o = SIMULATION).

Definition vegetation_ok (w : Vendor.world) (o : vegetation_obs)
  : Prop :=
  vegetation_in_range o /\
  (no_usable_response w -> vegetation_source o = SIMULATION).

Definition opt_ok {O} (ok : O -> Prop) (m : option O) : Prop :=
  match m with Some o => ok o | None => True end.

(** Adversarial observations: an air quality index of 500 and a
    groundwater level of +100. *)
Definition air_aqi_500 : air_obs :=
  {| air_timestamp := "2025-10-03T15:37:01"; no2 := 10; o3 := 20;
     pm25 := 5; so2 := 1; aqi := 500; air_source := "SIMULATION" |}.

Definition water_level_100 : water_obs :=
  {| water_timestamp := "2025-10-03T15:37:01"; groundwater_level := 100;
     precipitation := 0; flood_risk := "Low"; water_source := "SIMULATION" |}.

(** A float within the closed range from [lo] to [hi]. *)
Definition within (lo : Q) (x : Py.float) (hi : Q) : Prop :=
  match x with
  | Py.Finite q => lo <= q <= hi
  | _ => False
  end.

(** A request body with the three required fields. *)
Definition location_body (n : string) (lat lon : Q) : Py.object :=
  Py.PyDict [("name", Py.PyStr n);
             ("latitude", Py.PyFloat (Py.Finite lat));
             ("longitude", Py.PyFloat (Py.Finite lon))]%string.



(** [db] with one more row of [locations]. *)
Definition appended (db : Db.database) (row : Db.location) : Db.database :=
  {| Db.locations := Db.locations db ++ [row];
     Db.air_quality := Db.air_quality db;
     Db.water_data := Db.water_data db;
     Db.vegetation := Db.vegetation db;
     Db.api_logs := Db.api_logs db |}.

(* ------------------------------------------------------------------ *)
(** ** The dashboard query, phase by phase *)

(** The database after the observation rows of one query are stored. *)
Definition with_air (db : Db.database) (loc : Z) (o : option air_obs)
  : Db.database :=
  match o with
  | None => db
  | Some a =>
      {| Db.locations := Db.locations db;
         Db.air_quality := Db.air_quality db ++
           [{| Db.row_id :=
                 Db.next_rowid (map (@Db.row_id _) (Db.air_quality db));
               Db.location_id := loc; Db.obs := a |}];
         Db.water_data := Db.water_data db;
         Db.vegetation := Db.vegetation db;
         Db.api_logs := Db.api_logs db |}
  end.

Definition with_water (db : Db.database) (loc : Z) (o : option water_obs)
  : Db.database :=
  match o with
  | None => db
  | Some wd =>
      {| Db.locations := Db.locations db;
         Db.air_quality := Db.air_quality db;
         Db.water_data := Db.water_data db ++
           [{| Db.row_id :=
                 Db.next_rowid (map (@Db.row_id _) (Db.water_data db));
               Db.location_id := loc; Db.obs := wd |}];
         Db.vegetation := Db.vegetation db;
         Db.api_logs := Db.api_logs db |}
  end.

Definition with_vegetation (db : Db.database) (loc : Z)
           (o : option vegetation_obs) : Db.database :=
  match o with
  | None => db
  | Some v =>
      {| Db.locations := Db.locations db;
         Db.air_quality := Db.air_quality db;
         Db.water_data := Db.water_data db;
         Db.vegetation := Db.vegetation db ++
           [{| Db.row_id :=
                 Db.next_rowid (map (@Db.row_id _) (Db.vegetation db));
               Db.location_id := loc; Db.obs := v |}];
         Db.api_logs := Db.api_logs db |}
  end.

Definition with_observations (db : Db.database) (loc : Z)
           (a : option air_obs) (wd : option water_obs)
           (v : option vegetation_obs) : Db.database :=
  with_vegetation (with_water (with_air db loc a) loc wd) loc v.

(** The database after the audit row of a query is stored. *)
Definition with_log (db : Db.database) (location : Db.location)
  : Db.database :=
  {| Db.locations := Db.locations db;
     Db.air_quality := Db.air_quality db;
     Db.water_data := Db.water_data db;
     Db.vegetation := Db.vegetation db;
     Db.api_logs := Db.api_logs db ++
       [{| Db.log_id := Db.next_rowid (map Db.log_id (Db.api_logs db));
           Db.endpoint := "dashboard";
           Db.log_latitude := Db.latitude location;
           Db.log_longitude := Db.longitude location;
           Db.response_status := "success" |}] |}.

Definition is_some {A} (o : option A) : bool :=
  match o with Some _ => true | None => false end.

(** A fault hits the first transaction: an observation insert that is
    executed, or the commit that follows the three. *)
Definition observations_fault (faults : store_faults)
           (a : option air_obs) (wd : option water_obs)
           (v : option vegetation_obs) : bool :=
  (is_some a && fail_insert_air faults)
  || (is_some wd && fail_insert_water faults)
  || (is_some v && fail_insert_vegetation faults)
  || fail_commit_observations faults.

(** A fault hits the second transaction. *)
Definition log_fault (faults : store_faults) : bool :=
  fail_insert_log faults || fail_commit_log faults.

(** The air quality index of the observation does not fit an INTEGER. *)
Definition air_overflow (a : option air_obs) : bool :=
  match a with
  | Some o => negb (Db.int64 (aqi o))
  | None => false
  end.

Section Phases.
Context {G : Type} `{PyRandom G}.

Local Abbreviation RT := (runtime (G := G)).

(** The three fetches of a dashboard query, in their order. *)
Definition fetch_all (nasa_client : @client_methods G _)
           (location : Db.location)
  : Py.M RT (option air_obs * option water_obs * option vegetation_obs) :=
  a <- client_air nasa_client (Db.latitude location)
                  (Db.longitude location) None ;;
  wd <- client_water nasa_client (Db.latitude location)
                     (Db.longitude location) None ;;
  v <- client_vegetation nasa_client (Db.latitude location)
                         (Db.longitude location) None ;;
  Py.ret (a, wd, v).

Definition tick (rt : RT) : RT :=
  {| gen := gen rt; wallclock := wallclock rt; ticks := S (ticks rt) |}.

(** What [get_dashboard_data] computes, as a case distinction on the
    outcome of each phase. *)
Definition dashboard_outcome (nasa_client : @client_methods G _)
           (faults : store_faults) (location_id : Z)
           (db : Db.database) (rt : RT)
  : dashboard_response * Db.database * RT :=
  if negb (Db.int64 location_id)
  then (DashboardUnhandled Py.OverflowError, db, rt)
  else
  match Db.select_location db location_id with
  | None => (Dashboard404, db, rt)
  | Some location =>
      match fetch_all nasa_client location rt with
      | (Py.Raise e, rt1) => (Dashboard500 e, db, rt1)
      | (Py.Return (a, wd, v), rt1) =>
          if air_overflow a
          then (Dashboard500 Py.OverflowError, db, rt1)
          else if observations_fault faults a wd v
          then (Dashboard500 Py.DatabaseError, db, rt1)
          else
            let stored := with_observations db location_id a wd v in
            if log_fault faults
            then (Dashboard500 Py.DatabaseError, stored, rt1)
            else
              (Dashboard200
                 {| dd_location := location;
                    dd_air_quality := a;
                    dd_water_security := wd;
                    dd_vegetation := v;
                    dd_wellbeing_index := reported_index a wd v;
                    dd_nasa_api_status := client_authenticated nasa_client;
                    dd_last_updated :=
                      isoformat (wallclock rt1 (ticks rt1)) |},
               with_log stored location,
               tick rt1)
      end
  end.

(** The databases the program can reach from a fresh file. *)
Inductive reachable : Db.database -> Prop :=
| reach_init : reachable (init_db None)
| reach_add_location sqlite data db :
    reachable db -> reachable (snd (add_location sqlite data db))
| reach_dashboard w self faults location_id db (rt : RT) :
    reachable db ->
    reachable
      (snd (fst (get_dashboard_data (nasa_client w self) faults
                                    location_id db rt)))
| reach_historical authenticated location_id arg db :
    reachable db ->
    reachable (snd (get_historical_data authenticated location_id arg db))
| reach_alerts location_id db :
    reachable db -> reachable (snd (get_alerts location_id db)).

End Phases.

(* ------------------------------------------------------------------ *)
(** ** Outcomes of code that may raise *)

Section Outcomes.
Context {St : Type}.

(** [m] returns normally from every state, with a value in [P]. *)
Definition returns {A} (m : Py.M St A) (P : A -> Prop) : Prop :=
  forall s, exists a s', m s = (Py.Return a, s') /\ P a.

(** [m] either returns a value in [P] or raises an exception of a class
    in [C]. *)
Definition guarded {A} (m : Py.M St A) (C : Py.exn -> bool)
           (P : A -> Prop) : Prop :=
  forall s,
    match m s with
    | (Py.Return a, _) => P a
    | (Py.Raise e, _) => C e = true
    end.

End Outcomes.

Definition catch_all (C : Py.exn -> bool) : Prop := forall e, C e = true.

(* ------------------------------------------------------------------ *)
(** ** Further notions: the fetch paths *)

(** The date a fetch works with, and the runtime after it is settled:
    the clock is read once when no date is given. *)
Definition date_of {G : Type} `{PyRandom G} (date : option string)
           (rt : runtime (G := G)) : string :=
  match date with
  | Some d => d
  | None => strftime_Ymd (wallclock rt (ticks rt))
  end.

Definition after_date {G : Type} `{PyRandom G} (date : option string)
           (rt : runtime (G := G)) : runtime (G := G) :=
  match date with
  | Some _ => rt
  | None => tick rt
  end.

(** The vendor labels. *)
Definition NASA_TEMPO_OMI : string := "NASA_TEMPO_OMI".
Definition NASA_GRACE_GPM : string := "NASA_GRACE_GPM".
Definition NASA_MODIS_LANDSAT : string := "NASA_MODIS_LANDSAT".

(** The URLs of method 1 and of the open-data path. *)
Definition assets_url (self : NASAAPIClient.t) : string :=
  base_url (NASAAPIClient.config self) ++ "/planetary/earth/assets".

Definition imagery_url (self : NASAAPIClient.t) : string :=
  base_url (NASAAPIClient.config self) ++ "/planetary/earth/imagery".

Definition opendata_url : string :=
  "https://data.nasa.gov/api/views/xxxx-xxxx/rows.json".

(** An HTTP answer with status 200 and a body that decodes. *)
Definition usable (o : Py.outcome Vendor.response) : Prop :=
  exists r data,
    o = Py.Return r /\ Vendor.status_code r = 200%Z /\
    Vendor.json_body r = Py.Return data.

(** Method 2 lets control fall through to method 3: the library is
    missing, or the search finds nothing. *)
Definition earthaccess_falls_through (w : Vendor.world)
           (short_name : string) (box : Q * Q * Q * Q) (date : string)
  : Prop :=
  match Vendor.import_earthaccess w with
  | Py.Raise e => Py.is_ImportError e = true
  | Py.Return ea =>
      match Vendor.search_data ea short_name box (date, date) 1 with
      | Py.Return results => results = []
      | Py.Raise e => Py.is_ImportError e = true
      end
  end.

(** Method 1 raised, or its body did not decode. *)
Definition first_call_breaks (o : Py.outcome Vendor.response) : Prop :=
  (exists e, o = Py.Raise e) \/
  (exists r e, o = Py.Return r /\ Vendor.status_code r = 200%Z /\
               Vendor.json_body r = Py.Raise e).

(** Method 1 lets control fall through: no API key, or a status other
    than 200. *)
Definition first_call_falls_through (self : NASAAPIClient.t)
           (o : Py.outcome Vendor.response) : Prop :=
  NASAAPIClient.api_key self = ""%string \/
  exists r, o = Py.Return r /\ Vendor.status_code r <> 200%Z.

(** A vendor whose HTTP endpoints answer 200 while earthaccess is not
    installed, and a client with credentials but no API key. *)
Definition http_only : Vendor.world :=
  {| Vendor.session_get := fun _ _ =>
       Py.Return {| Vendor.status_code := 200;
                    Vendor.json_body := Py.Return "{}"%string |};
     Vendor.import_earthaccess := Py.Raise Py.ImportError |}.

Definition keyless_client : NASAAPIClient.t :=
  NASAAPIClient.init (NASA_CONFIG "user" "secret" "") http_only.

(* ------------------------------------------------------------------ *)
(** ** Further routes *)

(** [ORDER BY name] on a [TEXT] column: byte-wise string order, smallest
    first; rows with equal names keep their table order. *)
Fixpoint insert_by_name (x : Db.location) (l : list Db.location)
  : list Db.location :=
  match l with
  | [] => [x]
  | y :: l' =>
      if String.leb (Db.name x) (Db.name y) then x :: l
      else y :: insert_by_name x l'
  end.

Definition order_by_name (l : list Db.location) : list Db.location :=
  fold_right insert_by_name [] l.

(** [GET /api/locations] *)
Definition get_locations (db : Db.database)
  : list Db.location * Db.database :=
  let conn := Db.get_db db in
  let locations := order_by_name (Db.locations (Db.pending conn)) in
  (locations, Db.durable (snd (Db.close conn))).

(** A text of ASCII characters only, and the two bytes of an e with an
    acute accent. *)
Definition ascii_only (s : string) : Prop :=
  forall c, In c (list_ascii_of_string s) -> (nat_of_ascii c < 128)%nat.

Definition e_acute : string := String "195" (String "169" EmptyString).

(** [GET /api/status] *)
Record nasa_api_status : Type := {
  status_authenticated : bool;
  status_earthdata_username : string;
  status_api_key : string;
  status_available_endpoints : list string
}.

Record status_payload : Type := {
  status_nasa : nasa_api_status;
  status_database : string;
  status_total_locations : Z
}.

Definition api_status (NASA_CONFIG : NASA_CONFIG_t)
           (nasa_client : NASAAPIClient.t) (db : Db.database)
  : status_payload * Db.database :=
  ({| status_nasa :=
        {| status_authenticated := NASAAPIClient.authenticated nasa_client;
           status_earthdata_username :=
             if Py.truthy (earthdata_username NASA_CONFIG)
             then (Py.slice_to 3 (earthdata_username NASA_CONFIG)
                   ++ "***")%string
             else "Not Set"%string;
           status_api_key :=
             if Py.truthy (config_api_key NASA_CONFIG)
             then "Set"%string else "Not Set"%string;
           status_available_endpoints :=
             ["TEMPO - Air Quality Monitoring";
              "OMI/Aura - NO2 Measurements";
              "GRACE/GRACE-FO - Groundwater Storage";
              "MODIS - Vegetation Indices";
              "Landsat - High Resolution Imagery"]%string |};
      status_database := "Connected";
      status_total_locations :=
        Z.of_nat (List.length (Db.locations (Db.pending (Db.get_db db)))) |},
   Db.durable (Db.get_db db)).

(* ------------------------------------------------------------------ *)
(** ** Further notions: the database *)

(** [db'] holds every row of [db], in place, and possibly more rows after
    them. *)
Definition extends (db db' : Db.database) : Prop :=
  (exists more, Db.locations db' = Db.locations db ++ more) /\
  (exists more, Db.air_quality db' = Db.air_quality db ++ more) /\
  (exists more, Db.water_data db' = Db.water_data db ++ more) /\
  (exists more, Db.vegetation db' = Db.vegetation db ++ more) /\
  (exists more, Db.api_logs db' = Db.api_logs db ++ more).

(** Primary keys are unique in every table. *)
Definition keys_unique (db : Db.database) : Prop :=
  NoDup (map Db.id (Db.locations db)) /\
  NoDup (map (@Db.row_id _) (Db.air_quality db)) /\
  NoDup (map (@Db.row_id _) (Db.water_data db)) /\
  NoDup (map (@Db.row_id _) (Db.vegetation db)) /\
  NoDup (map Db.log_id (Db.api_logs db)).

(** Every observation row refers to a stored location. *)
Definition references_resolve (db : Db.database) : Prop :=
  let known := map Db.id (Db.locations db) in
  Forall (fun r => In (Db.location_id r) known) (Db.air_quality db) /\
  Forall (fun r => In (Db.location_id r) known) (Db.water_data db) /\
  Forall (fun r => In (Db.location_id r) known) (Db.vegetation db).

(** The rows of location [loc] in an observation table. *)
Definition rows_of {O} (table : list (Db.row O)) (loc : Z)
  : list (Db.row O) :=
  filter (fun r => (Db.location_id r =? loc)%Z) table.

(** [ts] is strictly later than the timestamp of every row of [loc]. *)
Definition later_than_stored {O} (timestamp : O -> string)
           (table : list (Db.row O)) (loc : Z) (ts : string) : Prop :=
  forall r, In r (rows_of table loc) ->
            String.ltb (timestamp (Db.obs r)) ts = true.

Definition by_name (a b : Db.location) : Prop :=
  String.leb (Db.name a) (Db.name b) = true.

(** The set-up took the requests fallback: the library is missing, or its
    [login] failed with an [ImportError]. *)
Definition fallback_taken (w : Vendor.world) (username password : string)
  : Prop :=
  match Vendor.import_earthaccess w with
  | Py.Raise e => Py.is_ImportError e = true
  | Py.Return ea =>
      match Vendor.login ea username password with
      | Py.Return _ => False
      | Py.Raise e => Py.is_ImportError e = true
      end
  end.

(* ------------------------------------------------------------------ *)
(** ** The installation checker *)

(** [check_python] of [check-nasa-installation.py], on
    [sys.version_info]; the line it prints is left out. *)
Definition check_python (major minor micro : Z) : bool :=
  (major >=? 3)%Z && (minor >=? 8)%Z.

(** Versions in their usual order. *)
Definition version_le (a b : Z * Z) : Prop :=
  (fst a < fst b)%Z \/ (fst a = fst b /\ (snd a <= snd b)%Z).

(** An air observation that differs from [a] in its index only. *)
Definition with_aqi (a : air_obs) (v : Z) : air_obs :=
  {| air_timestamp := air_timestamp a; no2 := no2 a; o3 := o3 a;
     pm25 := pm25 a; so2 := so2 a; aqi := v; air_source := air_source a |}.

(** A water observation that differs from [wd] in its level only. *)
Definition with_level (wd : water_obs) (level : Q) : water_obs :=
  {| water_timestamp := water_timestamp wd; groundwater_level := level;
     precipitation := precipitation wd; flood_risk := flood_risk wd;
     water_source := water_source wd |}.

(** A runtime whose generator is about to draw the top of the air
    quality range, and the database a dashboard query leaves with it. *)
Definition rt_smog : runtime (G := nat) :=
  {| gen := 96%nat; wallclock := Demo.demo_clock; ticks := 0 |}.

Definition smog_database : Db.database :=
  snd (fst (get_dashboard_data
              (nasa_client Demo.offline Demo.anonymous_client)
              no_faults 1 (init_db None) rt_smog)).

(* ================================================================== *)
(** * Verification *)

(** ** Reasoning about code that may raise *)

Section Logic.
Context {St : Type}.

Lemma returns_ret {A} (a : A) (P : A -> Prop) :
  P a -> returns (St := St) (Py.ret a) P.
Proof. intros Ha s. exists a, s. split; [reflexivity | exact Ha]. Qed.

Lemma returns_bind {A B} (m : Py.M St A) (k : A -> Py.M St B)
      (P : A -> Prop) (Q : B -> Prop) :
  returns m P -> (forall a, P a -> returns (k a) Q) ->
  returns (Py.bind m k) Q.
Proof.
  intros Hm Hk s. destruct (Hm s) as (a & s' & E & Pa).
  destruct (Hk a Pa s') as (b & s'' & E' & Qb).
  exists b, s''. unfold Py.bind. rewrite E. split; assumption.
Qed.

Lemma returns_weaken {A} (m : Py.M St A) (P Q : A -> Prop) :
  returns m P -> (forall a, P a -> Q a) -> returns m Q.
Proof.
  intros Hm HPQ s. destruct (Hm s) as (a & s' & E & Pa).
  exists a, s'. split; [exact E | apply HPQ, Pa].
Qed.

Lemma returns_guarded {A} (m : Py.M St A) C (P : A -> Prop) :
  returns m P -> guarded m C P.
Proof.
  intros Hm s. destruct (Hm s) as (a & s' & E & Pa). rewrite E. exact Pa.
Qed.

Lemma guarded_ret {A} (a : A) C (P : A -> Prop) :
  P a -> guarded (St := St) (Py.ret a) C P.
Proof. intros Ha s. exact Ha. Qed.

Lemma guarded_raise {A} (e : Py.exn) C (P : A -> Prop) :
  C e = true -> guarded (St := St) (Py.raise e) C P.
Proof. intros He s. exact He. Qed.

Lemma guarded_lift {A} (o : Py.outcome A) (P : A -> Prop) :
  (forall a, o = Py.Return a -> P a) ->
  guarded (St := St) (Py.lift o) Py.is_Exception P.
Proof.
  intros Ho s. unfold Py.lift. destruct o as [a | e].
  - apply Ho. reflexivity.
  - reflexivity.
Qed.

Lemma guarded_bind {A B} (m : Py.M St A) (k : A -> Py.M St B) C
      (P : A -> Prop) (Q : B -> Prop) :
  guarded m C P -> (forall a, P a -> guarded (k a) C Q) ->
  guarded (Py.bind m k) C Q.
Proof.
  intros Hm Hk s. unfold Py.bind. specialize (Hm s).
  destruct (m s) as [[a | e] s'].
  - apply Hk. exact Hm.
  - exact Hm.
Qed.

Lemma guarded_weaken {A} (m : Py.M St A) C (P Q : A -> Prop) :
  guarded m C P -> (forall a, P a -> Q a) -> guarded m C Q.
Proof.
  intros Hm HPQ s. specialize (Hm s). destruct (m s) as [[a | e] s'].
  - apply HPQ, Hm.
  - exact Hm.
Qed.

(** A handler that catches every class the body can raise, and itself
    returns, makes the whole [try] return. *)
Lemma returns_try {A} (body : Py.M St A) C (h : Py.exn -> Py.M St A)
      (P : A -> Prop) :
  guarded body C P -> (forall e, returns (h e) P) ->
  returns (Py.try_except body C h) P.
Proof.
  intros Hb Hh s. unfold Py.try_except. specialize (Hb s).
  destruct (body s) as [[a | e] s'].
  - exists a, s'. split; [reflexivity | exact Hb].
  - rewrite Hb. apply Hh.
Qed.

(** An inner [try] lets through what its handler does not catch. *)
Lemma guarded_try {A} (body : Py.M St A) C C' (h : Py.exn -> Py.M St A)
      (P : A -> Prop) :
  guarded body (fun e => C e || C' e) P ->
  (forall e, guarded (h e) C' P) ->
  guarded (Py.try_except body C h) C' P.
Proof.
  intros Hb Hh s. unfold Py.try_except. specialize (Hb s).
  destruct (body s) as [[a | e] s'].
  - exact Hb.
  - destruct (C e) eqn:Ce.
    + apply Hh.
    + simpl in Hb. exact Hb.
Qed.

End Logic.

(** ** The generators stay within their bounds *)

Section RandomFacts.
Context {G : Type} `{PyRandom G}.

Lemma now_returns : returns (now (G := G)) (fun _ => True).
Proof. intro rt. unfold now. eexists _, _. split; [reflexivity | exact I]. Qed.

Lemma uniform_returns (a b : Q) :
  a <= b -> returns (uniform (G := G) a b) (fun v => a <= v <= b).
Proof.
  intros Hab rt. unfold uniform, Py.bind, with_gen, Py.ret.
  pose proof (random_range (gen rt)) as [H0 H1].
  destruct (random (gen rt)) as [r g']. cbn [fst] in H0, H1.
  eexists _, _. split; [reflexivity |].
  split; nra.
Qed.

Lemma randint_returns (a b : Z) :
  (a <= b)%Z ->
  returns (randint (G := G) a b) (fun v => (a <= v <= b)%Z).
Proof.
  intros Hab rt. unfold randint, Py.bind, with_gen, Py.ret.
  assert (Hpos : (0 < b - a + 1)%Z) by lia.
  pose proof (@randbelow_range _ _ (b - a + 1)%Z (gen rt) Hpos) as Hk.
  destruct (randbelow (b - a + 1)%Z (gen rt)) as [k g']. cbn [fst] in Hk.
  eexists _, _. split; [reflexivity | lia].
Qed.

Lemma choice_returns {A} (seq : list A) :
  seq <> [] -> returns (choice (G := G) seq) (fun v => In v seq).
Proof.
  intros Hne rt. destruct seq as [| d tl]; [congruence |].
  unfold choice, Py.bind, with_gen, Py.ret.
  set (n := Z.of_nat (List.length (d :: tl))).
  assert (Hpos : (0 < n)%Z) by (subst n; cbn [List.length]; lia).
  pose proof (@randbelow_range _ _ n (gen rt) Hpos) as Hk.
  destruct (randbelow n (gen rt)) as [k g']. cbn [fst] in Hk.
  eexists _, _. split; [reflexivity |].
  apply nth_In. subst n. lia.
Qed.

End RandomFacts.

(** ** The fetchers *)

Lemma catch_all_Exception : catch_all Py.is_Exception.
Proof. intro e. reflexivity. Qed.

Lemma catch_all_or (C : Py.exn -> bool) :
  catch_all (fun e => C e || Py.is_Exception e).
Proof. intro e. apply orb_true_r. Qed.

Create HintDb fetch.
#[local] Hint Resolve catch_all_Exception catch_all_or : fetch.

Lemma guarded_call {St A} (o : Py.outcome A) (C : Py.exn -> bool) :
  catch_all C ->
  guarded (Py.lift (S := St) o) C (fun a => o = Py.Return a).
Proof.
  intros HC s. unfold Py.lift. destruct o as [a | e]; [reflexivity | apply HC].
Qed.

Section FetchFacts.
Context {G : Type} `{PyRandom G}.
Variable w : Vendor.world.
Variable self : NASAAPIClient.t.

Local Abbreviation RT := (runtime (G := G)).

(** Runs a straight-line sequence of clock readings and draws. *)
Ltac draws :=
  repeat first
    [ eapply returns_bind; [ apply now_returns | intros ? _ ]
    | eapply returns_bind; [ apply uniform_returns; lra | intros ? ? ]
    | eapply returns_bind; [ apply randint_returns; lia | intros ? ? ]
    | eapply returns_bind;
      [ apply choice_returns; discriminate | intros ? ? ] ];
  apply returns_ret.

Lemma simulate_air_returns :
  returns (NASAAPIClient._simulate_air_quality_data (G := G))
          (fun o => air_in_range o /\ air_source o = SIMULATION).
Proof.
  unfold NASAAPIClient._simulate_air_quality_data. draws.
  unfold air_in_range, SIMULATION; cbn; cbv beta in *. tauto.
Qed.

Lemma simulate_water_returns :
  returns (NASAAPIClient._simulate_water_data (G := G))
          (fun o => water_in_range o /\ water_source o = SIMULATION).
Proof.
  unfold NASAAPIClient._simulate_water_data. draws.
  unfold water_in_range, SIMULATION; cbn; cbv beta in *. tauto.
Qed.

Lemma simulate_vegetation_returns :
  returns (NASAAPIClient._simulate_vegetation_data (G := G))
          (fun o => vegetation_in_range o /\ vegetation_source o = SIMULATION).
Proof.
  unfold NASAAPIClient._simulate_vegetation_data. draws.
  unfold vegetation_in_range, SIMULATION; cbn; cbv beta in *. tauto.
Qed.

Lemma process_air_returns data lat lon :
  returns (NASAAPIClient._process_nasa_air_data (G := G) data lat lon)
          air_in_range.
Proof.
  unfold NASAAPIClient._process_nasa_air_data.
  apply returns_try.
  - apply returns_guarded. draws.
    unfold air_in_range, SIMULATION; cbn; cbv beta in *. tauto.
  - intros _. eapply returns_weaken; [apply simulate_air_returns |].
    intros ? [? ?]; assumption.
Qed.

Lemma process_water_returns data lat lon :
  returns (NASAAPIClient._process_nasa_water_data (G := G) data lat lon)
          water_in_range.
Proof.
  unfold NASAAPIClient._process_nasa_water_data.
  apply returns_try.
  - apply returns_guarded. draws.
    unfold water_in_range, SIMULATION; cbn; cbv beta in *. tauto.
  - intros _. eapply returns_weaken; [apply simulate_water_returns |].
    intros ? [? ?]; assumption.
Qed.

Lemma process_vegetation_returns data lat lon :
  returns (NASAAPIClient._process_nasa_vegetation_data (G := G) data lat lon)
          vegetation_in_range.
Proof.
  unfold NASAAPIClient._process_nasa_vegetation_data.
  apply returns_try.
  - apply returns_guarded. draws.
    unfold vegetation_in_range, SIMULATION; cbn; cbv beta in *. tauto.
  - intros _.
    eapply returns_weaken; [apply simulate_vegetation_returns |].
    intros ? [? ?]; assumption.
Qed.

Ltac guard_steps :=
  repeat first
    [ apply guarded_ret
    | apply guarded_raise; solve [reflexivity | apply orb_true_r]
    | eapply guarded_bind;
      [ apply guarded_call; solve [auto with fetch] | intros ? ? ]
    | match goal with
      | |- guarded (match ?x with _ => _ end) _ _ => destruct x
      end ].

Lemma default_date_returns date :
  returns (NASAAPIClient.default_date (G := G) date) (fun _ => True).
Proof.
  destruct date as [d |]; cbn.
  - apply returns_ret. exact I.
  - eapply returns_bind; [apply now_returns | intros ? _].
    apply returns_ret. exact I.
Qed.

(** Method 1 and the open-data path: one HTTP call, processed when the
    status is 200. *)
Lemma http_attempt_guarded {O} (process : Vendor.json -> Py.M RT O)
      (R : O -> Prop) url params C :
  catch_all C ->
  (forall data, returns (process data) R) ->
  guarded
    (response <- Py.lift (Vendor.session_get w url params) ;;
     if (Vendor.status_code response =? 200)%Z
     then data <- Py.lift (Vendor.json_body response) ;;
          obs <- process data ;;
          Py.ret (Some obs)
     else Py.ret None)
    C
    (opt_ok (fun o => R o /\ ~ no_usable_response w)).
Proof.
  intros HC Hproc.
  eapply guarded_bind; [apply guarded_call; exact HC | intros response Hresp].
  destruct (Vendor.status_code response =? 200)%Z eqn:Hstatus.
  - eapply guarded_bind; [apply guarded_call; exact HC | intros data Hdata].
    apply returns_guarded.
    eapply returns_bind; [apply Hproc | intros obs Hobs].
    apply returns_ret. cbn. split; [exact Hobs |].
    intro Hno. specialize (Hno url params). rewrite Hresp in Hno.
    apply Z.eqb_eq in Hstatus. destruct (Hno Hstatus) as [e He]. congruence.
  - apply guarded_ret. exact I.
Qed.

Lemma opendata_air_returns lat lon date :
  returns (NASAAPIClient._fetch_nasa_opendata_air_quality (G := G) w lat lon
                                                          date)
          (air_ok w).
Proof.
  unfold NASAAPIClient._fetch_nasa_opendata_air_quality.
  eapply returns_bind.
  - apply returns_try.
    + apply http_attempt_guarded
          with (process := fun data =>
                  NASAAPIClient._process_nasa_air_data data lat lon)
               (R := air_in_range); auto with fetch.
      intro data. apply process_air_returns.
    + intros _. apply returns_ret. exact I.
  - intros [o |] Ho; cbn in Ho.
    + apply returns_ret. split; tauto.
    + eapply returns_weaken; [apply simulate_air_returns |].
      intros o [? ?]. split; auto.
Qed.

Lemma get_air_returns lat lon date :
  returns (NASAAPIClient.get_air_quality_data w self lat lon date) (air_ok w).
Proof.
  unfold NASAAPIClient.get_air_quality_data.
  eapply returns_bind; [apply default_date_returns | intros d _].
  assert (Hsim : returns (NASAAPIClient._simulate_air_quality_data (G := G))
                         (air_ok w)).
  { eapply returns_weaken; [apply simulate_air_returns |].
    intros o [? ?]. split; auto. }
  destruct (negb (NASAAPIClient.authenticated self)); [exact Hsim |].
  apply returns_try; [| intros _; exact Hsim].
  eapply guarded_bind with (P := opt_ok (air_ok w)).
  - destruct (Py.truthy (NASAAPIClient.api_key self)).
    + eapply guarded_weaken.
      * apply http_attempt_guarded
          with (process := fun data =>
                  NASAAPIClient._process_nasa_air_data data lat lon)
               (R := air_in_range); auto with fetch.
        intro data. apply process_air_returns.
      * intros [o |] Ho; cbn in *; [split; tauto | exact I].
    + apply guarded_ret. exact I.
  - intros [o |] Ho.
    + apply guarded_ret. exact Ho.
    + eapply guarded_bind with (P := fun m => m = None).
      * apply guarded_try.
        -- guard_steps; reflexivity.
        -- intros _. apply guarded_ret. reflexivity.
      * intros m2 ->. apply returns_guarded. apply opendata_air_returns.
Qed.

Lemma get_water_returns lat lon date :
  returns (NASAAPIClient.get_water_security_data w self lat lon date)
          (water_ok w).
Proof.
  unfold NASAAPIClient.get_water_security_data.
  eapply returns_bind; [apply default_date_returns | intros d _].
  assert (Hsim : returns (NASAAPIClient._simulate_water_data (G := G))
                         (water_ok w)).
  { eapply returns_weaken; [apply simulate_water_returns |].
    intros o [? ?]. split; auto. }
  destruct (negb (NASAAPIClient.authenticated self)); [exact Hsim |].
  apply returns_try; [| intros _; exact Hsim].
  eapply guarded_bind with (P := opt_ok (water_ok w)).
  - destruct (Py.truthy (NASAAPIClient.api_key self)).
    + eapply guarded_weaken.
      * apply http_attempt_guarded
          with (process := fun data =>
                  NASAAPIClient._process_nasa_water_data data lat lon)
               (R := water_in_range); auto with fetch.
        intro data. apply process_water_returns.
      * intros [o |] Ho; cbn in *; [split; tauto | exact I].
    + apply guarded_ret. exact I.
  - intros [o |] Ho.
    + apply guarded_ret. exact Ho.
    + eapply guarded_bind with (P := fun m => m = None).
      * apply guarded_try.
        -- guard_steps; reflexivity.
        -- intros _. apply guarded_ret. reflexivity.
      * intros m2 ->. apply returns_guarded.
        unfold NASAAPIClient._fetch_nasa_precipitation_data.
        apply returns_try; [apply returns_guarded; exact Hsim |].
        intros _. exact Hsim.
Qed.

Lemma get_vegetation_returns lat lon date :
  returns (NASAAPIClient.get_vegetation_data w self lat lon date)
          (vegetation_ok w).
Proof.
  unfold NASAAPIClient.get_vegetation_data.
  eapply returns_bind; [apply default_date_returns | intros d _].
  assert (Hsim : returns (NASAAPIClient._simulate_vegetation_data (G := G))
                         (vegetation_ok w)).
  { eapply returns_weaken; [apply simulate_vegetation_returns |].
    intros o [? ?]. split; auto. }
  destruct (negb (NASAAPIClient.authenticated self)); [exact Hsim |].
  apply returns_try; [| intros _; exact Hsim].
  eapply guarded_bind with (P := opt_ok (vegetation_ok w)).
  - destruct (Py.truthy (NASAAPIClient.api_key self)).
    + eapply guarded_weaken.
      * apply http_attempt_guarded
          with (process := fun data =>
                  NASAAPIClient._process_nasa_vegetation_data data lat lon)
               (R := vegetation_in_range); auto with fetch.
        intro data. apply process_vegetation_returns.
      * intros [o |] Ho; cbn in *; [split; tauto | exact I].
    + apply guarded_ret. exact I.
  - intros [o |] Ho.
    + apply guarded_ret. exact Ho.
    + eapply guarded_bind with (P := fun m => m = None).
      * apply guarded_try.
        -- guard_steps; reflexivity.
        -- intros _. apply guarded_ret. reflexivity.
      * intros m2 ->. apply returns_guarded.
        unfold NASAAPIClient._fetch_nasa_landsat_data.
        apply returns_try; [apply returns_guarded; exact Hsim |].
        intros _. exact Hsim.
Qed.

End FetchFacts.

(** ** Claims about the fetchers *)

(** C5: every output of the three simulate methods lies in the documented
    closed ranges: air no2 in [10,50], o3 in [20,80], pm25 in [5,35], so2 in
    [1,15], aqi an integer in [50,150]; water groundwater_level in [-20,20],
    precipitation in [0,15], flood_risk one of Low, Medium, High; vegetation
    ndvi in [0.2,0.8], evi in [0.1,0.6], green_coverage in [15,65],
    temperature in [20,35].  Each method returns (it does not raise) from
    every state of the generator and the clock. *)
Theorem simulate_within_documented_ranges :
  forall (G : Type) (R : PyRandom G) (rt : runtime (G := G)),
    (exists o rt',
        NASAAPIClient._simulate_air_quality_data rt = (Py.Return o, rt') /\
        air_in_range o) /\
    (exists o rt',
        NASAAPIClient._simulate_water_data rt = (Py.Return o, rt') /\
        water_in_range o) /\
    (exists o rt',
        NASAAPIClient._simulate_vegetation_data rt = (Py.Return o, rt') /\
        vegetation_in_range o).
Proof.
  intros G R rt. repeat split.
  - destruct (simulate_air_returns rt) as (o & rt' & E & Hr & _).
    exists o, rt'. split; assumption.
  - destruct (simulate_water_returns rt) as (o & rt' & E & Hr & _).
    exists o, rt'. split; assumption.
  - destruct (simulate_vegetation_returns rt) as (o & rt' & E & Hr & _).
    exists o, rt'. split; assumption.
Qed.

Lemma simulate_within_documented_ranges_witness :
  (exists o rt',
      NASAAPIClient._simulate_air_quality_data Demo.rt0 = (Py.Return o, rt') /\
      air_in_range o) /\
  (exists o rt',
      NASAAPIClient._simulate_water_data Demo.rt0 = (Py.Return o, rt') /\
      water_in_range o) /\
  (exists o rt',
      NASAAPIClient._simulate_vegetation_data Demo.rt0 = (Py.Return o, rt') /\
      vegetation_in_range o).
Proof.
  exact (simulate_within_documented_ranges Demo.demo_gen Demo.rt0).
Defined.

(** C4: for every latitude, longitude and date, and whatever the vendor
    side does (network error, non-200 status, undecodable body, missing
    earthaccess library, failing or empty search), each of the three fetch
    operations returns an observation and never raises; when no HTTP call
    yields a usable answer, so that every path is exhausted, the observation
    returned is tagged SIMULATION. *)
Theorem fetch_never_raises :
  forall (G : Type) (R : PyRandom G) (w : Vendor.world)
         (self : NASAAPIClient.t) (latitude longitude : Q)
         (date : option string) (rt : runtime (G := G)),
    (exists o rt',
        NASAAPIClient.get_air_quality_data w self latitude longitude date rt
        = (Py.Return o, rt') /\
        (no_usable_response w -> air_source o = SIMULATION)) /\
    (exists o rt',
        NASAAPIClient.get_water_security_data w self latitude longitude date rt
        = (Py.Return o, rt') /\
        (no_usable_response w -> water_source o = SIMULATION)) /\
    (exists o rt',
        NASAAPIClient.get_vegetation_data w self latitude longitude date rt
        = (Py.Return o, rt') /\
        (no_usable_response w -> vegetation_source o = SIMULATION)).
Proof.
  intros G R w self lat lon date rt. repeat split.
  - destruct (get_air_returns w self lat lon date rt) as (o & rt' & E & _ & Hs).
    exists o, rt'. split; assumption.
  - destruct (get_water_returns w self lat lon date rt)
      as (o & rt' & E & _ & Hs).
    exists o, rt'. split; assumption.
  - destruct (get_vegetation_returns w self lat lon date rt)
      as (o & rt' & E & _ & Hs).
    exists o, rt'. split; assumption.
Qed.

Lemma offline_no_usable_response : no_usable_response Demo.offline.
Proof. intros url params. exact I. Qed.

Lemma fetch_never_raises_witness :
  exists o rt',
    NASAAPIClient.get_air_quality_data
      Demo.offline Demo.stranded_client 28.6139 77.2090 None Demo.rt0
    = (Py.Return o, rt') /\
    air_source o = SIMULATION.
Proof.
  destruct (fetch_never_raises Demo.demo_gen Demo.offline Demo.stranded_client
              28.6139 77.2090 None Demo.rt0) as [(o & rt' & E & Hs) _].
  exists o, rt'. split; [exact E | exact (Hs offline_no_usable_response)].
Defined.

(** ** The engine mode *)

Lemma truthy_nonempty (s : string) : Py.truthy s = true <-> s <> ""%string.
Proof.
  unfold Py.truthy. rewrite negb_true_iff. apply String.eqb_neq.
Qed.

Lemma init_authenticated (cfg : NASA_CONFIG_t) (w : Vendor.world) :
  NASAAPIClient.authenticated (NASAAPIClient.init cfg w) = true <->
  (earthdata_username cfg <> ""%string /\
   earthdata_password cfg <> ""%string /\
   setup_goes_through w (earthdata_username cfg) (earthdata_password cfg)).
Proof.
  unfold NASAAPIClient.init, setup_goes_through. cbn [NASAAPIClient.username
    NASAAPIClient.password].
  rewrite <- !truthy_nonempty.
  destruct (Py.truthy (earthdata_username cfg)),
           (Py.truthy (earthdata_password cfg)); cbn [andb];
    try (cbn; intuition discriminate).
  unfold NASAAPIClient.setup_authentication, Py.try_except, Py.bind, Py.lift.
  destruct (Vendor.import_earthaccess w) as [ea | e]; cbn.
  - destruct (Vendor.login ea (earthdata_username cfg)
                           (earthdata_password cfg)) as [[] | e]; cbn.
    + intuition.
    + destruct e; cbn; intuition discriminate.
  - destruct e; cbn; intuition discriminate.
Qed.

(** C3, as the code has it: the mode resolved at initialization is Live
    exactly when both credential strings are non-empty and the
    authentication set-up goes through; a placeholder value counts as any
    other non-empty string.  If either string is empty the mode is
    Simulated and nothing is called: the vendor side has no influence on the
    client.  When the earthaccess library is missing (its import raises
    ImportError), nothing is called and Live follows from the presence of
    the two strings alone.  When it is installed, its login is called with
    the credentials: the mode is Live if the call returns and Simulated if
    it raises, except for an ImportError raised by the call, which is
    handled like a missing library (the requests fallback) and gives Live.
    An import that fails with another exception gives Simulated. *)
Theorem engine_mode_by_presence_and_setup :
  forall (cfg : NASA_CONFIG_t) (w : Vendor.world),
    let u := earthdata_username cfg in
    let p := earthdata_password cfg in
    (mode (NASAAPIClient.init cfg w) = Live <->
     u <> ""%string /\ p <> ""%string /\ setup_goes_through w u p) /\
    (u = ""%string \/ p = ""%string ->
     mode (NASAAPIClient.init cfg w) = Simulated /\
     forall w', NASAAPIClient.init cfg w' = NASAAPIClient.init cfg w) /\
    (Vendor.import_earthaccess w = Py.Raise Py.ImportError ->
     (mode (NASAAPIClient.init cfg w) = Live <->
      u <> ""%string /\ p <> ""%string)) /\
    (forall ea,
        Vendor.import_earthaccess w = Py.Return ea ->
        (Vendor.login ea u p = Py.Return tt ->
         (mode (NASAAPIClient.init cfg w) = Live <->
          u <> ""%string /\ p <> ""%string)) /\
        (forall e,
            Vendor.login ea u p = Py.Raise e ->
            Py.is_ImportError e = false ->
            mode (NASAAPIClient.init cfg w) = Simulated) /\
        (forall e,
            Vendor.login ea u p = Py.Raise e ->
            Py.is_ImportError e = true ->
            (mode (NASAAPIClient.init cfg w) = Live <->
             u <> ""%string /\ p <> ""%string))) /\
    (forall e,
        Vendor.import_earthaccess w = Py.Raise e ->
        Py.is_ImportError e = false ->
        mode (NASAAPIClient.init cfg w) = Simulated).
Proof.
  intros cfg w u p. subst u p.
  pose proof (init_authenticated cfg w) as Hiff.
  assert (Hmode : mode (NASAAPIClient.init cfg w) = Live <->
                  NASAAPIClient.authenticated (NASAAPIClient.init cfg w)
                  = true).
  { unfold mode.
    destruct (NASAAPIClient.authenticated (NASAAPIClient.init cfg w));
      split; intro; (reflexivity || discriminate). }
  assert (Hsim : ~ setup_goes_through w (earthdata_username cfg)
                                      (earthdata_password cfg) ->
                 mode (NASAAPIClient.init cfg w) = Simulated).
  { intro Hno.
    destruct (mode (NASAAPIClient.init cfg w)) eqn:Em; [| reflexivity].
    exfalso. apply Hno. assert (Ha : Live = Live) by reflexivity.
    apply Hmode, Hiff in Ha. tauto. }
  split; [| split; [| split; [| split]]].
  - rewrite Hmode. exact Hiff.
  - intro Hempty. split.
    + destruct (mode (NASAAPIClient.init cfg w)) eqn:Em; [| reflexivity].
      exfalso. assert (Ha : Live = Live) by reflexivity.
      apply Hmode, Hiff in Ha. tauto.
    + intro w'. unfold NASAAPIClient.init.
      cbn [NASAAPIClient.username NASAAPIClient.password].
      destruct Hempty as [-> | ->]; cbn [Py.truthy String.eqb negb andb];
        [reflexivity |].
      rewrite andb_false_r. reflexivity.
  - intro Himport. rewrite Hmode, Hiff.
    unfold setup_goes_through. rewrite Himport. cbn. tauto.
  - intros ea Himport. split; [| split].
    + intro Hlogin. rewrite Hmode, Hiff.
      unfold setup_goes_through. rewrite Himport, Hlogin. tauto.
    + intros e Hlogin He. apply Hsim.
      unfold setup_goes_through. rewrite Himport, Hlogin, He. discriminate.
    + intros e Hlogin He. rewrite Hmode, Hiff.
      unfold setup_goes_through. rewrite Himport, Hlogin. tauto.
  - intros e Himport He. apply Hsim.
    unfold setup_goes_through. rewrite Himport, He. discriminate.
Qed.

Lemma engine_mode_by_presence_and_setup_witness :
  mode (NASAAPIClient.init (NASA_CONFIG "" "secret" "") Demo.offline)
  = Simulated /\
  mode (NASAAPIClient.init (NASA_CONFIG "user" "secret" "") Demo.offline)
  = Live /\
  mode (NASAAPIClient.init (NASA_CONFIG "user" "secret" "")
                           (Demo.online 200 true))
  = Simulated /\
  mode (NASAAPIClient.init (NASA_CONFIG "user" "secret" "")
                           Demo.login_import_error)
  = Live.
Proof.
  pose proof (engine_mode_by_presence_and_setup
                (NASA_CONFIG "" "secret" "") Demo.offline) as (_ & Hempty & _).
  pose proof (engine_mode_by_presence_and_setup
                (NASA_CONFIG "user" "secret" "") Demo.offline)
    as (_ & _ & Hlive & _).
  pose proof (engine_mode_by_presence_and_setup
                (NASA_CONFIG "user" "secret" "") (Demo.online 200 true))
    as (_ & _ & _ & Hinstalled & _).
  pose proof (engine_mode_by_presence_and_setup
                (NASA_CONFIG "user" "secret" "") Demo.login_import_error)
    as (_ & _ & _ & Hfallback & _).
  split; [| split; [| split]].
  - apply Hempty. left. reflexivity.
  - apply Hlive; [reflexivity | split; discriminate].
  - destruct (Hinstalled _ eq_refl) as (_ & Hraises & _).
    apply (Hraises (Py.VendorError "login failed")); reflexivity.
  - destruct (Hfallback _ eq_refl) as (_ & _ & Himp).
    apply (Himp Py.ImportError); [reflexivity | reflexivity |].
    split; discriminate.
Defined.

(** C3 as stated fails: a placeholder user name is taken for a credential
    (the mode is Live where the claim says Simulated), and with earthaccess
    installed a failing login gives Simulated although both strings are
    present and are no placeholders. *)
Lemma engine_mode_not_by_placeholder :
  (mode (NASAAPIClient.init (NASA_CONFIG placeholder "secret" "") Demo.offline)
   = Live /\
   spec_mode placeholder "secret" = Simulated) /\
  (mode (NASAAPIClient.init (NASA_CONFIG "user" "secret" "")
                            (Demo.online 200 true))
   = Simulated /\
   spec_mode "user" "secret" = Live).
Proof. vm_compute. repeat split. Qed.

(** ** The dashboard query, phase by phase *)

Section DashboardFacts.
Context {G : Type} `{PyRandom G}.

Local Abbreviation RT := (runtime (G := G)).

Lemma get_dashboard_data_outcome nasa_client faults location_id db rt :
  get_dashboard_data nasa_client faults location_id db rt
  = dashboard_outcome nasa_client faults location_id db rt.
Proof.
  unfold get_dashboard_data, dashboard_outcome, Db.execute, dashboard_try,
    when_some, on_conn, Db.insert_air_quality, Db.insert_water_data,
    Db.insert_vegetation.
  cbn [Db.get_db Db.pending Db.durable Db.bind_all Db.bind].
  destruct (Db.int64 location_id); cbn [negb andb]; [| reflexivity].
  destruct (Db.select_location db location_id) as [location |];
    [| reflexivity].
  unfold fetch_all, Py.bind, on_rt. cbn [fst snd].
  destruct (client_air nasa_client _ _ None rt) as [[a | e] rt1];
    cbn [fst snd]; [| reflexivity].
  destruct (client_water nasa_client _ _ None rt1) as [[wd | e] rt2];
    cbn [fst snd]; [| reflexivity].
  destruct (client_vegetation nasa_client _ _ None rt2) as [[v | e] rt3];
    cbn [fst snd]; [| reflexivity].
  unfold observations_fault, log_fault, air_overflow, Py.ret.
  destruct faults as [f1 f2 f3 f4 f5 f6]. cbn [fail_insert_air
    fail_insert_water fail_insert_vegetation fail_commit_observations
    fail_insert_log fail_commit_log].
  destruct a as [a |]; cbn [is_some andb orb];
    [destruct (Db.int64 (aqi a)); cbn [negb]; [| reflexivity];
     destruct f1; [reflexivity |] |];
    (destruct wd as [wd |]; cbn [is_some andb orb];
     [destruct f2; [reflexivity |] |]);
    (destruct v as [v |]; cbn [is_some andb orb];
     [destruct f3; [reflexivity |] |]);
    (destruct f4; [reflexivity |]);
    (destruct f5; [reflexivity |]);
    (destruct f6; reflexivity).
Qed.

End DashboardFacts.

(** ** The read routes, case by case *)

Lemma get_alerts_run location_id db :
  get_alerts location_id db
  = (if Db.int64 location_id
     then Py.Return
            (evaluate_alerts
               (hd_error (Db.select_recent air_timestamp (Db.air_quality db)
                                           location_id 1))
               (hd_error (Db.select_recent water_timestamp (Db.water_data db)
                                           location_id 1)))
     else Py.Raise Py.OverflowError,
     db).
Proof.
  unfold get_alerts, Db.execute, Py.bind.
  cbn [Db.get_db Db.pending Db.durable Db.bind_all Db.bind].
  destruct (Db.int64 location_id); reflexivity.
Qed.

Lemma get_historical_data_run authenticated location_id arg db :
  get_historical_data authenticated location_id arg db
  = (if Db.int64 location_id && Db.int64 (days_arg arg)
     then Py.Return
            {| h_air_quality :=
                 Db.select_recent air_timestamp (Db.air_quality db)
                                  location_id (days_arg arg);
               h_water_security :=
                 Db.select_recent water_timestamp (Db.water_data db)
                                  location_id (days_arg arg);
               h_vegetation :=
                 Db.select_recent vegetation_timestamp (Db.vegetation db)
                                  location_id (days_arg arg);
               h_data_source :=
                 if authenticated then "NASA APIs"%string
                 else "Simulation"%string |}
     else Py.Raise Py.OverflowError,
     db).
Proof.
  unfold get_historical_data, Db.execute, Py.bind.
  cbn [Db.get_db Db.pending Db.durable Db.bind_all Db.bind].
  destruct (Db.int64 location_id); [| reflexivity].
  destruct (Db.int64 (days_arg arg)); reflexivity.
Qed.

(** ** The wellbeing index *)

Lemma Qltb_true (x y : Q) : Py.Qltb x y = true <-> x < y.
Proof.
  unfold Py.Qltb. rewrite negb_true_iff.
  destruct (Qle_bool y x) eqn:E.
  - apply Qle_bool_iff in E. split; [discriminate | intro; lra].
  - split; [intros _ | reflexivity].
    destruct (Qlt_le_dec x y) as [Hlt | Hle]; [exact Hlt |].
    apply Qle_bool_iff in Hle. congruence.
Qed.

Lemma Qltb_false (x y : Q) : Py.Qltb x y = false <-> y <= x.
Proof.
  unfold Py.Qltb. rewrite negb_false_iff. apply Qle_bool_iff.
Qed.

Lemma min_max_is_clamp (x : Q) :
  Py.min 100 (Py.max 0 x) == clamp x 0 100 /\
  0 <= Py.min 100 (Py.max 0 x) <= 100.
Proof.
  unfold Py.min, Py.max, clamp.
  destruct (Py.Qltb 0 x) eqn:E0.
  - apply Qltb_true in E0.
    destruct (Py.Qltb x 100) eqn:E1.
    + apply Qltb_true in E1.
      destruct (Qlt_le_dec x 0); [lra |].
      destruct (Qlt_le_dec 100 x); [lra |]. repeat split; lra.
    + apply Qltb_false in E1.
      destruct (Qlt_le_dec x 0); [lra |].
      destruct (Qlt_le_dec 100 x); repeat split; lra.
  - apply Qltb_false in E0.
    destruct (Py.Qltb 0 100) eqn:E1.
    + destruct (Qlt_le_dec x 0); [repeat split; lra |].
      destruct (Qlt_le_dec 100 x); repeat split; lra.
    + apply Qltb_false in E1. lra.
Qed.

Lemma maxZ_is_max (a b : Z) : Py.maxZ a b = Z.max a b.
Proof. unfold Py.maxZ. destruct (Z.ltb_spec a b); lia. Qed.

Lemma wellbeing_index_spec air water veg :
  wellbeing_index air water veg
  = spec_air_score air * 0.4 + spec_water_score water * 0.3
    + spec_green_score veg * 0.3.
Proof.
  unfold wellbeing_index, air_score, spec_air_score.
  destruct air as [a |]; [rewrite maxZ_is_max |]; reflexivity.
Qed.

(** C1: the index reported by a dashboard query is
    clamp(air_score*0.4 + water_score*0.3 + green_score*0.3, 0, 100) with
    air_score = max(0, 100 - aqi), water_score = 50 + groundwater_level*2,
    green_score = green_coverage, each score being 50 when the observation
    of its domain is absent; it lies in [0,100] for every input, the
    adversarial values aqi = 500 and groundwater_level = +100 included. *)
Theorem wellbeing_index_is_clamped_formula :
  (forall air water veg,
      reported_index air water veg == spec_index air water veg /\
      0 <= reported_index air water veg <= 100) /\
  (forall (G : Type) (R : PyRandom G) (nasa_client : @client_methods G R)
          faults location_id db rt data db' rt',
      get_dashboard_data nasa_client faults location_id db rt
      = (Dashboard200 data, db', rt') ->
      dd_wellbeing_index data
      = reported_index (dd_air_quality data) (dd_water_security data)
                       (dd_vegetation data)) /\
  (forall veg,
      0 <= reported_index (Some air_aqi_500) (Some water_level_100) veg <= 100).
Proof.
  assert (Hall : forall air water veg,
             reported_index air water veg == spec_index air water veg /\
             0 <= reported_index air water veg <= 100).
  { intros air water veg. unfold reported_index, spec_index.
    rewrite <- wellbeing_index_spec. apply min_max_is_clamp. }
  split; [exact Hall | split].
  - intros G R nasa_client faults location_id db rt data db' rt' Hrun.
    rewrite get_dashboard_data_outcome in Hrun.
    unfold dashboard_outcome in Hrun.
    destruct (Db.int64 location_id); cbn [negb] in Hrun; [| discriminate].
    destruct (Db.select_location db location_id) as [location |];
      [| discriminate].
    destruct (fetch_all nasa_client location rt) as [[[[a wd] v] | e] rt1];
      [| discriminate].
    destruct (air_overflow a); [discriminate |].
    destruct (observations_fault faults a wd v); [discriminate |].
    destruct (log_fault faults); [discriminate |].
    injection Hrun as <- _ _. reflexivity.
  - intro veg. apply Hall.
Qed.

Lemma wellbeing_index_is_clamped_formula_witness :
  exists data,
    fst (fst (get_dashboard_data
                (nasa_client Demo.offline Demo.anonymous_client)
                no_faults 1 (init_db None) Demo.rt0))
    = Dashboard200 data /\
    dd_wellbeing_index data
    = reported_index (dd_air_quality data) (dd_water_security data)
                     (dd_vegetation data).
Proof.
  destruct (get_dashboard_data
              (nasa_client Demo.offline Demo.anonymous_client)
              no_faults 1 (init_db None) Demo.rt0)
    as [[resp db'] rt'] eqn:Hrun.
  assert (Hresp : exists data, resp = Dashboard200 data).
  { vm_compute in Hrun. injection Hrun as <- _ _. eexists. reflexivity. }
  destruct Hresp as [data ->].
  exists data. split; [reflexivity |].
  destruct wellbeing_index_is_clamped_formula as (_ & Hdash & _).
  exact (Hdash _ _ _ _ _ _ _ _ _ _ Hrun).
Defined.

(** ** The alert evaluator *)

Lemma evaluate_alerts_kinds latest_air latest_water :
  map alert_kind (evaluate_alerts latest_air latest_water)
  = spec_alerts latest_air latest_water.
Proof.
  unfold evaluate_alerts, spec_alerts.
  assert (Hair :
    map alert_kind
      (match latest_air with
       | Some r =>
           if (aqi (Db.obs r) >? 100)%Z
           then [] ++
                [{| alert_type := "air_quality";
                    severity := if (aqi (Db.obs r) <? 150)%Z
                                then "warning" else "danger";
                    message := Poor_air_quality (aqi (Db.obs r))
                                                (air_source (Db.obs r));
                    alert_timestamp := air_timestamp (Db.obs r) |}]
           else []
       | None => []
       end)
    = match latest_air with
      | Some r =>
          if Z_gt_dec (aqi (Db.obs r)) 100
          then [("air_quality"%string,
                 if Z_ge_dec (aqi (Db.obs r)) 150
                 then "danger"%string else "warning"%string)]
          else []
      | None => []
      end).
  { destruct latest_air as [r |]; [| reflexivity].
    rewrite Z.gtb_ltb.
    destruct (Z.ltb_spec 100 (aqi (Db.obs r))),
             (Z_gt_dec (aqi (Db.obs r)) 100); try lia; [| reflexivity].
    cbn. unfold alert_kind; cbn.
    destruct (Z.ltb_spec (aqi (Db.obs r)) 150),
             (Z_ge_dec (aqi (Db.obs r)) 150); try lia; reflexivity. }
  rewrite <- Hair.
  destruct latest_water as [rw |]; [| rewrite app_nil_r; reflexivity].
  cbn zeta.
  destruct (String.eqb_spec (flood_risk (Db.obs rw)) "High") as [Ef | Ef],
           (string_dec (flood_risk (Db.obs rw)) "High");
    try contradiction;
    destruct (Py.Qltb (groundwater_level (Db.obs rw)) (-15)) eqn:Eg;
    [ apply Qltb_true in Eg | apply Qltb_false in Eg
    | apply Qltb_true in Eg | apply Qltb_false in Eg ];
    destruct (Qlt_le_dec (groundwater_level (Db.obs rw)) (-15));
    try lra;
    cbn [app]; rewrite ?map_app, <- ?app_assoc, ?app_nil_r; reflexivity.
Qed.

(** C6: the evaluator applies its checks in the order air_quality,
    flood_risk, water_stress.  An air alert fires iff the latest air row
    has aqi > 100, with severity danger iff aqi >= 150 and warning
    otherwise; a flood alert of severity danger fires iff the latest water
    row has flood_risk = High; a water_stress warning fires iff its
    groundwater_level is below -15; a domain without a latest row is skipped.
    For aqi = 160, flood_risk = High, groundwater_level = -16 the alerts are
    exactly air_quality/danger, flood_risk/danger, water_stress/warning, in
    this order, also through the route on a database whose latest rows are
    these. *)
Theorem alert_checks_in_fixed_order :
  (forall latest_air latest_water,
      map alert_kind (evaluate_alerts latest_air latest_water)
      = spec_alerts latest_air latest_water) /\
  (forall latest_air latest_water,
      let kinds := map alert_kind (evaluate_alerts latest_air latest_water) in
      (In ("air_quality", "danger")%string kinds <->
       exists r, latest_air = Some r /\ (aqi (Db.obs r) >= 150)%Z) /\
      (In ("air_quality", "warning")%string kinds <->
       exists r, latest_air = Some r /\ (100 < aqi (Db.obs r) < 150)%Z) /\
      (In ("flood_risk", "danger")%string kinds <->
       exists r, latest_water = Some r /\
                 flood_risk (Db.obs r) = "High"%string) /\
      (In ("water_stress", "warning")%string kinds <->
       exists r, latest_water = Some r /\
                 groundwater_level (Db.obs r) < -15)) /\
  evaluate_alerts None None = [] /\
  map alert_kind
      (evaluate_alerts
         (Some (Demo.air_row 1 "2025-10-03T15:37:02" 160))
         (Some (Demo.water_row 2 "2025-10-03T15:37:02" "High" (-16))))
  = [("air_quality", "danger"); ("flood_risk", "danger");
     ("water_stress", "warning")]%string /\
  (exists alerts,
      get_alerts 1 Demo.alarming = (Py.Return alerts, Demo.alarming) /\
      map alert_kind alerts
      = [("air_quality", "danger"); ("flood_risk", "danger");
         ("water_stress", "warning")]%string).
Proof.
  split; [exact evaluate_alerts_kinds |].
  split; [| split; [reflexivity | split; [reflexivity |]];
            eexists; split; reflexivity].
  intros latest_air latest_water kinds. subst kinds.
  rewrite evaluate_alerts_kinds. unfold spec_alerts.
  destruct latest_air as [ra |], latest_water as [rw |];
    repeat match goal with
           | |- context [Z_gt_dec ?a ?b] => destruct (Z_gt_dec a b)
           | |- context [Z_ge_dec ?a ?b] => destruct (Z_ge_dec a b)
           | |- context [string_dec ?a ?b] => destruct (string_dec a b)
           | |- context [Qlt_le_dec ?a ?b] => destruct (Qlt_le_dec a b)
           end;
    cbn [app In];
    repeat split; intro Hx;
    repeat match goal with
           | Hx : _ \/ _ |- _ => destruct Hx as [Hx | Hx]
           | Hx : False |- _ => contradiction
           | Hx : (_, _) = (_, _) |- _ => discriminate Hx
           | Hx : exists _, _ |- _ => destruct Hx as (? & Hx & ?)
           | Hx : Some _ = Some _ |- _ => injection Hx as <-
           | Hx : None = Some _ |- _ => discriminate Hx
           end;
    try lia; try lra; try congruence;
    try (eexists; split; [reflexivity | first [lia | lra | assumption]]);
    auto.
Qed.

Lemma alert_checks_in_fixed_order_witness :
  In ("air_quality", "danger")%string
     (map alert_kind
          (evaluate_alerts
             (Some (Demo.air_row 1 "2025-10-03T15:37:02" 160)) None)).
Proof.
  destruct alert_checks_in_fixed_order as (_ & Hiff & _).
  apply (Hiff (Some (Demo.air_row 1 "2025-10-03T15:37:02" 160)) None).
  eexists. split; [reflexivity | cbn; lia].
Defined.

(** ** Location creation *)

Lemma fold_max_upper (ids : list Z) (x : Z) :
  In x ids -> (x <= fold_right Z.max 0 ids)%Z.
Proof.
  induction ids as [| y ids IH]; cbn; [contradiction |].
  intros [-> | Hin]; [lia | specialize (IH Hin); lia].
Qed.

Lemma next_rowid_fresh (ids : list Z) : ~ In (Db.next_rowid ids) ids.
Proof.
  intro Hin. apply fold_max_upper in Hin. unfold Db.next_rowid in Hin. lia.
Qed.

Lemma float_le_within (lo hi : Q) (x : Py.float) :
  Py.float_le (Py.Finite lo) x && Py.float_le x (Py.Finite hi) = true
  <-> within lo x hi.
Proof.
  destruct x as [q | [|] |]; cbn.
  - rewrite andb_true_iff, !Qle_bool_iff. tauto.
  - split; [discriminate | contradiction].
  - split; [discriminate | contradiction].
  - split; [discriminate | contradiction].
Qed.

(** The chained comparison on a number is the range test; on anything
    else it raises. *)
Lemma between_number (lo hi : Z) (v : Py.object) (x : Py.float) :
  Py.number v = Some x ->
  Py.between lo v hi
  = Py.Return (Py.float_le (Py.Finite (inject_Z lo)) x
               && Py.float_le x (Py.Finite (inject_Z hi))).
Proof.
  intro Hx. unfold Py.between, Py.int_le, Py.le_int. rewrite Hx.
  destruct (Py.float_le (Py.Finite (inject_Z lo)) x); reflexivity.
Qed.

Lemma between_no_number (lo hi : Z) (v : Py.object) :
  Py.number v = None -> Py.between lo v hi = Py.Raise Py.TypeError.
Proof.
  intro Hx. unfold Py.between, Py.int_le. rewrite Hx. reflexivity.
Qed.

Lemma between_true (lo hi : Z) (v : Py.object) :
  Py.between lo v hi = Py.Return true ->
  exists q, Py.number v = Some (Py.Finite q) /\
            inject_Z lo <= q <= inject_Z hi.
Proof.
  intro Hb. destruct (Py.number v) as [x |] eqn:Hx.
  - rewrite (between_number lo hi v Hx) in Hb. injection Hb as Hb.
    apply float_le_within in Hb. destruct x as [q | |]; try contradiction.
    exists q. split; [reflexivity | exact Hb].
  - rewrite (between_no_number lo hi v Hx) in Hb. discriminate.
Qed.

Lemma getitem_dict (data : Py.object) (k : string) (v : Py.object) :
  Py.getitem data k = Py.Return v ->
  exists items, data = Py.PyDict items /\ Py.lookup items k = Some v.
Proof.
  destruct data; try discriminate. cbn.
  destruct (Py.lookup items k) as [v' |] eqn:Hk; [| discriminate].
  intro E. injection E as <-. exists items. split; [reflexivity | exact Hk].
Qed.

Lemma int64_small (n : Z) : (-180 <= n <= 180)%Z -> Db.int64 n = true.
Proof.
  intro Hn. unfold Db.int64. apply andb_true_iff.
  split; [apply Z.leb_le | apply Z.ltb_lt]; lia.
Qed.

(** A number within the bounds of a coordinate is bound, and held by a
    REAL column, as its value. *)
Lemma coordinate_column (sqlite : Db.engine) (v : Py.object) (q : Q) :
  Py.number v = Some (Py.Finite q) -> -180 <= q <= 180 ->
  exists b, Db.bind v = Py.Return b /\
            Db.real_affinity sqlite b = Db.Real (Py.Finite q).
Proof.
  intros Hv Hq. destruct v as [| b | n | x | s | l | items]; try discriminate.
  - injection Hv as <-. eexists. split; [reflexivity |].
    destruct b; reflexivity.
  - injection Hv as <-. cbn [Db.bind].
    rewrite int64_small.
    + eexists. split; reflexivity.
    + destruct Hq as [Hlo Hhi]. change (-180) with (inject_Z (-180)) in Hlo.
      change 180 with (inject_Z 180) in Hhi.
      rewrite <- Zle_Qle in Hlo, Hhi. lia.
  - injection Hv as ->. eexists. split; reflexivity.
Qed.

(** What [add_location] does to the database: nothing, unless it answers
    with a new id; then it has stored one row, made of the values of the
    request. *)
Lemma add_location_effect (sqlite : Db.engine) (data : Py.object)
      (db : Db.database) :
  (snd (add_location sqlite data db) = db /\
   forall msg new_id, fst (add_location sqlite data db) <> Added msg new_id)
  \/
  (exists items v_name v_lat v_lon b_name b_pop b_area n lat lon,
      data = Py.PyDict items /\
      Py.lookup items "name" = Some v_name /\
      Py.lookup items "latitude" = Some v_lat /\
      Py.lookup items "longitude" = Some v_lon /\
      Py.number v_lat = Some (Py.Finite lat) /\ -90 <= lat <= 90 /\
      Py.number v_lon = Some (Py.Finite lon) /\ -180 <= lon <= 180 /\
      Db.bind v_name = Py.Return b_name /\
      Db.text_affinity sqlite b_name = Db.Text n /\
      Db.bind (Py.item_or_none items "population") = Py.Return b_pop /\
      Db.bind (Py.item_or_none items "area") = Py.Return b_area /\
      Db.insert_fails sqlite = false /\
      let new_id := Db.next_rowid (map Db.id (Db.locations db)) in
      add_location sqlite data db
      = (Added "Location added successfully" new_id,
         appended db
           {| Db.id := new_id; Db.name := n; Db.latitude := lat;
              Db.longitude := lon;
              Db.population := Db.integer_affinity sqlite b_pop;
              Db.area := Db.real_affinity sqlite b_area |})).
Proof.
  unfold add_location.
  destruct (missing_required_fields data) as [[|] | e];
    try (left; split; [reflexivity | intros; discriminate]).
  destruct (invalid_coordinates data) as [[|] | e] eqn:Hinv;
    try (left; split; [reflexivity | intros; discriminate]).
  unfold invalid_coordinates in Hinv.
  destruct (Py.getitem data "latitude") as [v_lat | e] eqn:Hlat;
    [| discriminate].
  destruct (Py.between (-90) v_lat 90) as [[|] | e] eqn:Blat;
    try discriminate.
  destruct (Py.getitem data "longitude") as [v_lon | e] eqn:Hlon;
    [| discriminate].
  destruct (Py.between (-180) v_lon 180) as [[|] | e] eqn:Blon;
    try discriminate.
  apply between_true in Blat. destruct Blat as (lat & Nlat & Rlat).
  apply between_true in Blon. destruct Blon as (lon & Nlon & Rlon).
  apply getitem_dict in Hlat. destruct Hlat as (items & -> & Hlat).
  apply getitem_dict in Hlon. destruct Hlon as (items' & E & Hlon).
  injection E as <-.
  unfold Py.bind, Py.lift, Db.insert_location_values.
  cbn [Py.getitem Py.dict_get].
  destruct (Py.lookup items "name") as [v_name |] eqn:Hname;
    [| left; split; [reflexivity | intros; discriminate]].
  unfold Py.bind, Py.lift.
  destruct (Db.bind v_name) as [b_name | e] eqn:Bname;
    [| left; split; [reflexivity | intros; discriminate]].
  assert (Rlat' : -180 <= lat <= 180).
  { change (inject_Z (-90)) with (-90) in Rlat.
    change (inject_Z 90) with 90 in Rlat. lra. }
  destruct (coordinate_column sqlite v_lat Nlat Rlat')
    as (b_lat & Blat & Clat).
  destruct (coordinate_column sqlite v_lon Nlon Rlon)
    as (b_lon & Blon & Clon).
  unfold Py.bind, Py.lift. rewrite Blat, Blon.
  destruct (Db.bind (Py.item_or_none items "population"))
    as [b_pop | e] eqn:Bpop;
    [| left; split; [reflexivity | intros; discriminate]].
  destruct (Db.bind (Py.item_or_none items "area"))
    as [b_area | e] eqn:Barea;
    [| left; split; [reflexivity | intros; discriminate]].
  rewrite Clat, Clon.
  destruct (Db.text_affinity sqlite b_name) as [| k | x | n] eqn:Cname;
    try (left; split; [reflexivity | intros; discriminate]).
  unfold Db.insert_location.
  destruct (Db.insert_fails sqlite) eqn:Hfault;
    [left; split; [reflexivity | intros; discriminate] |].
  right. exists items, v_name, v_lat, v_lon, b_name, b_pop, b_area, n, lat, lon.
  repeat (split; [first [reflexivity | assumption] |]).
  reflexivity.
Qed.

Lemma add_location_appends (sqlite : Db.engine) (data : Py.object)
      (db : Db.database) :
  snd (add_location sqlite data db) = db \/
  exists row,
    Db.id row = Db.next_rowid (map Db.id (Db.locations db)) /\
    snd (add_location sqlite data db) = appended db row.
Proof.
  destruct (add_location_effect sqlite data db)
    as [[E _] | (? & ? & ? & ? & ? & ? & ? & ? & ? & ? & _ & _ & _ & _ & _
                 & _ & _ & _ & _ & _ & _ & _ & _ & E)].
  - left. exact E.
  - right. cbv zeta in E. rewrite E. eexists. split; [| reflexivity].
    reflexivity.
Qed.











(** ** The history reader *)

Lemma compare_as_OT (s1 s2 : string) :
  String.compare s1 s2 = String_as_OT.compare s1 s2.
Proof.
  revert s2.
  induction s1 as [| c1 s1 IH]; destruct s2 as [| c2 s2]; cbn;
    try reflexivity.
Qed.

Lemma string_leb_trans (a b c : string) :
  String.leb a b = true -> String.leb b c = true -> String.leb a c = true.
Proof.
  unfold String.leb.
  rewrite (compare_as_OT a b), (compare_as_OT b c), (compare_as_OT a c).
  pose proof (@StrictOrder_Irreflexive _ _ String_as_OT.lt_strorder) as Hirr.
  pose proof (@StrictOrder_Transitive _ _ String_as_OT.lt_strorder) as Htr.
  destruct (String_as_OT.compare_spec a b) as [Eab | Lab | Lba];
    destruct (String_as_OT.compare_spec b c) as [Ebc | Lbc | Lcb];
    destruct (String_as_OT.compare_spec a c) as [Eac | Lac | Lca];
    intros H1 H2; try reflexivity; try discriminate; exfalso;
    unfold String_as_OT.eq in *; subst;
    first [ exact (Hirr _ Lca)
          | exact (Hirr _ (Htr _ _ _ Lbc Lca))
          | exact (Hirr _ (Htr _ _ _ Lab Lca))
          | exact (Hirr _ (Htr _ _ _ Lab (Htr _ _ _ Lbc Lca))) ].
Qed.

Section OrderBy.
Context {A : Type} (key : A -> string).

Lemma insert_desc_perm (x : A) (l : list A) :
  Permutation (x :: l) (Db.insert_desc key x l).
Proof.
  induction l as [| y l IH]; cbn; [reflexivity |].
  destruct (String.leb (key y) (key x)); [reflexivity |].
  rewrite perm_swap. apply perm_skip. exact IH.
Qed.

Lemma order_by_desc_perm (l : list A) :
  Permutation l (Db.order_by_desc key l).
Proof.
  induction l as [| x l IH]; cbn; [reflexivity |].
  rewrite <- insert_desc_perm. apply perm_skip. exact IH.
Qed.

Lemma insert_desc_sorted (x : A) (l : list A) :
  latest_first key l -> latest_first key (Db.insert_desc key x l).
Proof.
  unfold latest_first.
  induction l as [| y l IH]; cbn; intro Hs.
  - constructor; constructor.
  - apply StronglySorted_inv in Hs. destruct Hs as [Hl Hy].
    destruct (String.leb (key y) (key x)) eqn:E.
    + constructor; [constructor; assumption |].
      constructor; [exact E |].
      rewrite Forall_forall in *. intros z Hz.
      unfold at_least_as_recent in *.
      apply string_leb_trans with (b := key y); [apply Hy, Hz | exact E].
    + constructor; [apply IH, Hl |].
      rewrite Forall_forall in *. intros z Hz.
      apply (Permutation_in _ (Permutation_sym (insert_desc_perm x l))) in Hz.
      destruct Hz as [<- | Hz]; [| apply Hy, Hz].
      unfold at_least_as_recent.
      destruct (String.leb_total (key x) (key y)) as [Hxy | Hyx];
        [exact Hxy | congruence].
Qed.

Lemma order_by_desc_sorted (l : list A) :
  latest_first key (Db.order_by_desc key l).
Proof.
  induction l as [| x l IH]; cbn.
  - constructor.
  - apply insert_desc_sorted. exact IH.
Qed.

Lemma latest_first_app (l1 l2 : list A) :
  latest_first key (l1 ++ l2) ->
  latest_first key l1 /\
  forall x y, In x l1 -> In y l2 -> at_least_as_recent key x y.
Proof.
  unfold latest_first.
  induction l1 as [| z l1 IH]; cbn; intro Hs.
  - split; [constructor | contradiction].
  - apply StronglySorted_inv in Hs. destruct Hs as [Hl Hz].
    destruct (IH Hl) as [Hs1 Hcross].
    rewrite Forall_forall in Hz.
    split.
    + constructor; [exact Hs1 |].
      rewrite Forall_forall. intros y Hy. apply Hz, in_or_app. left. exact Hy.
    + intros x y [<- | Hx] Hy.
      * apply Hz, in_or_app. right. exact Hy.
      * apply Hcross; assumption.
Qed.

End OrderBy.

Lemma select_recent_slice {O} (timestamp : O -> string)
      (table : list (Db.row O)) (loc n : Z) :
  history_slice timestamp table loc n
                (Db.select_recent timestamp table loc n).
Proof.
  unfold history_slice, Db.select_recent, Db.limit.
  set (key := fun r : Db.row O => timestamp (Db.obs r)).
  set (stored := filter (fun r => (Db.location_id r =? loc)%Z) table).
  pose proof (order_by_desc_sorted key stored) as Hsorted.
  pose proof (order_by_desc_perm key stored) as Hperm.
  destruct (Z.ltb_spec n 0) as [Hneg | Hpos].
  - split; [exact Hsorted |]. split; [lia |].
    exists []. rewrite app_nil_r.
    split; [symmetry; exact Hperm |]. split; [contradiction | reflexivity].
  - rewrite <- (firstn_skipn (Z.to_nat n) (Db.order_by_desc key stored))
      in Hsorted, Hperm.
    apply latest_first_app in Hsorted. destruct Hsorted as [Hs Hcross].
    split; [exact Hs |]. split.
    + intros _. rewrite length_firstn.
      rewrite <- (Permutation_length (order_by_desc_perm key stored)). lia.
    + exists (skipn (Z.to_nat n) (Db.order_by_desc key stored)).
      split; [symmetry; exact Hperm |]. split; [exact Hcross | lia].
Qed.

(** C9, as the code has it: the history read performs no writes.  For a
    location id and a limit N that SQLite can bind (64-bit integers) it
    returns, per domain, the rows of the location most-recent-first
    (descending stored timestamp); for N >= 0 these are the N most recent
    rows, hence at most N (all of them when fewer are stored); a negative N
    puts no bound and every row of the location is returned.  An id or a
    limit outside the 64-bit range is refused when it is bound: the read
    fails with an OverflowError and returns no rows.  With 10 stored rows
    and limit 7 exactly the 7 latest rows are returned, in descending
    timestamp order; 7 is also the limit when none is given. *)
Theorem history_most_recent_first :
  forall (authenticated : bool) (location_id : Z) (arg : option Z)
         (db : Db.database),
    let n := days_arg arg in
    snd (get_historical_data authenticated location_id arg db) = db /\
    (Db.int64 location_id = true -> Db.int64 n = true ->
     exists h,
       fst (get_historical_data authenticated location_id arg db)
       = Py.Return h /\
       history_slice air_timestamp (Db.air_quality db) location_id n
                     (h_air_quality h) /\
       history_slice water_timestamp (Db.water_data db) location_id n
                     (h_water_security h) /\
       history_slice vegetation_timestamp (Db.vegetation db) location_id n
                     (h_vegetation h) /\
       ((0 <= n)%Z ->
        (Z.of_nat (List.length (h_air_quality h)) <= n)%Z /\
        (Z.of_nat (List.length (h_water_security h)) <= n)%Z /\
        (Z.of_nat (List.length (h_vegetation h)) <= n)%Z)) /\
    (Db.int64 location_id = false \/ Db.int64 n = false ->
     fst (get_historical_data authenticated location_id arg db)
     = Py.Raise Py.OverflowError) /\
    (exists h,
        fst (get_historical_data authenticated 1 (Some 7%Z)
                                 Demo.ten_readings)
        = Py.Return h /\
        map (fun r => air_timestamp (Db.obs r)) (h_air_quality h)
        = ["2025-10-03T15:37:09"; "2025-10-03T15:37:08";
           "2025-10-03T15:37:07"; "2025-10-03T15:37:06";
           "2025-10-03T15:37:05"; "2025-10-03T15:37:04";
           "2025-10-03T15:37:03"]%string) /\
    days_arg None = 7%Z.
Proof.
  intros authenticated location_id arg db n. subst n.
  rewrite get_historical_data_run. cbn [fst snd].
  split; [reflexivity |]. split; [| split].
  - intros Hid Hn. rewrite Hid, Hn. cbn [andb].
    eexists. split; [reflexivity |].
    cbn [h_air_quality h_water_security h_vegetation].
    pose proof (select_recent_slice air_timestamp (Db.air_quality db)
                                    location_id (days_arg arg)) as Ha.
    pose proof (select_recent_slice water_timestamp (Db.water_data db)
                                    location_id (days_arg arg)) as Hw.
    pose proof (select_recent_slice vegetation_timestamp (Db.vegetation db)
                                    location_id (days_arg arg)) as Hv.
    split; [exact Ha |]. split; [exact Hw |]. split; [exact Hv |].
    intro Hpos.
    destruct Ha as (_ & Hla & _), Hw as (_ & Hlw & _), Hv as (_ & Hlv & _).
    specialize (Hla Hpos). specialize (Hlw Hpos). specialize (Hlv Hpos). lia.
  - intros [Hid | Hn].
    + rewrite Hid. reflexivity.
    + rewrite Hn, andb_false_r. reflexivity.
  - split; [| reflexivity].
    rewrite get_historical_data_run. eexists. split; reflexivity.
Qed.

Lemma history_most_recent_first_witness :
  exists h,
    fst (get_historical_data false 1 (Some 7%Z) Demo.ten_readings)
    = Py.Return h /\
    (Z.of_nat (List.length (h_air_quality h)) <= 7)%Z.
Proof.
  destruct (history_most_recent_first false 1 (Some 7%Z) Demo.ten_readings)
    as (_ & Hrows & _).
  destruct Hrows as (h & E & _ & _ & _ & Hlen); [reflexivity | reflexivity |].
  exists h. split; [exact E |]. apply Hlen. cbn. lia.
Defined.

(** C9 as stated fails for a negative limit, and for one that SQLite
    cannot bind: with [days = -1] all ten stored rows are returned, which
    is more than the limit, and with [days = 2^63] the read fails and
    returns no rows at all. *)
Lemma history_negative_limit_unbounded :
  (exists h,
      fst (get_historical_data false 1 (Some (-1)%Z) Demo.ten_readings)
      = Py.Return h /\
      List.length (h_air_quality h) = 10%nat /\
      ~ (Z.of_nat (List.length (h_air_quality h)) <= -1)%Z) /\
  fst (get_historical_data false 1 (Some (2 ^ 63)%Z) Demo.ten_readings)
  = Py.Raise Py.OverflowError.
Proof.
  split; [| reflexivity].
  eexists. split; [reflexivity |]. split; [reflexivity |].
  vm_compute. intro Hle. apply Hle. reflexivity.
Qed.

(** ** Persistence of a dashboard query *)

Section PersistenceFacts.
Context {G : Type} `{PyRandom G}.

Local Abbreviation RT := (runtime (G := G)).

(** The real client fetches three observations, each within its ranges. *)
Lemma fetch_all_nasa_client w self location (rt : RT) :
  exists a wd v rt1,
    fetch_all (nasa_client w self) location rt
    = (Py.Return (Some a, Some wd, Some v), rt1) /\
    air_ok w a /\ water_ok w wd /\ vegetation_ok w v.
Proof.
  unfold fetch_all, nasa_client, some_of, Py.bind, Py.ret.
  cbn [client_air client_water client_vegetation].
  destruct (get_air_returns w self (Db.latitude location)
                            (Db.longitude location) None rt)
    as (a & rt1 & Ea & Ha).
  rewrite Ea.
  destruct (get_water_returns w self (Db.latitude location)
                              (Db.longitude location) None rt1)
    as (wd & rt2 & Ew & Hw).
  rewrite Ew.
  destruct (get_vegetation_returns w self (Db.latitude location)
                                   (Db.longitude location) None rt2)
    as (v & rt3 & Ev & Hv).
  rewrite Ev.
  exists a, wd, v, rt3.
  split; [reflexivity | split; [exact Ha | split; [exact Hw | exact Hv]]].
Qed.

Lemma with_observations_in_range db loc a wd v :
  stored_in_range db ->
  opt_ok air_in_range a -> opt_ok water_in_range wd ->
  opt_ok vegetation_in_range v ->
  stored_in_range (with_observations db loc a wd v).
Proof.
  intros Hdb Ra Rw Rv. unfold with_observations.
  assert (Hair : stored_in_range (with_air db loc a)).
  { destruct Hdb as (Ha & Hw & Hv).
    destruct a as [a |]; cbn; [| repeat split; assumption].
    split; [| split; assumption]. cbn.
    apply Forall_app. split; [exact Ha |].
    constructor; [exact Ra | constructor]. }
  assert (Hwater : stored_in_range (with_water (with_air db loc a) loc wd)).
  { destruct Hair as (Ha & Hw & Hv).
    destruct wd as [wd |]; cbn; [| repeat split; assumption].
    split; [exact Ha | split; [| exact Hv]]. cbn.
    apply Forall_app. split; [exact Hw |].
    constructor; [exact Rw | constructor]. }
  destruct Hwater as (Ha & Hw & Hv).
  destruct v as [v |]; cbn; [| repeat split; assumption].
  split; [exact Ha | split; [exact Hw |]]. cbn.
  apply Forall_app. split; [exact Hv |].
  constructor; [exact Rv | constructor].
Qed.

Lemma add_location_keeps_observations sqlite data db :
  stored_in_range db -> stored_in_range (snd (add_location sqlite data db)).
Proof.
  intro Hdb.
  destruct (add_location_appends sqlite data db) as [E | (row & _ & E)];
    rewrite E; exact Hdb.
Qed.

Lemma dashboard_keeps_in_range w self faults location_id db (rt : RT) :
  stored_in_range db ->
  stored_in_range
    (snd (fst (get_dashboard_data (nasa_client w self) faults
                                  location_id db rt))).
Proof.
  intro Hdb. rewrite get_dashboard_data_outcome. unfold dashboard_outcome.
  destruct (Db.int64 location_id); cbn [negb]; [| exact Hdb].
  destruct (Db.select_location db location_id) as [location |];
    [| exact Hdb].
  destruct (fetch_all_nasa_client w self location rt)
    as (a & wd & v & rt1 & E & (Ra & _) & (Rw & _) & (Rv & _)).
  rewrite E.
  destruct (air_overflow (Some a)); [exact Hdb |].
  destruct (observations_fault faults (Some a) (Some wd) (Some v));
    [exact Hdb |].
  assert (Hst : stored_in_range
                  (with_observations db location_id (Some a) (Some wd)
                                     (Some v))).
  { apply with_observations_in_range; assumption. }
  destruct (log_fault faults); exact Hst.
Qed.

Lemma reachable_in_range db : reachable db -> stored_in_range db.
Proof.
  induction 1 as [| sqlite data db _ IH | w self faults loc db rt _ IH
                  | auth loc arg db _ IH | loc db _ IH].
  - repeat split; constructor.
  - apply add_location_keeps_observations, IH.
  - apply dashboard_keeps_in_range, IH.
  - rewrite get_historical_data_run. exact IH.
  - rewrite get_alerts_run. exact IH.
Qed.

End PersistenceFacts.

(** C8: every observation a fetch returns, whether tagged with a vendor
    label or with SIMULATION, has every numeric field within the documented
    simulation range of section 4.2 (vendor payloads go through the same
    bounded generators); consequently every observation row the program has
    stored, in any database it reaches from a fresh file, is within these
    ranges. *)
Theorem every_observation_within_ranges :
  forall (G : Type) (R : PyRandom G),
    (forall (w : Vendor.world) (self : NASAAPIClient.t)
            (latitude longitude : Q) (date : option string)
            (rt : runtime (G := G)),
        (exists o rt',
            NASAAPIClient.get_air_quality_data w self latitude longitude
                                               date rt
            = (Py.Return o, rt') /\ air_in_range o) /\
        (exists o rt',
            NASAAPIClient.get_water_security_data w self latitude longitude
                                                  date rt
            = (Py.Return o, rt') /\ water_in_range o) /\
        (exists o rt',
            NASAAPIClient.get_vegetation_data w self latitude longitude
                                              date rt
            = (Py.Return o, rt') /\ vegetation_in_range o)) /\
    (forall db, reachable (G := G) db -> stored_in_range db).
Proof.
  intros G R. split.
  - intros w self lat lon date rt. repeat split.
    + destruct (get_air_returns w self lat lon date rt)
        as (o & rt' & E & Hr & _).
      exists o, rt'. split; assumption.
    + destruct (get_water_returns w self lat lon date rt)
        as (o & rt' & E & Hr & _).
      exists o, rt'. split; assumption.
    + destruct (get_vegetation_returns w self lat lon date rt)
        as (o & rt' & E & Hr & _).
      exists o, rt'. split; assumption.
  - intros db Hreach. apply reachable_in_range. exact Hreach.
Qed.

Lemma every_observation_within_ranges_witness :
  stored_in_range
    (snd (fst (get_dashboard_data
                 (nasa_client (Demo.online 200 false) Demo.stranded_client)
                 no_faults 1 (init_db None) Demo.rt0))).
Proof.
  destruct (every_observation_within_ranges Demo.demo_gen) as [_ Hstored].
  apply Hstored. apply reach_dashboard. apply reach_init.
Defined.

(** An index within the generated range fits an INTEGER. *)
Lemma in_range_no_overflow (a : air_obs) :
  air_in_range a -> air_overflow (Some a) = false.
Proof.
  intros (_ & _ & _ & _ & Haqi). unfold air_overflow, Db.int64.
  apply negb_false_iff, andb_true_iff.
  split; [apply Z.leb_le | apply Z.ltb_lt]; lia.
Qed.

(** C2, as the code has it: a dashboard query writes in two transactions.
    The three observation inserts are one atomic batch: if one of them, or
    the commit that follows them, fails, no row of the query persists and
    the query reports failure.  The api_logs entry is a second transaction,
    begun after the observations are committed: if its insert or its commit
    fails, the query reports failure as well, the audit row is absent, but
    the three observation rows stay stored.  Without a fault the query
    succeeds and the three rows and the audit row are stored.  (An id that
    SQLite cannot bind makes the query fail at the look-up of the location,
    before any write.) *)
Theorem observations_batch_then_audit_entry :
  forall (G : Type) (R : PyRandom G) (w : Vendor.world)
         (self : NASAAPIClient.t) (faults : store_faults)
         (location_id : Z) (db : Db.database) (rt : runtime (G := G))
         (location : Db.location),
    Db.select_location db location_id = Some location ->
    (Db.int64 location_id = false ->
     get_dashboard_data (nasa_client w self) faults location_id db rt
     = (DashboardUnhandled Py.OverflowError, db, rt)) /\
    (Db.int64 location_id = true ->
     exists a wd v,
      let run :=
        get_dashboard_data (nasa_client w self) faults location_id db rt in
      let resp := fst (fst run) in
      let db' := snd (fst run) in
      let stored :=
        with_observations db location_id (Some a) (Some wd) (Some v) in
      let first_fault :=
        fail_insert_air faults || fail_insert_water faults
        || fail_insert_vegetation faults || fail_commit_observations faults in
      let second_fault := fail_insert_log faults || fail_commit_log faults in
      (first_fault = true ->
       resp = Dashboard500 Py.DatabaseError /\ db' = db) /\
      (first_fault = false -> second_fault = true ->
       resp = Dashboard500 Py.DatabaseError /\ db' = stored) /\
      (first_fault = false -> second_fault = false ->
       (exists data, resp = Dashboard200 data) /\
       db' = with_log stored location)).
Proof.
  intros G R w self faults location_id db rt location Hloc.
  rewrite get_dashboard_data_outcome. unfold dashboard_outcome.
  split; [intros ->; reflexivity |]. intros ->. cbn [negb].
  destruct (fetch_all_nasa_client w self location rt)
    as (a & wd & v & rt1 & E & (Ra & _) & _).
  exists a, wd, v. cbv zeta.
  rewrite Hloc, E, (in_range_no_overflow Ra).
  unfold observations_fault, log_fault. cbn [is_some andb].
  destruct (fail_insert_air faults || fail_insert_water faults
            || fail_insert_vegetation faults
            || fail_commit_observations faults).
  - repeat split; intros; try discriminate; reflexivity.
  - destruct (fail_insert_log faults || fail_commit_log faults).
    + repeat split; intros; try discriminate; reflexivity.
    + split; [discriminate |]. split; [discriminate |].
      intros _ _. split; [eexists; reflexivity | reflexivity].
Qed.

Lemma observations_batch_then_audit_entry_witness :
  let run :=
    get_dashboard_data (nasa_client Demo.offline Demo.anonymous_client)
                       Demo.vegetation_insert_fails 1 (init_db None)
                       Demo.rt0 in
  fst (fst run) = Dashboard500 Py.DatabaseError /\
  snd (fst run) = init_db None.
Proof.
  assert (Hloc : Db.select_location (init_db None) 1
                 = Some {| Db.id := 1; Db.name := "New Delhi";
                           Db.latitude := 28.6139; Db.longitude := 77.2090;
                           Db.population := Db.Integer 32000000;
                           Db.area := Db.Real (Py.Finite 1484.0) |})
    by reflexivity.
  destruct (observations_batch_then_audit_entry
              Demo.demo_gen Demo.offline Demo.anonymous_client
              Demo.vegetation_insert_fails 1 (init_db None) Demo.rt0 Hloc)
    as (_ & Hfits).
  destruct (Hfits eq_refl) as (a & wd & v & Hfirst & _).
  apply Hfirst. reflexivity.
Defined.

(** C2 as stated fails: when the insert of the audit row fails, the query
    reports failure, yet the three observation rows of the batch stay
    stored. *)
Lemma audit_entry_outside_observations_batch :
  let run :=
    get_dashboard_data (nasa_client Demo.offline Demo.anonymous_client)
                       Demo.log_insert_fails 1 (init_db None) Demo.rt0 in
  fail_insert_log Demo.log_insert_fails = true /\
  fst (fst run) = Dashboard500 Py.DatabaseError /\
  List.length (Db.air_quality (snd (fst run))) = 1%nat /\
  List.length (Db.water_data (snd (fst run))) = 1%nat /\
  List.length (Db.vegetation (snd (fst run))) = 1%nat /\
  Db.air_quality (init_db None) = [] /\
  snd (fst run) <> init_db None.
Proof.
  cbv zeta. repeat split; try (vm_compute; reflexivity).
  vm_compute. discriminate.
Qed.

(** ** Unknown locations and the audit trail *)

Lemma select_location_unknown db location_id :
  ~ In location_id (map Db.id (Db.locations db)) ->
  Db.select_location db location_id = None.
Proof.
  unfold Db.select_location. intro Hnot.
  induction (Db.locations db) as [| l ls IH]; cbn; [reflexivity |].
  destruct (Z.eqb_spec (Db.id l) location_id) as [Heq | Hne].
  - exfalso. apply Hnot. left. exact Heq.
  - apply IH. intro Hin. apply Hnot. right. exact Hin.
Qed.

(** C10, as the code has it: a dashboard query for a location id that
    does not exist runs no fetch and no persistence step: the generator
    and the clock are untouched and every table, api_logs included, is as
    before.  It returns the not-found error when SQLite can bind the id (a
    64-bit integer); an id beyond that range is refused by the look-up
    itself, which is outside the [try], and the query ends with an
    unhandled OverflowError instead.  In general api_logs receives a row
    exactly when the query succeeds: a query that answers not-found or
    fails leaves the audit trail as it was. *)
Theorem unknown_location_leaves_no_trace :
  forall (G : Type) (R : PyRandom G) (nasa_client : @client_methods G R)
         (faults : store_faults) (location_id : Z) (db : Db.database)
         (rt : runtime (G := G)),
    (~ In location_id (map Db.id (Db.locations db)) ->
     (Db.int64 location_id = true ->
      get_dashboard_data nasa_client faults location_id db rt
      = (Dashboard404, db, rt)) /\
     (Db.int64 location_id = false ->
      get_dashboard_data nasa_client faults location_id db rt
      = (DashboardUnhandled Py.OverflowError, db, rt)) /\
     snd (fst (get_dashboard_data nasa_client faults location_id db rt))
     = db /\
     snd (get_dashboard_data nasa_client faults location_id db rt) = rt) /\
    (forall resp db' rt',
        get_dashboard_data nasa_client faults location_id db rt
        = (resp, db', rt') ->
        ((exists data, resp = Dashboard200 data) /\
         exists entry,
           Db.api_logs db' = Db.api_logs db ++ [entry] /\
           Db.endpoint entry = "dashboard"%string /\
           Db.response_status entry = "success"%string)
        \/
        ((forall data, resp <> Dashboard200 data) /\
         Db.api_logs db' = Db.api_logs db)).
Proof.
  intros G R nasa_client faults location_id db rt. split.
  - intro Hunknown. rewrite get_dashboard_data_outcome.
    unfold dashboard_outcome.
    rewrite (select_location_unknown db location_id Hunknown).
    destruct (Db.int64 location_id); cbn [negb fst snd];
      repeat split; intros; (reflexivity || discriminate).
  - intros resp db' rt'. rewrite get_dashboard_data_outcome.
    unfold dashboard_outcome.
    assert (Hlogs : forall a wd v,
               Db.api_logs (with_observations db location_id a wd v)
               = Db.api_logs db).
    { intros [a |] [wd |] [v |]; reflexivity. }
    destruct (Db.int64 location_id); cbn [negb];
      [| intro E; injection E as <- <- _; right;
         split; [discriminate | reflexivity]].
    destruct (Db.select_location db location_id) as [location |].
    + destruct (fetch_all nasa_client location rt)
        as [[[[a wd] v] | e] rt1].
      * destruct (air_overflow a);
          [intro E; injection E as <- <- _; right;
           split; [discriminate | reflexivity] |].
        destruct (observations_fault faults a wd v).
        -- intro E. injection E as <- <- _. right.
           split; [discriminate | reflexivity].
        -- destruct (log_fault faults).
           ++ intro E. injection E as <- <- _. right.
              split; [discriminate | apply Hlogs].
           ++ intro E. injection E as <- <- _. left.
              split; [eexists; reflexivity |].
              eexists. cbn [with_log Db.api_logs]. rewrite Hlogs.
              split; [reflexivity | split; reflexivity].
      * intro E. injection E as <- <- _. right.
        split; [discriminate | reflexivity].
    + intro E. injection E as <- <- _. right.
      split; [discriminate | reflexivity].
Qed.

Lemma unknown_location_leaves_no_trace_witness :
  get_dashboard_data (nasa_client Demo.offline Demo.anonymous_client)
                     no_faults 99 (init_db None) Demo.rt0
  = (Dashboard404, init_db None, Demo.rt0).
Proof.
  destruct (unknown_location_leaves_no_trace
              (nasa_client Demo.offline Demo.anonymous_client)
              no_faults 99 (init_db None) Demo.rt0) as [Hunknown _].
  destruct Hunknown as (H404 & _).
  - vm_compute. lia.
  - apply H404. reflexivity.
Defined.

(** C10 as stated fails for an id that SQLite cannot bind: the id 2^63
    does not exist, yet the query does not return the not-found error; the
    look-up raises an OverflowError that nothing catches. *)
Lemma unknown_location_beyond_int64 :
  ~ In (2 ^ 63)%Z (map Db.id (Db.locations (init_db None))) /\
  get_dashboard_data (nasa_client Demo.offline Demo.anonymous_client)
                     no_faults (2 ^ 63) (init_db None) Demo.rt0
  = (DashboardUnhandled Py.OverflowError, init_db None, Demo.rt0) /\
  fst (fst (get_dashboard_data
              (nasa_client Demo.offline Demo.anonymous_client)
              no_faults (2 ^ 63) (init_db None) Demo.rt0))
  <> Dashboard404.
Proof.
  split; [vm_compute; lia |].
  assert (E : get_dashboard_data
                (nasa_client Demo.offline Demo.anonymous_client)
                no_faults (2 ^ 63) (init_db None) Demo.rt0
              = (DashboardUnhandled Py.OverflowError, init_db None, Demo.rt0)).
  { rewrite get_dashboard_data_outcome. reflexivity. }
  split; [exact E |]. rewrite E. discriminate.
Qed.

(* ================================================================== *)
(** * Further properties *)

(** ** The fetch paths *)

Lemma returns_try_body {St A} (body : Py.M St A) C (h : Py.exn -> Py.M St A)
      (P : A -> Prop) :
  returns body P -> returns (Py.try_except body C h) P.
Proof.
  intros Hb s. unfold Py.try_except.
  destruct (Hb s) as (a & s' & E & Pa). rewrite E.
  exists a, s'. split; [reflexivity | exact Pa].
Qed.

Section FetchPaths.
Context {G : Type} `{PyRandom G}.
Variable w : Vendor.world.
Variable self : NASAAPIClient.t.

Local Abbreviation RT := (runtime (G := G)).

Ltac draw_all :=
  repeat first
    [ eapply returns_bind; [ apply now_returns | intros ? _ ]
    | eapply returns_bind; [ apply uniform_returns; lra | intros ? _ ]
    | eapply returns_bind; [ apply randint_returns; lia | intros ? _ ]
    | eapply returns_bind;
      [ apply choice_returns; discriminate | intros ? _ ] ];
  apply returns_ret.

Lemma default_date_run date (rt : RT) :
  NASAAPIClient.default_date date rt
  = (Py.Return (date_of date rt), after_date date rt).
Proof. destruct date; reflexivity. Qed.

Lemma process_air_tag data lat lon :
  returns (NASAAPIClient._process_nasa_air_data (G := G) data lat lon)
          (fun o => air_source o = NASA_TEMPO_OMI).
Proof.
  unfold NASAAPIClient._process_nasa_air_data.
  apply returns_try_body. draw_all. reflexivity.
Qed.

Lemma process_water_tag data lat lon :
  returns (NASAAPIClient._process_nasa_water_data (G := G) data lat lon)
          (fun o => water_source o = NASA_GRACE_GPM).
Proof.
  unfold NASAAPIClient._process_nasa_water_data.
  apply returns_try_body. draw_all. reflexivity.
Qed.

Lemma process_vegetation_tag data lat lon :
  returns (NASAAPIClient._process_nasa_vegetation_data (G := G) data lat lon)
          (fun o => vegetation_source o = NASA_MODIS_LANDSAT).
Proof.
  unfold NASAAPIClient._process_nasa_vegetation_data.
  apply returns_try_body. draw_all. reflexivity.
Qed.

Lemma simulate_air_tag :
  returns (NASAAPIClient._simulate_air_quality_data (G := G))
          (fun o => air_source o = SIMULATION).
Proof.
  eapply returns_weaken; [apply simulate_air_returns |].
  intros o [_ Hs]. exact Hs.
Qed.

Lemma simulate_water_tag :
  returns (NASAAPIClient._simulate_water_data (G := G))
          (fun o => water_source o = SIMULATION).
Proof.
  eapply returns_weaken; [apply simulate_water_returns |].
  intros o [_ Hs]. exact Hs.
Qed.

Lemma simulate_vegetation_tag :
  returns (NASAAPIClient._simulate_vegetation_data (G := G))
          (fun o => vegetation_source o = SIMULATION).
Proof.
  eapply returns_weaken; [apply simulate_vegetation_returns |].
  intros o [_ Hs]. exact Hs.
Qed.

End FetchPaths.

Section FetchPathsMore.
Context {G : Type} `{PyRandom G}.
Variable w : Vendor.world.
Variable self : NASAAPIClient.t.

Local Abbreviation RT := (runtime (G := G)).

(** The HTTP attempt of method 1, with any postcondition the processing
    step establishes. *)
Lemma http_attempt_post {O} (process : Vendor.json -> Py.M RT O)
      (Q : O -> Prop) url params C :
  catch_all C ->
  (forall data, returns (process data) Q) ->
  guarded
    (response <- Py.lift (Vendor.session_get w url params) ;;
     if (Vendor.status_code response =? 200)%Z
     then data <- Py.lift (Vendor.json_body response) ;;
          obs <- process data ;;
          Py.ret (Some obs)
     else Py.ret None)
    C (opt_ok Q).
Proof.
  intros HC Hproc.
  eapply guarded_weaken.
  - apply http_attempt_guarded with (process := process) (R := Q);
      assumption.
  - intros [o |] Ho; cbn in *; [tauto | exact I].
Qed.

Ltac fall_through :=
  repeat first
    [ apply guarded_ret
    | apply guarded_raise; solve [reflexivity | apply orb_true_r]
    | eapply guarded_bind;
      [ apply guarded_call; solve [auto with fetch] | intros ? ? ]
    | match goal with
      | |- guarded (match ?x with _ => _ end) _ _ => destruct x
      end ].

Lemma opendata_air_post (Q : air_obs -> Prop) lat lon date :
  returns (NASAAPIClient._simulate_air_quality_data (G := G)) Q ->
  (forall data,
      returns (NASAAPIClient._process_nasa_air_data data lat lon) Q) ->
  returns (NASAAPIClient._fetch_nasa_opendata_air_quality (G := G) w lat lon
                                                          date) Q.
Proof.
  intros Hsim Hproc.
  unfold NASAAPIClient._fetch_nasa_opendata_air_quality.
  eapply returns_bind with (P := opt_ok Q).
  - apply returns_try.
    + apply http_attempt_post
        with (process := fun data =>
                NASAAPIClient._process_nasa_air_data data lat lon);
        auto with fetch.
    + intros _. apply returns_ret. exact I.
  - intros [o |] Ho; cbn in Ho; [apply returns_ret; exact Ho | exact Hsim].
Qed.

Lemma get_air_post (Q : air_obs -> Prop) lat lon date :
  returns (NASAAPIClient._simulate_air_quality_data (G := G)) Q ->
  (forall data,
      returns (NASAAPIClient._process_nasa_air_data data lat lon) Q) ->
  returns (NASAAPIClient.get_air_quality_data w self lat lon date) Q.
Proof.
  intros Hsim Hproc.
  unfold NASAAPIClient.get_air_quality_data.
  eapply returns_bind; [apply default_date_returns | intros d _].
  destruct (negb (NASAAPIClient.authenticated self)); [exact Hsim |].
  apply returns_try; [| intros _; exact Hsim].
  eapply guarded_bind with (P := opt_ok Q).
  - destruct (Py.truthy (NASAAPIClient.api_key self)).
    + apply http_attempt_post
        with (process := fun data =>
                NASAAPIClient._process_nasa_air_data data lat lon);
        auto with fetch.
    + apply guarded_ret. exact I.
  - intros [o |] Ho.
    + apply guarded_ret. exact Ho.
    + eapply guarded_bind with (P := fun m => m = None).
      * apply guarded_try.
        -- fall_through; reflexivity.
        -- intros _. apply guarded_ret. reflexivity.
      * intros m2 ->. apply returns_guarded.
        apply opendata_air_post; assumption.
Qed.

Lemma get_water_post (Q : water_obs -> Prop) lat lon date :
  returns (NASAAPIClient._simulate_water_data (G := G)) Q ->
  (forall data,
      returns (NASAAPIClient._process_nasa_water_data data lat lon) Q) ->
  returns (NASAAPIClient.get_water_security_data w self lat lon date) Q.
Proof.
  intros Hsim Hproc.
  unfold NASAAPIClient.get_water_security_data.
  eapply returns_bind; [apply default_date_returns | intros d _].
  destruct (negb (NASAAPIClient.authenticated self)); [exact Hsim |].
  apply returns_try; [| intros _; exact Hsim].
  eapply guarded_bind with (P := opt_ok Q).
  - destruct (Py.truthy (NASAAPIClient.api_key self)).
    + apply http_attempt_post
        with (process := fun data =>
                NASAAPIClient._process_nasa_water_data data lat lon);
        auto with fetch.
    + apply guarded_ret. exact I.
  - intros [o |] Ho.
    + apply guarded_ret. exact Ho.
    + eapply guarded_bind with (P := fun m => m = None).
      * apply guarded_try.
        -- fall_through; reflexivity.
        -- intros _. apply guarded_ret. reflexivity.
      * intros m2 ->. apply returns_guarded.
        unfold NASAAPIClient._fetch_nasa_precipitation_data.
        apply returns_try_body. exact Hsim.
Qed.

Lemma get_vegetation_post (Q : vegetation_obs -> Prop) lat lon date :
  returns (NASAAPIClient._simulate_vegetation_data (G := G)) Q ->
  (forall data,
      returns (NASAAPIClient._process_nasa_vegetation_data data lat lon) Q) ->
  returns (NASAAPIClient.get_vegetation_data w self lat lon date) Q.
Proof.
  intros Hsim Hproc.
  unfold NASAAPIClient.get_vegetation_data.
  eapply returns_bind; [apply default_date_returns | intros d _].
  destruct (negb (NASAAPIClient.authenticated self)); [exact Hsim |].
  apply returns_try; [| intros _; exact Hsim].
  eapply guarded_bind with (P := opt_ok Q).
  - destruct (Py.truthy (NASAAPIClient.api_key self)).
    + apply http_attempt_post
        with (process := fun data =>
                NASAAPIClient._process_nasa_vegetation_data data lat lon);
        auto with fetch.
    + apply guarded_ret. exact I.
  - intros [o |] Ho.
    + apply guarded_ret. exact Ho.
    + eapply guarded_bind with (P := fun m => m = None).
      * apply guarded_try.
        -- fall_through; reflexivity.
        -- intros _. apply guarded_ret. reflexivity.
      * intros m2 ->. apply returns_guarded.
        unfold NASAAPIClient._fetch_nasa_landsat_data.
        apply returns_try_body. exact Hsim.
Qed.

End FetchPathsMore.

(** X1: every observation a fetch returns carries one of two source tags:
    the vendor label of its domain (NASA_TEMPO_OMI, NASA_GRACE_GPM,
    NASA_MODIS_LANDSAT) or SIMULATION. *)
Theorem fetch_source_is_label_or_simulation :
  forall (G : Type) (R : PyRandom G) (w : Vendor.world)
         (self : NASAAPIClient.t) (latitude longitude : Q)
         (date : option string) (rt : runtime (G := G)),
    (exists o rt',
        NASAAPIClient.get_air_quality_data w self latitude longitude date rt
        = (Py.Return o, rt') /\
        (air_source o = NASA_TEMPO_OMI \/ air_source o = SIMULATION)) /\
    (exists o rt',
        NASAAPIClient.get_water_security_data w self latitude longitude date rt
        = (Py.Return o, rt') /\
        (water_source o = NASA_GRACE_GPM \/ water_source o = SIMULATION)) /\
    (exists o rt',
        NASAAPIClient.get_vegetation_data w self latitude longitude date rt
        = (Py.Return o, rt') /\
        (vegetation_source o = NASA_MODIS_LANDSAT \/
         vegetation_source o = SIMULATION)).
Proof.
  intros G R w self lat lon date rt. split; [| split].
  - assert (Hret : returns
               (NASAAPIClient.get_air_quality_data w self lat lon date)
               (fun o => air_source o = NASA_TEMPO_OMI \/
                         air_source o = SIMULATION)).
    { apply get_air_post.
      - eapply returns_weaken; [apply simulate_air_tag |].
        intros; right; assumption.
      - intro data. eapply returns_weaken; [apply process_air_tag |].
        intros; left; assumption. }
    exact (Hret rt).
  - assert (Hret : returns
               (NASAAPIClient.get_water_security_data w self lat lon date)
               (fun o => water_source o = NASA_GRACE_GPM \/
                         water_source o = SIMULATION)).
    { apply get_water_post.
      - eapply returns_weaken; [apply simulate_water_tag |].
        intros; right; assumption.
      - intro data. eapply returns_weaken; [apply process_water_tag |].
        intros; left; assumption. }
    exact (Hret rt).
  - assert (Hret : returns
               (NASAAPIClient.get_vegetation_data w self lat lon date)
               (fun o => vegetation_source o = NASA_MODIS_LANDSAT \/
                         vegetation_source o = SIMULATION)).
    { apply get_vegetation_post.
      - eapply returns_weaken; [apply simulate_vegetation_tag |].
        intros; right; assumption.
      - intro data. eapply returns_weaken; [apply process_vegetation_tag |].
        intros; left; assumption. }
    exact (Hret rt).
Qed.

Section FetchRuns.
Context {G : Type} `{PyRandom G}.
Variable w : Vendor.world.
Variable self : NASAAPIClient.t.

Local Abbreviation RT := (runtime (G := G)).

(** In Simulated mode a fetch is the simulation, run after the date is
    settled. *)
Lemma get_air_unauthenticated lat lon date (rt : RT) :
  NASAAPIClient.authenticated self = false ->
  NASAAPIClient.get_air_quality_data w self lat lon date rt
  = NASAAPIClient._simulate_air_quality_data (after_date date rt).
Proof.
  intro Hauth. unfold NASAAPIClient.get_air_quality_data, Py.bind.
  rewrite default_date_run, Hauth. reflexivity.
Qed.

Lemma get_water_unauthenticated lat lon date (rt : RT) :
  NASAAPIClient.authenticated self = false ->
  NASAAPIClient.get_water_security_data w self lat lon date rt
  = NASAAPIClient._simulate_water_data (after_date date rt).
Proof.
  intro Hauth. unfold NASAAPIClient.get_water_security_data, Py.bind.
  rewrite default_date_run, Hauth. reflexivity.
Qed.

Lemma get_vegetation_unauthenticated lat lon date (rt : RT) :
  NASAAPIClient.authenticated self = false ->
  NASAAPIClient.get_vegetation_data w self lat lon date rt
  = NASAAPIClient._simulate_vegetation_data (after_date date rt).
Proof.
  intro Hauth. unfold NASAAPIClient.get_vegetation_data, Py.bind.
  rewrite default_date_run, Hauth. reflexivity.
Qed.

(** Method 1 answered with a usable response. *)
Lemma get_air_live lat lon date (rt : RT) :
  NASAAPIClient.authenticated self = true ->
  NASAAPIClient.api_key self <> ""%string ->
  usable (Vendor.session_get w (assets_url self)
            (NASAAPIClient.assets_params self lat lon (date_of date rt))) ->
  exists o rt',
    NASAAPIClient.get_air_quality_data w self lat lon date rt
    = (Py.Return o, rt') /\ air_source o = NASA_TEMPO_OMI.
Proof.
  intros Hauth Hkey (r & data & Hget & Hstatus & Hjson).
  apply truthy_nonempty in Hkey.
  unfold NASAAPIClient.get_air_quality_data, Py.bind at 1.
  rewrite default_date_run, Hauth. cbn [negb].
  unfold Py.try_except, Py.bind, Py.lift. rewrite Hkey.
  unfold assets_url in Hget. rewrite Hget.
  apply Z.eqb_eq in Hstatus. rewrite Hstatus, Hjson.
  destruct (process_air_tag data lat lon (after_date date rt))
    as (o & rt' & E & Ho).
  rewrite E. exists o, rt'. split; [reflexivity | exact Ho].
Qed.

Lemma get_water_live lat lon date (rt : RT) :
  NASAAPIClient.authenticated self = true ->
  NASAAPIClient.api_key self <> ""%string ->
  usable (Vendor.session_get w (imagery_url self)
            (NASAAPIClient.imagery_params self lat lon (date_of date rt))) ->
  exists o rt',
    NASAAPIClient.get_water_security_data w self lat lon date rt
    = (Py.Return o, rt') /\ water_source o = NASA_GRACE_GPM.
Proof.
  intros Hauth Hkey (r & data & Hget & Hstatus & Hjson).
  apply truthy_nonempty in Hkey.
  unfold NASAAPIClient.get_water_security_data, Py.bind at 1.
  rewrite default_date_run, Hauth. cbn [negb].
  unfold Py.try_except, Py.bind, Py.lift. rewrite Hkey.
  unfold imagery_url in Hget. rewrite Hget.
  apply Z.eqb_eq in Hstatus. rewrite Hstatus, Hjson.
  destruct (process_water_tag data lat lon (after_date date rt))
    as (o & rt' & E & Ho).
  rewrite E. exists o, rt'. split; [reflexivity | exact Ho].
Qed.

Lemma get_vegetation_live lat lon date (rt : RT) :
  NASAAPIClient.authenticated self = true ->
  NASAAPIClient.api_key self <> ""%string ->
  usable (Vendor.session_get w (assets_url self)
            (NASAAPIClient.assets_params self lat lon (date_of date rt))) ->
  exists o rt',
    NASAAPIClient.get_vegetation_data w self lat lon date rt
    = (Py.Return o, rt') /\ vegetation_source o = NASA_MODIS_LANDSAT.
Proof.
  intros Hauth Hkey (r & data & Hget & Hstatus & Hjson).
  apply truthy_nonempty in Hkey.
  unfold NASAAPIClient.get_vegetation_data, Py.bind at 1.
  rewrite default_date_run, Hauth. cbn [negb].
  unfold Py.try_except, Py.bind, Py.lift. rewrite Hkey.
  unfold assets_url in Hget. rewrite Hget.
  apply Z.eqb_eq in Hstatus. rewrite Hstatus, Hjson.
  destruct (process_vegetation_tag data lat lon (after_date date rt))
    as (o & rt' & E & Ho).
  rewrite E. exists o, rt'. split; [reflexivity | exact Ho].
Qed.

Lemma get_air_first_call_breaks lat lon date (rt : RT) :
  NASAAPIClient.api_key self <> ""%string ->
  first_call_breaks
    (Vendor.session_get w (assets_url self)
       (NASAAPIClient.assets_params self lat lon (date_of date rt))) ->
  NASAAPIClient.get_air_quality_data w self lat lon date rt
  = NASAAPIClient._simulate_air_quality_data (after_date date rt).
Proof.
  intros Hkey Hbreak.
  destruct (NASAAPIClient.authenticated self) eqn:Hauth;
    [| apply get_air_unauthenticated; exact Hauth].
  apply truthy_nonempty in Hkey.
  unfold NASAAPIClient.get_air_quality_data, Py.bind at 1.
  rewrite default_date_run, Hauth. cbn [negb].
  unfold Py.try_except, Py.bind, Py.lift. rewrite Hkey.
  unfold assets_url in Hbreak.
  destruct Hbreak as [[e Hget] | (r & e & Hget & Hstatus & Hjson)];
    rewrite Hget; [reflexivity |].
  apply Z.eqb_eq in Hstatus. rewrite Hstatus, Hjson. reflexivity.
Qed.

Lemma get_water_first_call_breaks lat lon date (rt : RT) :
  NASAAPIClient.api_key self <> ""%string ->
  first_call_breaks
    (Vendor.session_get w (imagery_url self)
       (NASAAPIClient.imagery_params self lat lon (date_of date rt))) ->
  NASAAPIClient.get_water_security_data w self lat lon date rt
  = NASAAPIClient._simulate_water_data (after_date date rt).
Proof.
  intros Hkey Hbreak.
  destruct (NASAAPIClient.authenticated self) eqn:Hauth;
    [| apply get_water_unauthenticated; exact Hauth].
  apply truthy_nonempty in Hkey.
  unfold NASAAPIClient.get_water_security_data, Py.bind at 1.
  rewrite default_date_run, Hauth. cbn [negb].
  unfold Py.try_except, Py.bind, Py.lift. rewrite Hkey.
  unfold imagery_url in Hbreak.
  destruct Hbreak as [[e Hget] | (r & e & Hget & Hstatus & Hjson)];
    rewrite Hget; [reflexivity |].
  apply Z.eqb_eq in Hstatus. rewrite Hstatus, Hjson. reflexivity.
Qed.

Lemma get_vegetation_first_call_breaks lat lon date (rt : RT) :
  NASAAPIClient.api_key self <> ""%string ->
  first_call_breaks
    (Vendor.session_get w (assets_url self)
       (NASAAPIClient.assets_params self lat lon (date_of date rt))) ->
  NASAAPIClient.get_vegetation_data w self lat lon date rt
  = NASAAPIClient._simulate_vegetation_data (after_date date rt).
Proof.
  intros Hkey Hbreak.
  destruct (NASAAPIClient.authenticated self) eqn:Hauth;
    [| apply get_vegetation_unauthenticated; exact Hauth].
  apply truthy_nonempty in Hkey.
  unfold NASAAPIClient.get_vegetation_data, Py.bind at 1.
  rewrite default_date_run, Hauth. cbn [negb].
  unfold Py.try_except, Py.bind, Py.lift. rewrite Hkey.
  unfold assets_url in Hbreak.
  destruct Hbreak as [[e Hget] | (r & e & Hget & Hstatus & Hjson)];
    rewrite Hget; [reflexivity |].
  apply Z.eqb_eq in Hstatus. rewrite Hstatus, Hjson. reflexivity.
Qed.

Lemma truthy_empty (s : string) : s = ""%string -> Py.truthy s = false.
Proof. intros ->. reflexivity. Qed.

Ltac pass_first_call Hfall :=
  let Hkey := fresh "Hkey" in
  let Hget := fresh "Hget" in
  let Hstatus := fresh "Hstatus" in
  destruct Hfall as [Hkey | (? & Hget & Hstatus)];
  [ rewrite (truthy_empty Hkey)
  | destruct (Py.truthy (NASAAPIClient.api_key self));
    [ rewrite Hget; apply Z.eqb_neq in Hstatus; rewrite Hstatus | ] ].

Lemma get_water_falls_to_simulation lat lon date (rt : RT) :
  first_call_falls_through self
    (Vendor.session_get w (imagery_url self)
       (NASAAPIClient.imagery_params self lat lon (date_of date rt))) ->
  exists o rt',
    NASAAPIClient.get_water_security_data w self lat lon date rt
    = (Py.Return o, rt') /\ water_source o = SIMULATION.
Proof.
  intro Hfall.
  destruct (NASAAPIClient.authenticated self) eqn:Hauth.
  2: { rewrite (get_water_unauthenticated lat lon date rt Hauth).
       apply simulate_water_tag. }
  unfold NASAAPIClient.get_water_security_data, Py.bind at 1.
  rewrite default_date_run, Hauth. cbn [negb].
  unfold Py.try_except, Py.bind, Py.lift, imagery_url in *.
  pass_first_call Hfall;
    (destruct (Vendor.import_earthaccess w) as [ea | e];
     [ destruct (Vendor.search_data ea _ _ _ _) as [[| g gs] | e] | ];
     try (destruct e); cbn [Py.is_ImportError Py.is_Exception Py.ret Py.raise];
     unfold NASAAPIClient._fetch_nasa_precipitation_data, Py.try_except;
     match goal with
     | |- context [NASAAPIClient._simulate_water_data ?r] =>
         destruct (simulate_water_tag r) as (o & rt' & E & Ho);
         rewrite E; exists o, rt'; split; [reflexivity | exact Ho]
     end).
Qed.

Lemma get_vegetation_falls_to_simulation lat lon date (rt : RT) :
  first_call_falls_through self
    (Vendor.session_get w (assets_url self)
       (NASAAPIClient.assets_params self lat lon (date_of date rt))) ->
  exists o rt',
    NASAAPIClient.get_vegetation_data w self lat lon date rt
    = (Py.Return o, rt') /\ vegetation_source o = SIMULATION.
Proof.
  intro Hfall.
  destruct (NASAAPIClient.authenticated self) eqn:Hauth.
  2: { rewrite (get_vegetation_unauthenticated lat lon date rt Hauth).
       apply simulate_vegetation_tag. }
  unfold NASAAPIClient.get_vegetation_data, Py.bind at 1.
  rewrite default_date_run, Hauth. cbn [negb].
  unfold Py.try_except, Py.bind, Py.lift, assets_url in *.
  pass_first_call Hfall;
    (destruct (Vendor.import_earthaccess w) as [ea | e];
     [ destruct (Vendor.search_data ea _ _ _ _) as [[| g gs] | e] | ];
     try (destruct e); cbn [Py.is_ImportError Py.is_Exception Py.ret Py.raise];
     unfold NASAAPIClient._fetch_nasa_landsat_data, Py.try_except;
     match goal with
     | |- context [NASAAPIClient._simulate_vegetation_data ?r] =>
         destruct (simulate_vegetation_tag r) as (o & rt' & E & Ho);
         rewrite E; exists o, rt'; split; [reflexivity | exact Ho]
     end).
Qed.

(** Air, method 2 finds a granule and the download does not fail with an
    [ImportError]: the processing method it calls does not exist, the outer
    handler simulates. *)
Lemma get_air_granule_found lat lon date (rt : RT) :
  first_call_falls_through self
    (Vendor.session_get w (assets_url self)
       (NASAAPIClient.assets_params self lat lon (date_of date rt))) ->
  (exists ea g gs,
      Vendor.import_earthaccess w = Py.Return ea /\
      Vendor.search_data ea "OMNO2d" (NASAAPIClient.bounding_box 0.1 lat lon)
                         (date_of date rt, date_of date rt) 1
      = Py.Return (g :: gs) /\
      match Vendor.download ea [g] "./nasa_data/" with
      | Py.Return _ => True
      | Py.Raise e => Py.is_ImportError e = false
      end) ->
  exists o rt',
    NASAAPIClient.get_air_quality_data w self lat lon date rt
    = (Py.Return o, rt') /\ air_source o = SIMULATION.
Proof.
  intros Hfall (ea & g & gs & Himport & Hsearch & Hdown).
  destruct (NASAAPIClient.authenticated self) eqn:Hauth.
  2: { rewrite (get_air_unauthenticated lat lon date rt Hauth).
       apply simulate_air_tag. }
  unfold NASAAPIClient.get_air_quality_data, Py.bind at 1.
  rewrite default_date_run, Hauth. cbn [negb].
  unfold Py.try_except, Py.bind, Py.lift, assets_url in *.
  pass_first_call Hfall;
    (rewrite Himport, Hsearch; cbn [firstn];
     destruct (Vendor.download ea [g] "./nasa_data/") as [files | e];
     cbn [Py.is_ImportError Py.is_Exception Py.ret Py.raise];
     rewrite ?Hdown;
     match goal with
     | |- context [NASAAPIClient._simulate_air_quality_data ?r] =>
         destruct (simulate_air_tag r) as (o & rt' & E & Ho);
         rewrite E; exists o, rt'; split; [reflexivity | exact Ho]
     end).
Qed.

(** Air, methods 1 and 2 fall through and the open-data call is usable. *)
Lemma get_air_opendata_live lat lon date (rt : RT) :
  NASAAPIClient.authenticated self = true ->
  first_call_falls_through self
    (Vendor.session_get w (assets_url self)
       (NASAAPIClient.assets_params self lat lon (date_of date rt))) ->
  earthaccess_falls_through w "OMNO2d"
    (NASAAPIClient.bounding_box 0.1 lat lon) (date_of date rt) ->
  usable (Vendor.session_get w opendata_url []) ->
  exists o rt',
    NASAAPIClient.get_air_quality_data w self lat lon date rt
    = (Py.Return o, rt') /\ air_source o = NASA_TEMPO_OMI.
Proof.
  intros Hauth Hfall Hthrough (r & data & Hopen & Hstatus200 & Hjson).
  unfold NASAAPIClient.get_air_quality_data, Py.bind at 1.
  rewrite default_date_run, Hauth. cbn [negb].
  unfold earthaccess_falls_through in Hthrough.
  unfold Py.try_except, Py.bind, Py.lift, assets_url, opendata_url in *.
  apply Z.eqb_eq in Hstatus200.
  pass_first_call Hfall;
    (destruct (Vendor.import_earthaccess w) as [ea | e];
     [ destruct (Vendor.search_data ea _ _ _ _) as [results | e];
       [ subst results | ] | ];
     rewrite ?Hthrough; cbn [Py.is_ImportError Py.is_Exception Py.ret Py.raise];
     unfold NASAAPIClient._fetch_nasa_opendata_air_quality,
       Py.try_except, Py.bind, Py.lift;
     rewrite Hopen, Hstatus200, Hjson;
     match goal with
     | |- context [NASAAPIClient._process_nasa_air_data ?d ?a ?b ?r] =>
         destruct (process_air_tag d a b r) as (o & rt' & E & Ho);
         rewrite E; exists o, rt'; split; [reflexivity | exact Ho]
     end).
Qed.

End FetchRuns.

(** X2: in Simulated mode (the client is not authenticated) each fetch is
    the simulation of its domain, run after the date is settled: the vendor
    side is not consulted and the coordinates play no part, so the result is
    the same for every vendor and every pair of coordinates. *)
Theorem simulated_mode_consults_no_vendor :
  forall (G : Type) (R : PyRandom G) (w w' : Vendor.world)
         (self : NASAAPIClient.t) (lat lon lat' lon' : Q)
         (date : option string) (rt : runtime (G := G)),
    NASAAPIClient.authenticated self = false ->
    (NASAAPIClient.get_air_quality_data w self lat lon date rt
     = NASAAPIClient._simulate_air_quality_data (after_date date rt) /\
     NASAAPIClient.get_air_quality_data w self lat lon date rt
     = NASAAPIClient.get_air_quality_data w' self lat' lon' date rt) /\
    (NASAAPIClient.get_water_security_data w self lat lon date rt
     = NASAAPIClient._simulate_water_data (after_date date rt) /\
     NASAAPIClient.get_water_security_data w self lat lon date rt
     = NASAAPIClient.get_water_security_data w' self lat' lon' date rt) /\
    (NASAAPIClient.get_vegetation_data w self lat lon date rt
     = NASAAPIClient._simulate_vegetation_data (after_date date rt) /\
     NASAAPIClient.get_vegetation_data w self lat lon date rt
     = NASAAPIClient.get_vegetation_data w' self lat' lon' date rt).
Proof.
  intros G R w w' self lat lon lat' lon' date rt Hauth.
  rewrite !(get_air_unauthenticated _ _ _ _ _ _ Hauth).
  rewrite !(get_water_unauthenticated _ _ _ _ _ _ Hauth).
  rewrite !(get_vegetation_unauthenticated _ _ _ _ _ _ Hauth).
  repeat split.
Qed.

Lemma simulated_mode_consults_no_vendor_witness :
  NASAAPIClient.get_air_quality_data
    Demo.offline Demo.anonymous_client 28.6139 77.2090 None Demo.rt0
  = NASAAPIClient.get_air_quality_data
      (Demo.online 200 false) Demo.anonymous_client 0 0 None Demo.rt0.
Proof.
  apply (simulated_mode_consults_no_vendor
           Demo.demo_gen Demo.offline (Demo.online 200 false)
           Demo.anonymous_client 28.6139 77.2090 0 0 None Demo.rt0).
  reflexivity.
Defined.

(** X3: for an authenticated client with an API key, a first HTTP call
    (the assets endpoint for air and vegetation, the imagery endpoint for
    water, with the coordinates, the date and the key as parameters) that
    answers 200 with a decodable body makes the fetch return an observation
    tagged with the vendor label of the domain; earthaccess and the
    open-data endpoint are not consulted. *)
Theorem api_key_path_goes_live :
  forall (G : Type) (R : PyRandom G) (w : Vendor.world)
         (self : NASAAPIClient.t) (lat lon : Q) (date : option string)
         (rt : runtime (G := G)),
    NASAAPIClient.authenticated self = true ->
    NASAAPIClient.api_key self <> ""%string ->
    (usable (Vendor.session_get w (assets_url self)
               (NASAAPIClient.assets_params self lat lon (date_of date rt))) ->
     (exists o rt',
         NASAAPIClient.get_air_quality_data w self lat lon date rt
         = (Py.Return o, rt') /\ air_source o = NASA_TEMPO_OMI) /\
     (exists o rt',
         NASAAPIClient.get_vegetation_data w self lat lon date rt
         = (Py.Return o, rt') /\ vegetation_source o = NASA_MODIS_LANDSAT)) /\
    (usable (Vendor.session_get w (imagery_url self)
               (NASAAPIClient.imagery_params self lat lon (date_of date rt))) ->
     exists o rt',
       NASAAPIClient.get_water_security_data w self lat lon date rt
       = (Py.Return o, rt') /\ water_source o = NASA_GRACE_GPM).
Proof.
  intros G R w self lat lon date rt Hauth Hkey. split.
  - intro Huse. split.
    + apply get_air_live; assumption.
    + apply get_vegetation_live; assumption.
  - intro Huse. apply get_water_live; assumption.
Qed.

Lemma online_usable (url : string) (params : list (string * Vendor.param)) :
  usable (Vendor.session_get (Demo.online 200 false) url params).
Proof. eexists _, _. repeat split. Qed.

Lemma api_key_path_goes_live_witness :
  exists o rt',
    NASAAPIClient.get_water_security_data
      (Demo.online 200 false) Demo.stranded_client 28.6139 77.2090 None
      Demo.rt0
    = (Py.Return o, rt') /\ water_source o = NASA_GRACE_GPM.
Proof.
  destruct (api_key_path_goes_live
              Demo.demo_gen (Demo.online 200 false) Demo.stranded_client
              28.6139 77.2090 None Demo.rt0) as [_ Hwater].
  - reflexivity.
  - discriminate.
  - apply Hwater. apply online_usable.
Defined.

(** X4: when a client has an API key and its first HTTP call raises, or
    answers 200 with a body that does not decode, the fetch ends there with
    the simulation of its domain: the earthaccess search and the alternative
    path are not tried, whatever they would have answered. *)
Theorem first_call_failure_ends_fetch :
  forall (G : Type) (R : PyRandom G) (w : Vendor.world)
         (self : NASAAPIClient.t) (lat lon : Q) (date : option string)
         (rt : runtime (G := G)),
    NASAAPIClient.api_key self <> ""%string ->
    (first_call_breaks
       (Vendor.session_get w (assets_url self)
          (NASAAPIClient.assets_params self lat lon (date_of date rt))) ->
     NASAAPIClient.get_air_quality_data w self lat lon date rt
     = NASAAPIClient._simulate_air_quality_data (after_date date rt) /\
     NASAAPIClient.get_vegetation_data w self lat lon date rt
     = NASAAPIClient._simulate_vegetation_data (after_date date rt)) /\
    (first_call_breaks
       (Vendor.session_get w (imagery_url self)
          (NASAAPIClient.imagery_params self lat lon (date_of date rt))) ->
     NASAAPIClient.get_water_security_data w self lat lon date rt
     = NASAAPIClient._simulate_water_data (after_date date rt)).
Proof.
  intros G R w self lat lon date rt Hkey. split.
  - intro Hbreak. split.
    + apply get_air_first_call_breaks; assumption.
    + apply get_vegetation_first_call_breaks; assumption.
  - intro Hbreak. apply get_water_first_call_breaks; assumption.
Qed.

Lemma first_call_failure_ends_fetch_witness :
  NASAAPIClient.get_water_security_data
    Demo.offline Demo.stranded_client 28.6139 77.2090 None Demo.rt0
  = NASAAPIClient._simulate_water_data (after_date None Demo.rt0).
Proof.
  destruct (first_call_failure_ends_fetch
              Demo.demo_gen Demo.offline Demo.stranded_client
              28.6139 77.2090 None Demo.rt0) as [_ Hwater].
  - discriminate.
  - apply Hwater. left. eexists. reflexivity.
Defined.

(** X5: the water and vegetation fetchers return live data only through
    the API-key call.  When the client has no API key, or the first call
    answers with a status other than 200, the observation is tagged
    SIMULATION whatever earthaccess finds: the search result is handed to a
    method the client does not have, and the alternative path simulates. *)
Theorem water_vegetation_live_only_by_api_key :
  forall (G : Type) (R : PyRandom G) (w : Vendor.world)
         (self : NASAAPIClient.t) (lat lon : Q) (date : option string)
         (rt : runtime (G := G)),
    (first_call_falls_through self
       (Vendor.session_get w (imagery_url self)
          (NASAAPIClient.imagery_params self lat lon (date_of date rt))) ->
     exists o rt',
       NASAAPIClient.get_water_security_data w self lat lon date rt
       = (Py.Return o, rt') /\ water_source o = SIMULATION) /\
    (first_call_falls_through self
       (Vendor.session_get w (assets_url self)
          (NASAAPIClient.assets_params self lat lon (date_of date rt))) ->
     exists o rt',
       NASAAPIClient.get_vegetation_data w self lat lon date rt
       = (Py.Return o, rt') /\ vegetation_source o = SIMULATION).
Proof.
  intros G R w self lat lon date rt. split; intro Hfall.
  - apply get_water_falls_to_simulation. exact Hfall.
  - apply get_vegetation_falls_to_simulation. exact Hfall.
Qed.

Lemma water_vegetation_live_only_by_api_key_witness :
  exists o rt',
    NASAAPIClient.get_vegetation_data
      http_only keyless_client 28.6139 77.2090 None Demo.rt0
    = (Py.Return o, rt') /\ vegetation_source o = SIMULATION.
Proof.
  destruct (water_vegetation_live_only_by_api_key
              Demo.demo_gen http_only keyless_client
              28.6139 77.2090 None Demo.rt0) as [_ Hveg].
  apply Hveg. left. reflexivity.
Defined.

(** X6: for air quality, when the first call falls through (no API key, or
    a status other than 200) and the earthaccess search finds a granule whose
    download does not fail with an ImportError, the fetch returns a
    SIMULATION observation: the granule is handed to [_process_omi_data],
    which the client does not define, and the open-data endpoint is not
    tried. *)
Theorem air_granule_found_is_simulated :
  forall (G : Type) (R : PyRandom G) (w : Vendor.world)
         (self : NASAAPIClient.t) (lat lon : Q) (date : option string)
         (rt : runtime (G := G)),
    first_call_falls_through self
      (Vendor.session_get w (assets_url self)
         (NASAAPIClient.assets_params self lat lon (date_of date rt))) ->
    (exists ea g gs,
        Vendor.import_earthaccess w = Py.Return ea /\
        Vendor.search_data ea "OMNO2d"
                           (NASAAPIClient.bounding_box 0.1 lat lon)
                           (date_of date rt, date_of date rt) 1
        = Py.Return (g :: gs) /\
        match Vendor.download ea [g] "./nasa_data/" with
        | Py.Return _ => True
        | Py.Raise e => Py.is_ImportError e = false
        end) ->
    exists o rt',
      NASAAPIClient.get_air_quality_data w self lat lon date rt
      = (Py.Return o, rt') /\ air_source o = SIMULATION.
Proof.
  intros G R w self lat lon date rt Hfall Hfound.
  apply get_air_granule_found; assumption.
Qed.

Lemma air_granule_found_is_simulated_witness :
  exists o rt',
    NASAAPIClient.get_air_quality_data
      (Demo.online 500 false) Demo.stranded_client 28.6139 77.2090 None
      Demo.rt0
    = (Py.Return o, rt') /\ air_source o = SIMULATION.
Proof.
  apply (@air_granule_found_is_simulated
           nat Demo.demo_gen (Demo.online 500 false) Demo.stranded_client
           28.6139 77.2090 None Demo.rt0).
  - right. eexists. split; [reflexivity | discriminate].
  - eexists _, _, _. split; [reflexivity | split; [reflexivity | exact I]].
Defined.

(** X7: for air quality the open-data endpoint is a second way to live
    data.  For an authenticated client whose first call falls through, with
    earthaccess missing or its search empty, an open-data answer of status
    200 with a decodable body gives an observation tagged NASA_TEMPO_OMI. *)
Theorem air_opendata_goes_live :
  forall (G : Type) (R : PyRandom G) (w : Vendor.world)
         (self : NASAAPIClient.t) (lat lon : Q) (date : option string)
         (rt : runtime (G := G)),
    NASAAPIClient.authenticated self = true ->
    first_call_falls_through self
      (Vendor.session_get w (assets_url self)
         (NASAAPIClient.assets_params self lat lon (date_of date rt))) ->
    earthaccess_falls_through w "OMNO2d"
      (NASAAPIClient.bounding_box 0.1 lat lon) (date_of date rt) ->
    usable (Vendor.session_get w opendata_url []) ->
    exists o rt',
      NASAAPIClient.get_air_quality_data w self lat lon date rt
      = (Py.Return o, rt') /\ air_source o = NASA_TEMPO_OMI.
Proof.
  intros G R w self lat lon date rt Hauth Hfall Hthrough Huse.
  apply get_air_opendata_live; assumption.
Qed.

Lemma air_opendata_goes_live_witness :
  exists o rt',
    NASAAPIClient.get_air_quality_data
      http_only keyless_client 28.6139 77.2090 None Demo.rt0
    = (Py.Return o, rt') /\ air_source o = NASA_TEMPO_OMI.
Proof.
  apply (@air_opendata_goes_live
           nat Demo.demo_gen http_only keyless_client
           28.6139 77.2090 None Demo.rt0).
  - reflexivity.
  - left. reflexivity.
  - reflexivity.
  - eexists _, _. repeat split.
Defined.

(** ** The dashboard query and the stored rows *)

Lemma clamp_inactive (x : Q) :
  0 <= x <= 100 -> Py.min 100 (Py.max 0 x) == x.
Proof.
  intros [H0 H100].
  destruct (min_max_is_clamp x) as [Heq _]. rewrite Heq.
  unfold clamp.
  destruct (Qlt_le_dec x 0); [lra |].
  destruct (Qlt_le_dec 100 x); lra.
Qed.

Lemma pipeline_index_bounds (a : air_obs) (wd : water_obs)
      (v : vegetation_obs) :
  air_in_range a -> water_in_range wd -> vegetation_in_range v ->
  7.5 <= wellbeing_index (Some a) (Some wd) (Some v) <= 66.5.
Proof.
  intros (_ & _ & _ & _ & Haqi) (Hgw & _ & _) (_ & _ & Hgc & _).
  unfold wellbeing_index, air_score, water_score, green_score.
  rewrite maxZ_is_max.
  assert (Hs : 0 <= inject_Z (Z.max 0 (100 - aqi a)) <= 50).
  { split.
    - change 0 with (inject_Z 0). rewrite <- Zle_Qle. lia.
    - change 50 with (inject_Z 50). rewrite <- Zle_Qle. lia. }
  split; lra.
Qed.

(** X8: for the real client, whose observations all come from the bounded
    generators, the index of a successful dashboard query lies between 7.5
    and 66.5 and the final clamp to [0,100] changes nothing: the reported
    value is the weighted sum itself. *)
Theorem pipeline_index_between_7_5_and_66_5 :
  forall (G : Type) (R : PyRandom G) (w : Vendor.world)
         (self : NASAAPIClient.t) (faults : store_faults)
         (location_id : Z) (db : Db.database) (rt : runtime (G := G))
         (data : dashboard_data) (db' : Db.database)
         (rt' : runtime (G := G)),
    get_dashboard_data (nasa_client w self) faults location_id db rt
    = (Dashboard200 data, db', rt') ->
    7.5 <= dd_wellbeing_index data <= 66.5 /\
    dd_wellbeing_index data
    == wellbeing_index (dd_air_quality data) (dd_water_security data)
                       (dd_vegetation data).
Proof.
  intros G R w self faults location_id db rt data db' rt' Hrun.
  rewrite get_dashboard_data_outcome in Hrun. unfold dashboard_outcome in Hrun.
  destruct (Db.int64 location_id); cbn [negb] in Hrun; [| discriminate].
  destruct (Db.select_location db location_id) as [location |];
    [| discriminate].
  destruct (fetch_all_nasa_client w self location rt)
    as (a & wd & v & rt1 & E & (Ra & _) & (Rw & _) & (Rv & _)).
  rewrite E in Hrun.
  destruct (air_overflow (Some a)); [discriminate |].
  destruct (observations_fault faults (Some a) (Some wd) (Some v));
    [discriminate |].
  destruct (log_fault faults); [discriminate |].
  injection Hrun as <- _ _. cbn.
  pose proof (pipeline_index_bounds Ra Rw Rv) as Hb.
  assert (Hc : reported_index (Some a) (Some wd) (Some v)
               == wellbeing_index (Some a) (Some wd) (Some v)).
  { unfold reported_index. apply clamp_inactive. lra. }
  rewrite Hc. split; [exact Hb | reflexivity].
Qed.

Lemma pipeline_index_between_7_5_and_66_5_witness :
  exists data,
    fst (fst (get_dashboard_data
                (nasa_client Demo.offline Demo.anonymous_client)
                no_faults 1 (init_db None) Demo.rt0))
    = Dashboard200 data /\
    7.5 <= dd_wellbeing_index data <= 66.5.
Proof.
  destruct (get_dashboard_data
              (nasa_client Demo.offline Demo.anonymous_client)
              no_faults 1 (init_db None) Demo.rt0)
    as [[resp db'] rt'] eqn:Hrun.
  assert (Hresp : exists data, resp = Dashboard200 data).
  { vm_compute in Hrun. injection Hrun as <- _ _. eexists. reflexivity. }
  destruct Hresp as [data ->].
  exists data. split; [reflexivity |].
  exact (proj1 (@pipeline_index_between_7_5_and_66_5
                  _ _ _ _ _ _ _ _ _ _ _ Hrun)).
Defined.

(** X9: what a successful dashboard query returns is what it stored: the
    database afterwards is the database before with one row per returned
    observation appended to the table of its domain, under the queried
    location id, and one audit row; the location in the response is the
    stored location of that id. *)
Theorem dashboard_returns_what_it_stores :
  forall (G : Type) (R : PyRandom G) (nasa_client : @client_methods G R)
         (faults : store_faults) (location_id : Z) (db : Db.database)
         (rt : runtime (G := G)) (data : dashboard_data)
         (db' : Db.database) (rt' : runtime (G := G)),
    get_dashboard_data nasa_client faults location_id db rt
    = (Dashboard200 data, db', rt') ->
    Db.select_location db location_id = Some (dd_location data) /\
    db' = with_log
            (with_observations db location_id (dd_air_quality data)
                               (dd_water_security data) (dd_vegetation data))
            (dd_location data).
Proof.
  intros G R nasa_client faults location_id db rt data db' rt' Hrun.
  rewrite get_dashboard_data_outcome in Hrun. unfold dashboard_outcome in Hrun.
  destruct (Db.int64 location_id); cbn [negb] in Hrun; [| discriminate].
  destruct (Db.select_location db location_id) as [location |];
    [| discriminate].
  destruct (fetch_all nasa_client location rt) as [[[[a wd] v] | e] rt1];
    [| discriminate].
  destruct (air_overflow a); [discriminate |].
  destruct (observations_fault faults a wd v); [discriminate |].
  destruct (log_fault faults); [discriminate |].
  injection Hrun as <- <- _. cbn. split; reflexivity.
Qed.

Lemma dashboard_returns_what_it_stores_witness :
  exists data db',
    fst (get_dashboard_data
           (nasa_client Demo.offline Demo.anonymous_client)
           no_faults 1 (init_db None) Demo.rt0)
    = (Dashboard200 data, db') /\
    db' = with_log
            (with_observations (init_db None) 1 (dd_air_quality data)
                               (dd_water_security data) (dd_vegetation data))
            (dd_location data).
Proof.
  destruct (get_dashboard_data
              (nasa_client Demo.offline Demo.anonymous_client)
              no_faults 1 (init_db None) Demo.rt0)
    as [[resp db'] rt'] eqn:Hrun.
  assert (Hresp : exists data, resp = Dashboard200 data).
  { vm_compute in Hrun. injection Hrun as <- _ _. eexists. reflexivity. }
  destruct Hresp as [data ->].
  exists data, db'. split; [reflexivity |].
  exact (proj2 (@dashboard_returns_what_it_stores
                  _ _ _ _ _ _ _ _ _ _ Hrun)).
Defined.

(** ** Rows are only appended; keys and references *)

Lemma extends_refl (db : Db.database) : extends db db.
Proof. repeat split; exists []; rewrite app_nil_r; reflexivity. Qed.

Lemma extends_trans (db1 db2 db3 : Db.database) :
  extends db1 db2 -> extends db2 db3 -> extends db1 db3.
Proof.
  intros ([l1 H1] & [a1 Ha1] & [w1 Hw1] & [v1 Hv1] & [g1 Hg1])
         ([l2 H2] & [a2 Ha2] & [w2 Hw2] & [v2 Hv2] & [g2 Hg2]).
  repeat split.
  - exists (l1 ++ l2). rewrite H2, H1, app_assoc. reflexivity.
  - exists (a1 ++ a2). rewrite Ha2, Ha1, app_assoc. reflexivity.
  - exists (w1 ++ w2). rewrite Hw2, Hw1, app_assoc. reflexivity.
  - exists (v1 ++ v2). rewrite Hv2, Hv1, app_assoc. reflexivity.
  - exists (g1 ++ g2). rewrite Hg2, Hg1, app_assoc. reflexivity.
Qed.

Lemma with_observations_extends db loc a wd v :
  extends db (with_observations db loc a wd v).
Proof.
  unfold with_observations.
  destruct a as [a |], wd as [wd |], v as [v |]; cbn;
    repeat split; cbn;
    first [ exists []; rewrite app_nil_r; reflexivity
          | eexists; reflexivity ].
Qed.

Lemma with_log_extends db location : extends db (with_log db location).
Proof.
  repeat split; cbn;
    first [ exists []; rewrite app_nil_r; reflexivity
          | eexists; reflexivity ].
Qed.

Lemma add_location_extends sqlite data db :
  extends db (snd (add_location sqlite data db)).
Proof.
  destruct (add_location_appends sqlite data db) as [E | (row & _ & E)];
    rewrite E; [apply extends_refl |].
  repeat split; cbn;
    first [ exists []; rewrite app_nil_r; reflexivity
          | eexists; reflexivity ].
Qed.

Lemma dashboard_extends {G : Type} `{PyRandom G}
      (nasa_client : @client_methods G _) faults location_id db
      (rt : runtime (G := G)) :
  extends db
          (snd (fst (get_dashboard_data nasa_client faults location_id db rt))).
Proof.
  rewrite get_dashboard_data_outcome. unfold dashboard_outcome.
  destruct (Db.int64 location_id); cbn [negb]; [| apply extends_refl].
  destruct (Db.select_location db location_id) as [location |];
    [| apply extends_refl].
  destruct (fetch_all nasa_client location rt) as [[[[a wd] v] | e] rt1];
    [| apply extends_refl].
  destruct (air_overflow a); [apply extends_refl |].
  destruct (observations_fault faults a wd v); [apply extends_refl |].
  destruct (log_fault faults); cbn.
  - apply with_observations_extends.
  - eapply extends_trans;
      [apply with_observations_extends | apply with_log_extends].
Qed.

(** X10: the routes never update or delete a stored row.  Location
    creation and the dashboard query leave every row of every table in place
    and at most append rows after them, also when they fail; the history,
    alert, location-list and status routes leave the database as it is. *)
Theorem routes_only_append :
  (forall sqlite data db, extends db (snd (add_location sqlite data db))) /\
  (forall (G : Type) (R : PyRandom G) (nasa_client : @client_methods G R)
          faults location_id db (rt : runtime (G := G)),
      extends db
        (snd (fst (get_dashboard_data nasa_client faults location_id
                                      db rt)))) /\
  (forall authenticated location_id arg db,
      snd (get_historical_data authenticated location_id arg db) = db) /\
  (forall location_id db, snd (get_alerts location_id db) = db) /\
  (forall db, snd (get_locations db) = db) /\
  (forall cfg client db, snd (api_status cfg client db) = db).
Proof.
  split; [exact add_location_extends |].
  split; [intros; apply dashboard_extends |].
  split; [intros; rewrite get_historical_data_run; reflexivity |].
  split; [intros; rewrite get_alerts_run; reflexivity |].
  split; reflexivity.
Qed.

Lemma NoDup_snoc {A} (l : list A) (x : A) :
  NoDup l -> ~ In x l -> NoDup (l ++ [x]).
Proof.
  intros Hl Hx. apply NoDup_app; [exact Hl | repeat constructor; auto |].
  intros y Hy [<- | []]. exact (Hx Hy).
Qed.

Lemma select_location_found db location_id location :
  Db.select_location db location_id = Some location ->
  In location_id (map Db.id (Db.locations db)).
Proof.
  unfold Db.select_location. intro Hfind.
  apply find_some in Hfind. destruct Hfind as [Hin Heq].
  apply Z.eqb_eq in Heq. subst location_id.
  apply in_map. exact Hin.
Qed.

Lemma with_observations_keys db loc a wd v :
  keys_unique db -> keys_unique (with_observations db loc a wd v).
Proof.
  intros (Hl & Ha & Hw & Hv & Hg). unfold with_observations.
  destruct a as [a |], wd as [wd |], v as [v |]; cbn;
    repeat split; cbn; try assumption;
    rewrite map_app; cbn [map];
    apply NoDup_snoc; try assumption; apply next_rowid_fresh.
Qed.

Lemma with_log_keys db location :
  keys_unique db -> keys_unique (with_log db location).
Proof.
  intros (Hl & Ha & Hw & Hv & Hg).
  repeat split; cbn; try assumption.
  rewrite map_app; cbn [map].
  apply NoDup_snoc; [assumption | apply next_rowid_fresh].
Qed.

Lemma Forall_snoc {A} (P : A -> Prop) (l : list A) (x : A) :
  Forall P l -> P x -> Forall P (l ++ [x]).
Proof.
  intros Hl Hx. apply Forall_app. split; [exact Hl |].
  constructor; [exact Hx | constructor].
Qed.

Lemma with_observations_references db loc a wd v :
  In loc (map Db.id (Db.locations db)) ->
  references_resolve db ->
  references_resolve (with_observations db loc a wd v).
Proof.
  intros Hloc (Ha & Hw & Hv). unfold with_observations, references_resolve.
  destruct a as [a |], wd as [wd |], v as [v |]; cbn;
    repeat split; try assumption;
    apply Forall_snoc; assumption.
Qed.

Section KeyFacts.
Context {G : Type} `{PyRandom G}.

Lemma add_location_keys sqlite data db :
  keys_unique db -> keys_unique (snd (add_location sqlite data db)).
Proof.
  intro Hdb.
  destruct (add_location_appends sqlite data db) as [E | (row & Hid & E)];
    rewrite E; [exact Hdb |].
  destruct Hdb as (Hl & Ha & Hw & Hv & Hg).
  repeat split; cbn; try assumption.
  rewrite map_app; cbn [map]. rewrite Hid.
  apply NoDup_snoc; [assumption | apply next_rowid_fresh].
Qed.

Lemma add_location_references sqlite data db :
  references_resolve db ->
  references_resolve (snd (add_location sqlite data db)).
Proof.
  intro Hdb.
  destruct (add_location_appends sqlite data db) as [E | (row & _ & E)];
    rewrite E; [exact Hdb |].
  destruct Hdb as (Ha & Hw & Hv).
  unfold references_resolve. cbn.
  repeat split;
    (eapply Forall_impl; [| eassumption]); cbn;
    intros r Hr; rewrite map_app; apply in_or_app; left; exact Hr.
Qed.

Lemma dashboard_keys_references
      (nasa_client : @client_methods G _) faults location_id db
      (rt : runtime (G := G)) :
  keys_unique db /\ references_resolve db ->
  let db' :=
    snd (fst (get_dashboard_data nasa_client faults location_id db rt)) in
  keys_unique db' /\ references_resolve db'.
Proof.
  intros [Hk Hr]. cbv zeta.
  rewrite get_dashboard_data_outcome. unfold dashboard_outcome.
  destruct (Db.int64 location_id); cbn [negb]; [| split; assumption].
  destruct (Db.select_location db location_id) as [location |] eqn:Hloc;
    [| split; assumption].
  apply select_location_found in Hloc.
  destruct (fetch_all nasa_client location rt) as [[[[a wd] v] | e] rt1];
    [| split; assumption].
  destruct (air_overflow a); [split; assumption |].
  destruct (observations_fault faults a wd v); [split; assumption |].
  pose proof (@with_observations_keys db location_id a wd v Hk) as Hk'.
  pose proof (@with_observations_references db location_id a wd v Hloc Hr)
    as Hr'.
  destruct (log_fault faults); cbn; [split; assumption |].
  split; [apply with_log_keys; exact Hk' | exact Hr'].
Qed.

Lemma reachable_keys_references db :
  reachable (G := G) db -> keys_unique db /\ references_resolve db.
Proof.
  induction 1 as [| sqlite data db _ IH | w self faults loc db rt _ IH
                  | auth loc arg db _ IH | loc db _ IH].
  - split.
    + repeat split; cbn; repeat constructor; cbn; intuition discriminate.
    + repeat split; constructor.
  - destruct IH as [Hk Hr]. split.
    + apply add_location_keys, Hk.
    + apply add_location_references, Hr.
  - apply dashboard_keys_references, IH.
  - rewrite get_historical_data_run. exact IH.
  - rewrite get_alerts_run. exact IH.
Qed.

End KeyFacts.

(** X11: in every database the program reaches from a fresh file, the ids
    of each table are pairwise distinct and every observation row carries
    the id of a stored location (the references hold although SQLite does
    not enforce them). *)
Theorem keys_unique_and_references_resolve :
  forall (G : Type) (R : PyRandom G) (db : Db.database),
    reachable (G := G) db -> keys_unique db /\ references_resolve db.
Proof.
  intros G R db Hreach. apply reachable_keys_references. exact Hreach.
Qed.

Lemma keys_unique_and_references_resolve_witness :
  let db' :=
    snd (fst (get_dashboard_data
                (nasa_client (Demo.online 200 false) Demo.stranded_client)
                no_faults 1 (init_db None) Demo.rt0)) in
  keys_unique db' /\ references_resolve db'.
Proof.
  apply (@keys_unique_and_references_resolve nat Demo.demo_gen).
  apply reach_dashboard. apply reach_init.
Defined.

(** ** Creating a location and looking it up *)

Lemma find_snoc {A} (f : A -> bool) (l : list A) (x : A) :
  find f (l ++ [x])
  = match find f l with
    | Some y => Some y
    | None => if f x then Some x else None
    end.
Proof.
  induction l as [| y l IH]; cbn; [reflexivity |].
  destruct (f y); [reflexivity | exact IH].
Qed.

Lemma find_id_unknown (l : list Db.location) (i : Z) :
  ~ In i (map Db.id l) -> find (fun x => (Db.id x =? i)%Z) l = None.
Proof.
  intro Hnot. induction l as [| y l IH]; cbn; [reflexivity |].
  destruct (Z.eqb_spec (Db.id y) i) as [Heq | Hne].
  - exfalso. apply Hnot. left. exact Heq.
  - apply IH. intro Hin. apply Hnot. right. exact Hin.
Qed.

(** X12: a location that was accepted can be looked up under the id that
    was returned, with the name, coordinates, population and area of the
    request, as the columns hold them; every other id resolves as before;
    and a dashboard query for the new id does not answer not-found. *)
Theorem added_location_is_found :
  forall (sqlite : Db.engine) (data : Py.object) (db : Db.database)
         (msg : string) (new_id : Z) (db' : Db.database),
    add_location sqlite data db = (Added msg new_id, db') ->
    (exists items v_name v_lat v_lon b_name b_pop b_area n lat lon,
        data = Py.PyDict items /\
        Py.lookup items "name" = Some v_name /\
        Py.lookup items "latitude" = Some v_lat /\
        Py.lookup items "longitude" = Some v_lon /\
        Py.number v_lat = Some (Py.Finite lat) /\
        Py.number v_lon = Some (Py.Finite lon) /\
        Db.bind v_name = Py.Return b_name /\
        Db.text_affinity sqlite b_name = Db.Text n /\
        Db.bind (Py.item_or_none items "population") = Py.Return b_pop /\
        Db.bind (Py.item_or_none items "area") = Py.Return b_area /\
        Db.select_location db' new_id
        = Some {| Db.id := new_id; Db.name := n; Db.latitude := lat;
                  Db.longitude := lon;
                  Db.population := Db.integer_affinity sqlite b_pop;
                  Db.area := Db.real_affinity sqlite b_area |}) /\
    (forall i, i <> new_id ->
               Db.select_location db' i = Db.select_location db i) /\
    (forall (G : Type) (R : PyRandom G) (nasa_client : @client_methods G R)
            faults (rt : runtime (G := G)),
        fst (fst (get_dashboard_data nasa_client faults new_id db' rt))
        <> Dashboard404).
Proof.
  intros sqlite data db msg new_id db' Hadd.
  destruct (add_location_effect sqlite data db)
    as [[_ Hno] | (items & v_name & v_lat & v_lon & b_name & b_pop & b_area
                   & n & lat & lon & -> & Hname & Hlat & Hlon & Nlat & _
                   & Nlon & _ & Bname & Cname & Bpop & Barea & _ & E)].
  { exfalso. apply (Hno msg new_id). rewrite Hadd. reflexivity. }
  cbv zeta in E. rewrite E in Hadd. injection Hadd as _ <- <-.
  set (new_id := Db.next_rowid (map Db.id (Db.locations db))).
  set (row := {| Db.id := new_id; Db.name := n; Db.latitude := lat;
                 Db.longitude := lon;
                 Db.population := Db.integer_affinity sqlite b_pop;
                 Db.area := Db.real_affinity sqlite b_area |}).
  assert (Hfresh : find (fun x => (Db.id x =? new_id)%Z) (Db.locations db)
                   = None).
  { apply find_id_unknown. apply next_rowid_fresh. }
  assert (Hfound : Db.select_location (appended db row) new_id = Some row).
  { unfold Db.select_location. cbn [appended Db.locations].
    rewrite find_snoc, Hfresh. cbn [row Db.id]. rewrite Z.eqb_refl.
    reflexivity. }
  split; [| split].
  - exists items, v_name, v_lat, v_lon, b_name, b_pop, b_area, n, lat, lon.
    repeat (split; [first [reflexivity | assumption] |]). exact Hfound.
  - intros i Hi. unfold Db.select_location. cbn [appended Db.locations].
    rewrite find_snoc. cbn [row Db.id].
    destruct (find (fun l => (Db.id l =? i)%Z) (Db.locations db));
      [reflexivity |].
    destruct (Z.eqb_spec new_id i); [congruence | reflexivity].
  - intros G R nasa_client faults rt.
    rewrite get_dashboard_data_outcome. unfold dashboard_outcome.
    destruct (Db.int64 new_id); cbn [negb]; [| discriminate].
    rewrite Hfound.
    destruct (fetch_all nasa_client _ rt) as [[[[a wd] v] | e] rt1];
      [| discriminate].
    destruct (air_overflow a); [discriminate |].
    destruct (observations_fault faults a wd v); [discriminate |].
    destruct (log_fault faults); discriminate.
Qed.

Lemma added_location_is_found_witness :
  exists msg new_id db',
    add_location Demo.sqlite (location_body "Corner" (-90) 180)
                 (init_db None)
    = (Added msg new_id, db') /\
    Db.select_location db' new_id
    = Some {| Db.id := new_id; Db.name := "Corner"; Db.latitude := -90;
              Db.longitude := 180; Db.population := Db.Null;
              Db.area := Db.Null |}.
Proof.
  destruct (add_location Demo.sqlite (location_body "Corner" (-90) 180)
                         (init_db None)) as [resp db'] eqn:Hadd.
  assert (Hresp : exists msg new_id, resp = Added msg new_id).
  { vm_compute in Hadd. injection Hadd as <- _. eexists _, _. reflexivity. }
  destruct Hresp as (msg & new_id & ->).
  exists msg, new_id, db'. split; [reflexivity |].
  destruct (added_location_is_found _ _ _ Hadd)
    as ((items & v_name & v_lat & v_lon & b_name & b_pop & b_area & n & lat
         & lon & Hdata & Hname & Hlat & Hlon & Nlat & Nlon & Bname & Cname
         & Bpop & Barea & Hfound) & _).
  injection Hdata as <-.
  cbn in Hname, Hlat, Hlon, Bpop, Barea.
  injection Hname as <-. injection Hlat as <-. injection Hlon as <-.
  injection Bpop as <-. injection Barea as <-.
  cbn in Nlat, Nlon, Bname. injection Nlat as <-. injection Nlon as <-.
  injection Bname as <-. cbn in Cname. injection Cname as <-.
  exact Hfound.
Defined.

(** ** Queries after a dashboard query *)

Lemma ltb_leb_false (a b : string) :
  String.ltb a b = true -> String.leb b a = false.
Proof.
  unfold String.ltb, String.leb. rewrite (String.compare_antisym b a).
  destruct (String.compare a b); cbn; (discriminate || reflexivity).
Qed.

Lemma order_by_desc_latest {A} (key : A -> string) (l : list A) (r : A) :
  (forall x, In x l -> String.ltb (key x) (key r) = true) ->
  Db.order_by_desc key (l ++ [r]) = r :: Db.order_by_desc key l.
Proof.
  induction l as [| x l IH]; intro Hlater; [reflexivity |].
  cbn. unfold Db.order_by_desc in IH. rewrite IH.
  - cbn. rewrite (ltb_leb_false _ _ (Hlater x (or_introl eq_refl))).
    reflexivity.
  - intros y Hy. apply Hlater. right. exact Hy.
Qed.

Lemma select_latest_appended {O} (timestamp : O -> string)
      (table : list (Db.row O)) (loc : Z) (r : Db.row O) :
  Db.location_id r = loc ->
  later_than_stored timestamp table loc (timestamp (Db.obs r)) ->
  Db.select_recent timestamp (table ++ [r]) loc 1 = [r].
Proof.
  intros Hloc Hlater. unfold Db.select_recent, Db.limit.
  rewrite filter_app. cbn [filter]. rewrite Hloc, Z.eqb_refl.
  rewrite order_by_desc_latest; [reflexivity |].
  intros x Hx. apply Hlater. exact Hx.
Qed.

Lemma successful_dashboard_database {G : Type} `{PyRandom G}
      (nasa_client : @client_methods G _) faults location_id db
      (rt : runtime (G := G)) data db' rt' :
  get_dashboard_data nasa_client faults location_id db rt
  = (Dashboard200 data, db', rt') ->
  Db.int64 location_id = true /\
  db' = with_log
          (with_observations db location_id (dd_air_quality data)
                             (dd_water_security data) (dd_vegetation data))
          (dd_location data).
Proof.
  intro Hrun.
  rewrite get_dashboard_data_outcome in Hrun.
  unfold dashboard_outcome in Hrun.
  destruct (Db.int64 location_id); cbn [negb] in Hrun; [| discriminate].
  destruct (Db.select_location db location_id) as [location |];
    [| discriminate].
  destruct (fetch_all nasa_client location rt) as [[[[a wd] v] | e] rt1];
    [| discriminate].
  destruct (air_overflow a); [discriminate |].
  destruct (observations_fault faults a wd v); [discriminate |].
  destruct (log_fault faults); [discriminate |].
  injection Hrun as <- <- _. split; reflexivity.
Qed.

(** X13: alerts asked right after a successful dashboard query are
    evaluated on the observations that query returned, provided their
    timestamps are strictly later than those of the rows stored before for
    the location (rows are compared by their timestamp text). *)
Theorem alerts_after_dashboard_use_returned_observations :
  forall (G : Type) (R : PyRandom G) (nasa_client : @client_methods G R)
         (faults : store_faults) (location_id : Z) (db : Db.database)
         (rt : runtime (G := G)) (data : dashboard_data)
         (db' : Db.database) (rt' : runtime (G := G))
         (a : air_obs) (wd : water_obs),
    get_dashboard_data nasa_client faults location_id db rt
    = (Dashboard200 data, db', rt') ->
    dd_air_quality data = Some a ->
    dd_water_security data = Some wd ->
    later_than_stored air_timestamp (Db.air_quality db) location_id
                      (air_timestamp a) ->
    later_than_stored water_timestamp (Db.water_data db) location_id
                      (water_timestamp wd) ->
    exists ra rw,
      Db.obs ra = a /\ Db.obs rw = wd /\
      fst (get_alerts location_id db')
      = Py.Return (evaluate_alerts (Some ra) (Some rw)).
Proof.
  intros G R nasa_client faults location_id db rt data db' rt' a wd
         Hrun Hair Hwater Hla Hlw.
  pose proof (successful_dashboard_database _ _ _ _ _ Hrun) as [Hid Hdb'].
  rewrite Hair, Hwater in Hdb'. subst db'.
  rewrite get_alerts_run, Hid. cbn [fst].
  assert (Ea : Db.air_quality
                 (with_log
                    (with_observations db location_id (Some a) (Some wd)
                                       (dd_vegetation data))
                    (dd_location data))
               = Db.air_quality db ++
                 [{| Db.row_id :=
                       Db.next_rowid (map (@Db.row_id _) (Db.air_quality db));
                     Db.location_id := location_id; Db.obs := a |}]).
  { destruct (dd_vegetation data); reflexivity. }
  assert (Ew : Db.water_data
                 (with_log
                    (with_observations db location_id (Some a) (Some wd)
                                       (dd_vegetation data))
                    (dd_location data))
               = Db.water_data db ++
                 [{| Db.row_id :=
                       Db.next_rowid (map (@Db.row_id _) (Db.water_data db));
                     Db.location_id := location_id; Db.obs := wd |}]).
  { destruct (dd_vegetation data); reflexivity. }
  rewrite Ea, Ew.
  rewrite !select_latest_appended; try reflexivity; try assumption.
  eexists _, _. split; [| split]; [| | reflexivity]; reflexivity.
Qed.

(** The query runs on [Demo.alarming], where location 1 has two air rows
    and two water rows, with a clock that reads later than their
    timestamps. *)
Lemma alerts_after_dashboard_use_returned_observations_witness :
  rows_of (Db.air_quality Demo.alarming) 1 <> [] /\
  rows_of (Db.water_data Demo.alarming) 1 <> [] /\
  exists data ra rw,
    fst (fst (get_dashboard_data
                (nasa_client Demo.offline Demo.anonymous_client)
                no_faults 1 Demo.alarming Demo.rt_later))
    = Dashboard200 data /\
    dd_air_quality data = Some (Db.obs ra) /\
    dd_water_security data = Some (Db.obs rw) /\
    fst (get_alerts 1
           (snd (fst (get_dashboard_data
                        (nasa_client Demo.offline Demo.anonymous_client)
                        no_faults 1 Demo.alarming Demo.rt_later))))
    = Py.Return (evaluate_alerts (Some ra) (Some rw)).
Proof.
  split; [discriminate |]. split; [discriminate |].
  eassert (Hrun : get_dashboard_data
                    (nasa_client Demo.offline Demo.anonymous_client)
                    no_faults 1 Demo.alarming Demo.rt_later
                  = (Dashboard200 _, _, _)).
  { vm_compute. reflexivity. }
  destruct (@alerts_after_dashboard_use_returned_observations
              _ _ _ _ _ _ _ _ _ _ _ _ Hrun eq_refl eq_refl)
    as (ra & rw & Hra & Hrw & Halerts).
  - intros r Hr. vm_compute in Hr.
    destruct Hr as [<- | [<- | []]]; reflexivity.
  - intros r Hr. vm_compute in Hr.
    destruct Hr as [<- | [<- | []]]; reflexivity.
  - eexists _, ra, rw. rewrite Hrun. cbn [fst snd].
    split; [reflexivity |]. rewrite Hra, Hrw.
    split; [reflexivity |]. split; [reflexivity |]. exact Halerts.
Defined.

Lemma rows_of_other_location {O} (table : list (Db.row O)) (a b : Z)
      (o : O) (rid : Z) :
  a <> b ->
  rows_of (table ++ [{| Db.row_id := rid; Db.location_id := a;
                        Db.obs := o |}]) b
  = rows_of table b.
Proof.
  intro Hab. unfold rows_of. rewrite filter_app. cbn.
  destruct (Z.eqb_spec a b); [contradiction | apply app_nil_r].
Qed.

Lemma with_observations_other_location db a b oa ow ov :
  a <> b ->
  let db' := with_observations db a oa ow ov in
  rows_of (Db.air_quality db') b = rows_of (Db.air_quality db) b /\
  rows_of (Db.water_data db') b = rows_of (Db.water_data db) b /\
  rows_of (Db.vegetation db') b = rows_of (Db.vegetation db) b.
Proof.
  intro Hab. unfold with_observations.
  destruct oa as [x |], ow as [y |], ov as [z |];
    cbn [with_air with_water with_vegetation Db.air_quality Db.water_data
         Db.vegetation];
    rewrite ?(rows_of_other_location _ _ _ Hab); repeat split.
Qed.

(** X14: a dashboard query for one location leaves the history and the
    alerts of every other location as they were, whether it succeeds or
    fails. *)
Theorem dashboard_leaves_other_locations :
  forall (G : Type) (R : PyRandom G) (nasa_client : @client_methods G R)
         (faults : store_faults) (queried other : Z) (db : Db.database)
         (rt : runtime (G := G)) (authenticated : bool) (arg : option Z),
    queried <> other ->
    let db' :=
      snd (fst (get_dashboard_data nasa_client faults queried db rt)) in
    fst (get_historical_data authenticated other arg db')
    = fst (get_historical_data authenticated other arg db) /\
    fst (get_alerts other db') = fst (get_alerts other db).
Proof.
  intros G R nasa_client faults queried other db rt authenticated arg Hne.
  cbv zeta.
  assert (Hrows :
    let db' :=
      snd (fst (get_dashboard_data nasa_client faults queried db rt)) in
    rows_of (Db.air_quality db') other = rows_of (Db.air_quality db) other /\
    rows_of (Db.water_data db') other = rows_of (Db.water_data db) other /\
    rows_of (Db.vegetation db') other = rows_of (Db.vegetation db) other).
  { cbv zeta. rewrite get_dashboard_data_outcome. unfold dashboard_outcome.
    destruct (Db.int64 queried); cbn [negb]; [| repeat split].
    destruct (Db.select_location db queried) as [location |];
      [| repeat split].
    destruct (fetch_all nasa_client location rt) as [[[[a wd] v] | e] rt1];
      [| repeat split].
    destruct (air_overflow a); [repeat split |].
    destruct (observations_fault faults a wd v); [repeat split |].
    destruct (log_fault faults); cbn [fst snd];
      apply (with_observations_other_location db a wd v Hne). }
  cbv zeta in Hrows. destruct Hrows as (Ha & Hw & Hv).
  rewrite !get_historical_data_run, !get_alerts_run.
  unfold Db.select_recent. cbn [fst]. unfold rows_of in Ha, Hw, Hv.
  rewrite Ha, Hw, Hv. split; reflexivity.
Qed.

Lemma dashboard_leaves_other_locations_witness :
  fst (get_alerts 1
         (snd (fst (get_dashboard_data
                      (nasa_client Demo.offline Demo.anonymous_client)
                      no_faults 2 Demo.alarming Demo.rt0))))
  = fst (get_alerts 1 Demo.alarming).
Proof.
  refine (proj2 (@dashboard_leaves_other_locations
                   nat Demo.demo_gen
                   (nasa_client Demo.offline Demo.anonymous_client)
                   no_faults 2 1 Demo.alarming Demo.rt0 false None _)).
  discriminate.
Defined.

Lemma limit_prefix {A} (n m : Z) (l : list A) :
  (0 <= n)%Z -> (n <= m \/ m < 0)%Z ->
  exists older, Db.limit m l = Db.limit n l ++ older.
Proof.
  intros Hn Hm. unfold Db.limit.
  destruct (Z.ltb_spec n 0) as [Hn' | _]; [lia |].
  destruct (Z.ltb_spec m 0) as [Hneg | Hpos].
  - exists (skipn (Z.to_nat n) l). symmetry. apply firstn_skipn.
  - exists (skipn (Z.to_nat n) (firstn (Z.to_nat m) l)).
    rewrite <- (firstn_skipn (Z.to_nat n) (firstn (Z.to_nat m) l)) at 1.
    rewrite firstn_firstn.
    replace (Nat.min (Z.to_nat n) (Z.to_nat m)) with (Z.to_nat n) by lia.
    reflexivity.
Qed.

(** X15: asking for more days only adds older rows.  For a location id
    and limits that SQLite can bind, with 0 <= n <= m (or a negative m,
    which lifts the bound), the history under the limit m starts, domain by
    domain, with the history under the limit n.  When m is beyond the
    64-bit range the larger request fails instead, with an
    OverflowError. *)
Theorem history_grows_with_limit :
  forall (authenticated : bool) (location_id n m : Z) (db : Db.database),
    Db.int64 location_id = true -> Db.int64 n = true ->
    (0 <= n)%Z -> (n <= m \/ m < 0)%Z ->
    (Db.int64 m = true ->
     exists h_n h_m,
       fst (get_historical_data authenticated location_id (Some n) db)
       = Py.Return h_n /\
       fst (get_historical_data authenticated location_id (Some m) db)
       = Py.Return h_m /\
       (exists older, h_air_quality h_m = h_air_quality h_n ++ older) /\
       (exists older,
           h_water_security h_m = h_water_security h_n ++ older) /\
       (exists older, h_vegetation h_m = h_vegetation h_n ++ older)) /\
    (Db.int64 m = false ->
     fst (get_historical_data authenticated location_id (Some m) db)
     = Py.Raise Py.OverflowError).
Proof.
  intros authenticated location_id n m db Hid Hfit Hn Hm.
  rewrite !get_historical_data_run. cbn [days_arg fst].
  rewrite Hid, Hfit. cbn [andb]. split.
  - intros ->. eexists _, _. split; [reflexivity |]. split; [reflexivity |].
    cbn [h_air_quality h_water_security h_vegetation].
    unfold Db.select_recent.
    repeat split; apply limit_prefix; assumption.
  - intros ->. reflexivity.
Qed.

Lemma history_grows_with_limit_witness :
  exists h_3 h_7 older,
    fst (get_historical_data false 1 (Some 3%Z) Demo.ten_readings)
    = Py.Return h_3 /\
    fst (get_historical_data false 1 (Some 7%Z) Demo.ten_readings)
    = Py.Return h_7 /\
    h_air_quality h_7 = h_air_quality h_3 ++ older.
Proof.
  destruct (@history_grows_with_limit false 1 3 7 Demo.ten_readings)
    as [Hgrow _]; try reflexivity; try lia.
  destruct (Hgrow eq_refl) as (h_3 & h_7 & E3 & E7 & [older Hair] & _).
  exists h_3, h_7, older.
  split; [exact E3 | split; [exact E7 | exact Hair]].
Defined.

(** ** The location list and the status route *)

Lemma insert_by_name_perm (x : Db.location) (l : list Db.location) :
  Permutation (x :: l) (insert_by_name x l).
Proof.
  induction l as [| y l IH]; cbn; [reflexivity |].
  destruct (String.leb (Db.name x) (Db.name y)); [reflexivity |].
  rewrite perm_swap. apply perm_skip. exact IH.
Qed.

Lemma order_by_name_perm (l : list Db.location) :
  Permutation l (order_by_name l).
Proof.
  induction l as [| x l IH]; cbn; [reflexivity |].
  rewrite <- insert_by_name_perm. apply perm_skip. exact IH.
Qed.

Lemma insert_by_name_sorted (x : Db.location) (l : list Db.location) :
  StronglySorted by_name l -> StronglySorted by_name (insert_by_name x l).
Proof.
  induction l as [| y l IH]; cbn; intro Hs.
  - constructor; constructor.
  - apply StronglySorted_inv in Hs. destruct Hs as [Hl Hy].
    destruct (String.leb (Db.name x) (Db.name y)) eqn:E.
    + constructor; [constructor; assumption |].
      constructor; [exact E |].
      rewrite Forall_forall in *. intros z Hz. unfold by_name in *.
      apply string_leb_trans with (b := Db.name y); [exact E | apply Hy, Hz].
    + constructor; [apply IH, Hl |].
      rewrite Forall_forall in *. intros z Hz.
      apply (Permutation_in _ (Permutation_sym (insert_by_name_perm x l)))
        in Hz.
      destruct Hz as [<- | Hz]; [| apply Hy, Hz].
      unfold by_name.
      destruct (String.leb_total (Db.name y) (Db.name x)) as [Hyx | Hxy];
        [exact Hyx | congruence].
Qed.

Lemma order_by_name_sorted (l : list Db.location) :
  StronglySorted by_name (order_by_name l).
Proof.
  induction l as [| x l IH]; cbn.
  - constructor.
  - apply insert_by_name_sorted. exact IH.
Qed.

(** X16: the location list holds every stored location exactly once, in
    ascending byte-wise order of the names (so every upper-case name comes
    before every lower-case one), and listing changes nothing. *)
Theorem locations_listed_by_name :
  forall db : Db.database,
    Permutation (Db.locations db) (fst (get_locations db)) /\
    StronglySorted by_name (fst (get_locations db)) /\
    snd (get_locations db) = db /\
    (forall a b : Db.location,
        (exists c s, Db.name a = String c s /\ (nat_of_ascii c < 97)%nat) ->
        (exists c s, Db.name b = String c s /\ (97 <= nat_of_ascii c)%nat) ->
        by_name a b).
Proof.
  intro db. unfold get_locations. cbn [fst snd Db.get_db Db.pending].
  split; [apply order_by_name_perm |].
  split; [apply order_by_name_sorted |].
  split; [reflexivity |].
  intros a b (c & s & Ha & Hc) (c' & s' & Hb & Hc').
  unfold by_name, String.leb. rewrite Ha, Hb. cbn [String.compare].
  unfold Ascii.compare.
  assert (Hlt : (N_of_ascii c < N_of_ascii c')%N).
  { unfold nat_of_ascii in Hc, Hc'. lia. }
  apply N.compare_lt_iff in Hlt. rewrite Hlt. reflexivity.
Qed.

Lemma locations_listed_by_name_witness :
  by_name {| Db.id := 1; Db.name := "Zurich"; Db.latitude := 47.3769;
             Db.longitude := 8.5417; Db.population := Db.Null;
             Db.area := Db.Null |}
          {| Db.id := 2; Db.name := "aachen"; Db.latitude := 50.7753;
             Db.longitude := 6.0839; Db.population := Db.Null;
             Db.area := Db.Null |}.
Proof.
  destruct (locations_listed_by_name (init_db None)) as (_ & _ & _ & Hcase).
  apply Hcase.
  - eexists _, _. split; [reflexivity | cbn; lia].
  - eexists _, _. split; [reflexivity | cbn; lia].
Defined.

Lemma string_length_app (s1 s2 : string) :
  String.length (s1 ++ s2) = (String.length s1 + String.length s2)%nat.
Proof.
  induction s1 as [| c s1 IH]; cbn; [reflexivity | rewrite IH; reflexivity].
Qed.

Lemma substring_skip (w : nat) (s : string) :
  (substring 0 w s ++ Py.skip_bytes w s)%string = s.
Proof.
  revert s. induction w as [| w IH]; intros [| c s]; cbn;
    try reflexivity.
  rewrite IH. reflexivity.
Qed.

Lemma substring_length (w : nat) (s : string) :
  (String.length (substring 0 w s) <= w)%nat.
Proof.
  revert s. induction w as [| w IH]; intros [| c s]; cbn; try lia.
  specialize (IH s). lia.
Qed.

Lemma char_width_bounds (s : string) :
  (Py.char_width s <= 4)%nat /\ (s <> ""%string -> 1 <= Py.char_width s)%nat.
Proof.
  destruct s as [| c s]; [split; [cbn; lia | congruence] |].
  unfold Py.char_width.
  repeat match goal with
         | |- context [if ?b then _ else _] => destruct b
         | |- context [match ?x with EmptyString => _ | String _ _ => _ end] =>
             destruct x
         end; split; intros; lia.
Qed.

Lemma slice_to_prefix (n : nat) (s : string) :
  exists rest, s = (Py.slice_to n s ++ rest)%string.
Proof.
  revert s. induction n as [| n IH]; intro s; cbn [Py.slice_to].
  - exists s. reflexivity.
  - destruct (IH (Py.skip_bytes (Py.char_width s) s)) as [rest Hrest].
    exists rest.
    rewrite <- (substring_skip (Py.char_width s) s) at 1.
    rewrite Hrest at 1.
    set (a := substring 0 (Py.char_width s) s).
    set (b := Py.slice_to n (Py.skip_bytes (Py.char_width s) s)).
    clearbody a b. clear.
    induction a as [| c a IHa]; cbn; [reflexivity | rewrite IHa; reflexivity].
Qed.

Lemma slice_to_length (n : nat) (s : string) :
  (String.length (Py.slice_to n s) <= 4 * n)%nat.
Proof.
  revert s. induction n as [| n IH]; intro s; cbn [Py.slice_to];
    [cbn; lia |].
  rewrite string_length_app.
  pose proof (substring_length (Py.char_width s) s).
  pose proof (proj1 (char_width_bounds s)).
  specialize (IH (Py.skip_bytes (Py.char_width s) s)). lia.
Qed.

Lemma slice_to_nil (n : nat) : Py.slice_to n "" = ""%string.
Proof. induction n as [| n IH]; [reflexivity | cbn; exact IH]. Qed.

Lemma slice_to_empty (n : nat) (s : string) :
  Py.slice_to (S n) s = ""%string <-> s = ""%string.
Proof.
  split; [| intros ->; apply slice_to_nil].
  destruct s as [| c s]; [reflexivity |]. cbn [Py.slice_to].
  pose proof (proj2 (char_width_bounds (String c s))) as Hw.
  destruct (Py.char_width (String c s)) as [| w];
    [exfalso; assert (1 <= 0)%nat by (apply Hw; discriminate); lia |].
  cbn. discriminate.
Qed.

(** On ASCII text a character is a byte. *)
Lemma slice_to_ascii (n : nat) (s : string) :
  ascii_only s -> Py.slice_to n s = substring 0 n s.
Proof.
  revert s. induction n as [| n IH]; intros s Hs; cbn [Py.slice_to].
  - destruct s; reflexivity.
  - destruct s as [| c s]; [apply (slice_to_nil (S n)) |].
    assert (Hc : Py.byte_in 0 127 c = true).
    { unfold Py.byte_in. apply andb_true_iff. split.
      - reflexivity.
      - apply Nat.leb_le. specialize (Hs c (or_introl eq_refl)). lia. }
    unfold Py.char_width. rewrite Hc. cbn.
    replace (substring 0 0 s) with ""%string by (destruct s; reflexivity).
    cbn. rewrite IH; [reflexivity |].
    intros c' Hc'. apply Hs. right. exact Hc'.
Qed.

(** X17: the status route shows of the configuration only the first three
    characters of the user name (followed by three asterisks) and whether an
    API key is set; the password and the rest of the user name have no
    influence on the payload ("Not Set" stands for an empty name).  The
    three characters are characters, not bytes: they are a prefix of the
    name of at most twelve bytes, its first three bytes when the name is
    ASCII, and two names that differ in their third character only, after
    a two-byte first one, are shown differently. *)
Theorem status_shows_three_characters :
  forall (cfg cfg' : NASA_CONFIG_t) (client client' : NASAAPIClient.t)
         (db db' : Db.database),
    (Py.slice_to 3 (earthdata_username cfg)
     = Py.slice_to 3 (earthdata_username cfg') ->
     Py.truthy (config_api_key cfg) = Py.truthy (config_api_key cfg') ->
     NASAAPIClient.authenticated client
     = NASAAPIClient.authenticated client' ->
     List.length (Db.locations db) = List.length (Db.locations db') ->
     fst (api_status cfg client db) = fst (api_status cfg' client' db')) /\
    (earthdata_username cfg <> ""%string ->
     status_earthdata_username (status_nasa (fst (api_status cfg client db)))
     = (Py.slice_to 3 (earthdata_username cfg) ++ "***")%string /\
     (exists rest,
         earthdata_username cfg
         = (Py.slice_to 3 (earthdata_username cfg) ++ rest)%string) /\
     (String.length (Py.slice_to 3 (earthdata_username cfg)) <= 12)%nat /\
     (ascii_only (earthdata_username cfg) ->
      Py.slice_to 3 (earthdata_username cfg)
      = substring 0 3 (earthdata_username cfg))) /\
    fst (api_status (NASA_CONFIG (e_acute ++ "ab") "" "") client db)
    <> fst (api_status (NASA_CONFIG (e_acute ++ "ac") "" "") client db).
Proof.
  intros cfg cfg' client client' db db'. split; [| split].
  - intros Hprefix Hkey Hauth Hcount.
    unfold api_status. cbn [fst Db.get_db Db.pending].
    assert (Htruthy : Py.truthy (earthdata_username cfg)
                      = Py.truthy (earthdata_username cfg')).
    { unfold Py.truthy. f_equal.
      destruct (String.eqb_spec (earthdata_username cfg) "") as [E | E],
               (String.eqb_spec (earthdata_username cfg') "") as [E' | E'];
        try reflexivity; exfalso.
      - apply E'. apply (slice_to_empty 2). rewrite <- Hprefix, E.
        reflexivity.
      - apply E. apply (slice_to_empty 2). rewrite Hprefix, E'.
        reflexivity. }
    rewrite Htruthy, Hprefix, Hkey, Hauth, Hcount. reflexivity.
  - intro Hne. apply truthy_nonempty in Hne.
    unfold api_status. cbn [fst status_nasa status_earthdata_username].
    rewrite Hne.
    split; [reflexivity |]. split; [apply slice_to_prefix |].
    split; [apply (slice_to_length 3) | apply slice_to_ascii].
  - unfold api_status. cbn. discriminate.
Qed.

Lemma status_shows_three_characters_witness :
  fst (api_status (NASA_CONFIG "alice" "secret" "") Demo.anonymous_client
                  (init_db None))
  = fst (api_status (NASA_CONFIG "alistair" "other" "")
                    Demo.anonymous_client (init_db None)).
Proof.
  refine (proj1 (@status_shows_three_characters
                   (NASA_CONFIG "alice" "secret" "")
                   (NASA_CONFIG "alistair" "other" "")
                   Demo.anonymous_client Demo.anonymous_client
                   (init_db None) (init_db None)) _ _ _ _); reflexivity.
Defined.

(** ** Alerts on stored rows *)

Lemma latest_row_is_stored {O} (timestamp : O -> string)
      (table : list (Db.row O)) (loc n : Z) (r : Db.row O) :
  hd_error (Db.select_recent timestamp table loc n) = Some r ->
  In r table /\ Db.location_id r = loc.
Proof.
  intro Hhd.
  destruct (select_recent_slice timestamp table loc n)
    as (_ & _ & rest & Hperm & _).
  assert (Hin : In r (Db.select_recent timestamp table loc n)).
  { destruct (Db.select_recent timestamp table loc n) as [| x l];
      [discriminate |].
    injection Hhd as ->. left. reflexivity. }
  assert (Hstored : In r (filter (fun x => (Db.location_id x =? loc)%Z)
                                 table)).
  { apply (Permutation_in _ Hperm). apply in_or_app. left. exact Hin. }
  apply filter_In in Hstored. destruct Hstored as [Ht Hl].
  apply Z.eqb_eq in Hl. split; assumption.
Qed.

(** X18: on the rows the program itself has stored, an air-quality alert
    always reports an index above 100 and at most 150, and its severity is
    danger exactly when the index is 150, the top of the generated range:
    every other air alert is a warning. *)
Theorem air_alert_danger_only_at_150 :
  forall (G : Type) (R : PyRandom G) (db : Db.database)
         (location_id : Z) (alerts : list alert) (a : alert),
    reachable (G := G) db ->
    fst (get_alerts location_id db) = Py.Return alerts ->
    In a alerts ->
    alert_type a = "air_quality"%string ->
    exists v source,
      message a = Poor_air_quality v source /\
      (100 < v <= 150)%Z /\
      (severity a = "danger"%string <-> v = 150%Z) /\
      (severity a = "warning"%string <-> (v < 150)%Z).
Proof.
  intros G R db location_id alerts a Hreach Hrun Hin Htype.
  pose proof (reachable_in_range Hreach) as (Hrange & _ & _).
  rewrite get_alerts_run in Hrun. cbn [fst] in Hrun.
  destruct (Db.int64 location_id); [| discriminate].
  injection Hrun as <-.
  destruct (hd_error (Db.select_recent air_timestamp (Db.air_quality db)
                                       location_id 1)) as [ra |] eqn:Ha.
  - apply latest_row_is_stored in Ha. destruct Ha as [Hstored _].
    rewrite Forall_forall in Hrange. specialize (Hrange ra Hstored).
    destruct Hrange as (_ & _ & _ & _ & Haqi).
    unfold evaluate_alerts in Hin.
    destruct (hd_error (Db.select_recent water_timestamp (Db.water_data db)
                                         location_id 1)) as [rw |];
      cbv zeta in Hin;
      destruct (Z.gtb_spec (aqi (Db.obs ra)) 100) as [Hgt | Hle];
      repeat match type of Hin with
             | context [if ?b then _ else _] => destruct b eqn:?
             end;
      cbn [app In] in Hin;
      repeat match goal with
             | Hx : _ \/ _ |- _ => destruct Hx as [Hx | Hx]
             | Hx : False |- _ => contradiction
             end;
      subst a; cbn in Htype; try discriminate;
      exists (aqi (Db.obs ra)), (air_source (Db.obs ra));
      cbn [message severity];
      (split; [reflexivity |]); (split; [lia |]);
      match goal with
      | E : (_ <? 150)%Z = true |- _ =>
          apply Z.ltb_lt in E; split; split; intro; try discriminate;
          try reflexivity; lia
      | E : (_ <? 150)%Z = false |- _ =>
          apply Z.ltb_ge in E; split; split; intro; try discriminate;
          try reflexivity; lia
      end.
  - unfold evaluate_alerts in Hin.
    destruct (hd_error (Db.select_recent water_timestamp (Db.water_data db)
                                         location_id 1)) as [rw |];
      cbv zeta in Hin;
      repeat match type of Hin with
             | context [if ?b then _ else _] => destruct b eqn:?
             end;
      cbn [app In] in Hin;
      repeat match goal with
             | Hx : _ \/ _ |- _ => destruct Hx as [Hx | Hx]
             | Hx : False |- _ => contradiction
             end;
      subst a; cbn in Htype; discriminate.
Qed.

Lemma air_alert_danger_only_at_150_witness :
  exists alerts a v source,
    fst (get_alerts 1 smog_database) = Py.Return alerts /\
    In a alerts /\
    message a = Poor_air_quality v source /\
    (100 < v <= 150)%Z /\
    (severity a = "danger"%string <-> v = 150%Z).
Proof.
  assert (Hreach : reachable (G := nat) smog_database).
  { unfold smog_database. apply reach_dashboard. apply reach_init. }
  assert (Halerts : exists a rest,
             fst (get_alerts 1 smog_database) = Py.Return (a :: rest) /\
             alert_type a = "air_quality"%string).
  { vm_compute. eexists _, _. split; reflexivity. }
  destruct Halerts as (a & rest & Hal & Htype).
  assert (Hin : In a (a :: rest)) by (left; reflexivity).
  destruct (@air_alert_danger_only_at_150
              nat Demo.demo_gen smog_database 1 (a :: rest) a
              Hreach Hal Hin Htype)
    as (v & source & Hmsg & Hv & Hdanger & _).
  exists (a :: rest), a, v, source.
  split; [exact Hal |].
  split; [exact Hin | split; [exact Hmsg | split; [exact Hv | exact Hdanger]]].
Defined.

(** ** Start-up *)

(** X19: [init_db] inserts the six sample locations, with the ids 1 to 6,
    only into a database without locations; a database that has a location
    is left exactly as it is, so running it again changes nothing, and the
    observation and audit tables are never touched. *)
Theorem init_db_seeds_once :
  (forall db, Db.locations db <> [] -> init_db (Some db) = db) /\
  (forall file, init_db (Some (init_db file)) = init_db file) /\
  (forall db,
      Db.locations db = [] ->
      map Db.id (Db.locations (init_db (Some db))) = [1; 2; 3; 4; 5; 6]%Z /\
      map Db.name (Db.locations (init_db (Some db)))
      = map (fun '(n, _, _, _, _) => n) sample_locations) /\
  (forall db,
      Db.air_quality (init_db (Some db)) = Db.air_quality db /\
      Db.water_data (init_db (Some db)) = Db.water_data db /\
      Db.vegetation (init_db (Some db)) = Db.vegetation db /\
      Db.api_logs (init_db (Some db)) = Db.api_logs db).
Proof.
  assert (Hkeep : forall db, Db.locations db <> [] -> init_db (Some db) = db).
  { intros db Hne. unfold init_db.
    destruct (Db.locations db) as [| l ls]; [congruence | reflexivity]. }
  assert (Hseed : forall db,
             Db.locations db = [] ->
             map Db.id (Db.locations (init_db (Some db)))
             = [1; 2; 3; 4; 5; 6]%Z /\
             map Db.name (Db.locations (init_db (Some db)))
             = map (fun '(n, _, _, _, _) => n) sample_locations).
  { intros [l a wd v g] Hl. cbn in Hl. subst l. split; reflexivity. }
  split; [exact Hkeep |]. split; [| split; [exact Hseed |]].
  - intros file. apply Hkeep.
    destruct file as [db |].
    + destruct (Db.locations db) as [| l ls] eqn:El.
      * destruct (Hseed db El) as [Hids _].
        intro Hnil. rewrite Hnil in Hids. discriminate.
      * rewrite Hkeep; rewrite El; discriminate.
    + discriminate.
  - intros [l a wd v g]. destruct l as [| x l]; repeat split.
Qed.

Lemma init_db_seeds_once_witness :
  init_db (Some Demo.alarming) = Demo.alarming.
Proof.
  destruct init_db_seeds_once as (Hkeep & _).
  apply Hkeep. discriminate.
Defined.

(** ** The credentials of the HTTP session *)

(** X20: the client attaches the credentials to its HTTP session only in
    the requests fallback of the set-up (earthaccess missing, or its login
    failing with an ImportError) and only when both strings are non-empty.
    A client authenticated through earthaccess therefore sends its HTTP
    calls without credentials.  The API key is taken from the configuration
    as it is. *)
Theorem session_credentials_only_in_fallback :
  forall (cfg : NASA_CONFIG_t) (w : Vendor.world),
    let u := earthdata_username cfg in
    let p := earthdata_password cfg in
    let self := NASAAPIClient.init cfg w in
    (u <> ""%string /\ p <> ""%string /\ fallback_taken w u p ->
     NASAAPIClient.session_auth self = Some (u, p) /\
     NASAAPIClient.authenticated self = true) /\
    (~ (u <> ""%string /\ p <> ""%string /\ fallback_taken w u p) ->
     NASAAPIClient.session_auth self = None) /\
    NASAAPIClient.api_key self = config_api_key cfg.
Proof.
  intros cfg w u p self. subst u p self.
  unfold NASAAPIClient.init, fallback_taken.
  cbn [NASAAPIClient.username NASAAPIClient.password].
  rewrite <- !truthy_nonempty.
  destruct (Py.truthy (earthdata_username cfg)),
           (Py.truthy (earthdata_password cfg)); cbn [andb];
    try (cbn; repeat split; intros; try reflexivity;
         intuition discriminate).
  unfold NASAAPIClient.setup_authentication, Py.try_except, Py.bind, Py.lift.
  destruct (Vendor.import_earthaccess w) as [ea | e]; cbn.
  - destruct (Vendor.login ea (earthdata_username cfg)
                           (earthdata_password cfg)) as [[] | e]; cbn.
    + repeat split; intros; try reflexivity; intuition.
    + destruct e; cbn; repeat split; intros; try reflexivity;
        intuition discriminate.
  - destruct e; cbn; repeat split; intros; try reflexivity;
      intuition discriminate.
Qed.

Lemma session_credentials_only_in_fallback_witness :
  NASAAPIClient.session_auth
    (NASAAPIClient.init (NASA_CONFIG "user" "secret" "")
                        (Demo.online 200 false))
  = None /\
  NASAAPIClient.session_auth
    (NASAAPIClient.init (NASA_CONFIG "user" "secret" "") Demo.offline)
  = Some ("user", "secret")%string.
Proof.
  destruct (session_credentials_only_in_fallback
              (NASA_CONFIG "user" "secret" "") (Demo.online 200 false))
    as (_ & Hnone & _).
  destruct (session_credentials_only_in_fallback
              (NASA_CONFIG "user" "secret" "") Demo.offline)
    as (Hsome & _ & _).
  split.
  - apply Hnone. intros (_ & _ & Hf). exact Hf.
  - apply Hsome. repeat split; discriminate.
Defined.

(** ** The installation checker *)

(** X21: the version check of the installation checker accepts exactly
    the versions with major >= 3 and minor >= 8.  Every accepted version is
    at least 3.8, but not every version from 3.8 on is accepted: a release
    with a major number above 3 and a minor number below 8 is rejected. *)
Theorem check_python_compares_fields_separately :
  forall major minor micro : Z,
    (check_python major minor micro = true <->
     (3 <= major /\ 8 <= minor)%Z) /\
    (check_python major minor micro = true ->
     version_le (3, 8)%Z (major, minor)) /\
    ((3 < major)%Z -> (minor < 8)%Z ->
     version_le (3, 8)%Z (major, minor) /\
     check_python major minor micro = false).
Proof.
  intros major minor micro. unfold check_python, version_le. cbn [fst snd].
  rewrite andb_true_iff, !Z.geb_le.
  repeat split; intros; lia.
Qed.

Lemma check_python_compares_fields_separately_witness :
  check_python 4 0 0 = false /\ version_le (3, 8)%Z (4, 0)%Z.
Proof.
  destruct (check_python_compares_fields_separately 4 0 0) as (_ & _ & H4).
  destruct H4 as [Hle Hrej]; [lia | lia |]. split; assumption.
Defined.

(** ** How the index responds to its inputs *)

Lemma clamp_monotone (x y : Q) :
  x <= y -> clamp x 0 100 <= clamp y 0 100.
Proof.
  intro Hxy. unfold clamp.
  destruct (Qlt_le_dec x 0), (Qlt_le_dec y 0); try lra;
    destruct (Qlt_le_dec 100 x), (Qlt_le_dec 100 y); lra.
Qed.

Lemma reported_index_monotone a wd v a' wd' v' :
  wellbeing_index a wd v <= wellbeing_index a' wd' v' ->
  reported_index a wd v <= reported_index a' wd' v'.
Proof.
  intro Hle. unfold reported_index.
  destruct (min_max_is_clamp (wellbeing_index a wd v)) as [E _].
  destruct (min_max_is_clamp (wellbeing_index a' wd' v')) as [E' _].
  rewrite E, E'. apply clamp_monotone. exact Hle.
Qed.

(** X22: the reported index never rises when the air quality index rises
    and never falls when the groundwater level rises; and it does not tell
    air quality indices from 100 upwards apart: all of them give the air
    score 0 and hence the same index. *)
Theorem index_follows_air_and_water :
  forall (a : air_obs) (wd : water_obs) (veg : option vegetation_obs),
    (forall v v' : Z,
        (v <= v')%Z ->
        reported_index (Some (with_aqi a v')) (Some wd) veg
        <= reported_index (Some (with_aqi a v)) (Some wd) veg) /\
    (forall l l' : Q,
        l <= l' ->
        reported_index (Some a) (Some (with_level wd l)) veg
        <= reported_index (Some a) (Some (with_level wd l')) veg) /\
    (forall v v' : Z,
        (100 <= v)%Z -> (100 <= v')%Z ->
        reported_index (Some (with_aqi a v)) (Some wd) veg
        = reported_index (Some (with_aqi a v')) (Some wd) veg).
Proof.
  intros a wd veg. split; [| split].
  - intros v v' Hv. apply reported_index_monotone.
    unfold wellbeing_index, air_score, with_aqi. cbn [aqi].
    rewrite !maxZ_is_max.
    assert (Hs : inject_Z (Z.max 0 (100 - v'))
                 <= inject_Z (Z.max 0 (100 - v))).
    { rewrite <- Zle_Qle. lia. }
    lra.
  - intros l l' Hl. apply reported_index_monotone.
    unfold wellbeing_index, water_score, with_level.
    cbn [groundwater_level]. lra.
  - intros v v' Hv Hv'.
    unfold reported_index, wellbeing_index, air_score, with_aqi. cbn [aqi].
    rewrite !maxZ_is_max.
    replace (Z.max 0 (100 - v)) with 0%Z by lia.
    replace (Z.max 0 (100 - v')) with 0%Z by lia.
    reflexivity.
Qed.

Lemma index_follows_air_and_water_witness :
  reported_index (Some (with_aqi air_aqi_500 100)) (Some water_level_100) None
  = reported_index (Some (with_aqi air_aqi_500 500)) (Some water_level_100)
                   None.
Proof.
  destruct (index_follows_air_and_water air_aqi_500 water_level_100 None)
    as (_ & _ & Hsame).
  apply Hsame; lia.
Defined.

(** ** What location creation stores *)

(** X23: location creation stores a row only when it answers with a new
    id, and it does so only for a request that names all three required
    fields with a latitude in [-90,90] and a longitude in [-180,180] and
    whose insert did not fail; with any other answer the database is as
    before. *)
Theorem add_location_stores_only_valid :
  forall (sqlite : Db.engine) (data : Py.object) (db : Db.database),
    (forall msg new_id,
        fst (add_location sqlite data db) = Added msg new_id ->
        Db.insert_fails sqlite = false /\
        exists items v_name v_lat v_lon lat lon,
          data = Py.PyDict items /\
          Py.lookup items "name" = Some v_name /\
          Py.lookup items "latitude" = Some v_lat /\
          Py.lookup items "longitude" = Some v_lon /\
          Py.number v_lat = Some (Py.Finite lat) /\
          Py.number v_lon = Some (Py.Finite lon) /\
          -90 <= lat <= 90 /\ -180 <= lon <= 180 /\
          (Db.id (last (Db.locations (snd (add_location sqlite data db)))
                       {| Db.id := 0; Db.name := ""; Db.latitude := 0;
                          Db.longitude := 0; Db.population := Db.Null;
                          Db.area := Db.Null |})
           = new_id) /\
          List.length (Db.locations (snd (add_location sqlite data db)))
          = S (List.length (Db.locations db))) /\
    ((forall msg new_id,
         fst (add_location sqlite data db) <> Added msg new_id) ->
     snd (add_location sqlite data db) = db).
Proof.
  intros sqlite data db.
  destruct (add_location_effect sqlite data db)
    as [[Hsame Hno] | (items & v_name & v_lat & v_lon & b_name & b_pop
                       & b_area & n & lat & lon & -> & Hname & Hlat & Hlon
                       & Nlat & Rlat & Nlon & Rlon & _ & _ & _ & _ & Hfault
                       & E)].
  - split; [| intros _; exact Hsame].
    intros msg new_id Hadd. exfalso. exact (Hno msg new_id Hadd).
  - cbv zeta in E. rewrite E. cbn [fst snd]. split.
    + intros msg new_id Hadd. injection Hadd as _ <-.
      split; [exact Hfault |].
      exists items, v_name, v_lat, v_lon, lat, lon.
      repeat (split; [first [reflexivity | assumption] |]).
      cbn [appended Db.locations]. split.
      * rewrite last_last. reflexivity.
      * rewrite length_app. cbn. lia.
    + intro Hnot. exfalso. eapply Hnot. reflexivity.
Qed.

Lemma add_location_stores_only_valid_witness :
  snd (add_location Demo.sqlite (location_body "Nowhere" 91 0)
                    (init_db None))
  = init_db None.
Proof.
  destruct (add_location_stores_only_valid
              Demo.sqlite (location_body "Nowhere" 91 0) (init_db None))
    as [_ Hkeep].
  apply Hkeep. intros msg new_id. vm_compute. discriminate.
Defined.
